(** * Identity and sync core of ZorixGlobalApp.jsx

    A shallow embedding of the data layer of [src/ZorixGlobalApp.jsx]:
    [withRetry], [useFirebaseSetup], [useCmsConfig] and [submitLead],
    together with the properties the specification states about them.

    Conventions of the embedding.
    - An [async] function is a state-passing function over the world it acts
      on; a promise that settles is an [outcome]: [Resolve] for a fulfilled
      promise, [Reject] for a rejected one (or a synchronous [throw] inside
      a [try]).
    - JavaScript numbers that count retries and milliseconds are integers
      of [Z]; the values that occur (5, 1000 and their successors under
      [- 1] and [* 2]) are exactly representable.
    - [withRetry] calls itself; its recursion is driven by fuel, and every
      statement that something is returned says how much fuel is enough.
    - A call to an [async] function that is not awaited runs up to its
      first suspension, and the caller goes on; the rest of the call is
      run to its end before the next input is handled. *)

From Stdlib Require Import Ascii String.
From stdpp Require Import base numbers list strings gmap.

Local Open Scope Z_scope.

(** ** Settled promises *)

Inductive outcome (A E : Type) : Type :=
  | Resolve (a : A)
  | Reject (e : E).
Arguments Resolve {A E} a.
Arguments Reject {A E} e.

Definition is_reject {A E} (o : outcome A E) : bool :=
  match o with Reject _ => true | Resolve _ => false end.

(** ** withRetry (lines 14-22) *)

Module Retry.

(** What [withRetry] does, in order: it invokes the operation (the tick
    records how that invocation settled) and it waits on [setTimeout]. *)
Inductive tick (A E : Type) : Type :=
  | Attempt (o : outcome A E)
  | Wait (ms : Z).
Arguments Attempt {A E} o.
Arguments Wait {A E} ms.

Section WithRetry.
Context {W A E : Type}.

(** [await new Promise(resolve => setTimeout(resolve, delay))]: whatever
    happens to the world while the caller is suspended. *)
Variable setTimeout : Z → W → W.

(** The wrapped operation [fn]. *)
Variable fn : W → outcome A E * W.

Fixpoint withRetry (fuel : nat) (retries delay : Z) (w : W)
  : option (outcome A E * W * list (tick A E)) :=
  match fuel with
  | O => None
  | S fuel' =>
      let '(o, w1) := fn w in
      match o with
      | Resolve a => Some (Resolve a, w1, [Attempt o])
      | Reject error =>
          if retries =? 0 then Some (Reject error, w1, [Attempt o])
          else
            match withRetry fuel' (retries - 1) (delay * 2) (setTimeout delay w1) with
            | Some (r, w2, tr) => Some (r, w2, Attempt o :: Wait delay :: tr)
            | None => None
            end
      end
  end.

(** A call of [withRetry] runs synchronously up to its first [await]:
    [fn()] has been invoked and the caller goes on. [resume] is the rest
    of that call (lines 17-21), from the moment the promise of the first
    invocation has settled with [o]. *)
Definition resume (fuel : nat) (retries delay : Z) (o : outcome A E) (w : W)
  : option (outcome A E * W * list (tick A E)) :=
  match o with
  | Resolve a => Some (Resolve a, w, [])
  | Reject error =>
      if retries =? 0 then Some (Reject error, w, [])
      else
        match withRetry fuel (retries - 1) (delay * 2) (setTimeout delay w) with
        | Some (r, w2, tr) => Some (r, w2, Wait delay :: tr)
        | None => None
        end
  end.

(** Observations on a run. *)
Fixpoint attempts (tr : list (tick A E)) : nat :=
  match tr with
  | [] => O
  | Attempt _ :: tr' => S (attempts tr')
  | Wait _ :: tr' => attempts tr'
  end.

Fixpoint waits (tr : list (tick A E)) : list Z :=
  match tr with
  | [] => []
  | Attempt _ :: tr' => waits tr'
  | Wait ms :: tr' => ms :: waits tr'
  end.

(** The world in which attempt number [i] (counted from 0) starts when
    every earlier attempt failed, and how that attempt settles. *)
Fixpoint world_at (i : nat) (delay : Z) (w : W) : W :=
  match i with
  | O => w
  | S j => world_at j (delay * 2) (setTimeout delay (snd (fn w)))
  end.

Definition outcome_at (i : nat) (delay : Z) (w : W) : outcome A E :=
  fst (fn (world_at i delay w)).

(** The ticks of [k] failed attempts, each followed by its wait. *)
Fixpoint failed_prefix (k : nat) (delay : Z) (w : W) : list (tick A E) :=
  match k with
  | O => []
  | S j =>
      Attempt (fst (fn w)) :: Wait delay
        :: failed_prefix j (delay * 2) (setTimeout delay (snd (fn w)))
  end.

(** Doubling delays: [d, 2d, 4d, ...]. *)
Fixpoint backoff (k : nat) (delay : Z) : list Z :=
  match k with
  | O => []
  | S j => delay :: backoff j (delay * 2)
  end.

End WithRetry.

End Retry.

(** ** JavaScript values that occur in the data layer *)

(** A user id is [null] (the initial state), [undefined] (an absent
    property read through [?.]) or a string. *)
Inductive jsval : Type :=
  | JNull
  | JUndefined
  | JStr (s : string).

(** Truthiness, as [!x] and [x || y] test it. *)
Definition truthy (v : jsval) : bool :=
  match v with
  | JStr EmptyString => false
  | JStr _ => true
  | JNull | JUndefined => false
  end.

(** A plain object with string fields: form data, a configuration
    document, a lead record. *)
Abbreviation jsobj := (gmap string string).

(** ** Platform functions *)

Module Platform.

Definition hex_digit (n : Z) : ascii :=
  match n mod 16 with
  | 0 => "0" | 1 => "1" | 2 => "2" | 3 => "3" | 4 => "4" | 5 => "5"
  | 6 => "6" | 7 => "7" | 8 => "8" | 9 => "9" | 10 => "a" | 11 => "b"
  | 12 => "c" | 13 => "d" | 14 => "e" | _ => "f"
  end%char.

Definition hex2 (b : Z) (k : string) : string :=
  String (hex_digit (b / 16)) (String (hex_digit b) k).

(** [crypto.randomUUID()]: a version 4 UUID made of 16 random bytes
    [b 0 .. b 15], with the version and variant bits forced, printed as
    8-4-4-4-12 lower-case hexadecimal digits. *)
Definition uuid_byte (b : nat → Z) (i : nat) : Z :=
  match i with
  | 6%nat => Z.lor (Z.land (b i) 15) 64
  | 8%nat => Z.lor (Z.land (b i) 63) 128
  | _ => b i
  end.

Definition hex_bytes (b : nat → Z) (from count : nat) (k : string) : string :=
  foldr (λ i acc, hex2 (uuid_byte b i) acc) k (seq from count).

Definition uuid_of_bytes (b : nat → Z) : string :=
  hex_bytes b 0 4 (String "-" (hex_bytes b 4 2 (String "-" (hex_bytes b 6 2
    (String "-" (hex_bytes b 8 2 (String "-" (hex_bytes b 10 6 EmptyString)))))))).

Definition digit_char (n : Z) : ascii :=
  match n mod 10 with
  | 0 => "0" | 1 => "1" | 2 => "2" | 3 => "3" | 4 => "4"
  | 5 => "5" | 6 => "6" | 7 => "7" | 8 => "8" | _ => "9"
  end%char.

Definition pad2 (n : Z) (k : string) : string :=
  String (digit_char (n / 10)) (String (digit_char n) k).

Definition pad3 (n : Z) (k : string) : string :=
  String (digit_char (n / 100)) (pad2 n k).

Definition pad4 (n : Z) (k : string) : string :=
  String (digit_char (n / 1000)) (pad3 n k).

Definition pad6 (n : Z) (k : string) : string :=
  String (digit_char (n / 100000)) (String (digit_char (n / 10000)) (pad4 n k)).

Definition msPerDay : Z := 86400000.

(** Year, month (1-12) and day of the month of a day number counted from
    1970-01-01 in the proleptic Gregorian calendar. *)
Definition civil_from_days (day : Z) : Z * Z * Z :=
  let z := day + 719468 in
  let era := z / 146097 in
  let doe := z - era * 146097 in
  let yoe := (doe - doe / 1460 + doe / 36524 - doe / 146096) / 365 in
  let doy := doe - (365 * yoe + yoe / 4 - yoe / 100) in
  let mp := (5 * doy + 2) / 153 in
  let d := doy - (153 * mp + 2) / 5 + 1 in
  let m := if mp <? 10 then mp + 3 else mp - 9 in
  let y := yoe + era * 400 in
  (if m <=? 2 then y + 1 else y, m, d).

Definition YearFromTime (t : Z) : Z := (civil_from_days (t / msPerDay)).1.1.

(** [Date.prototype.toISOString] of the time value [t] (milliseconds since
    the epoch, UTC): [YYYY-MM-DDTHH:mm:ss.sssZ], with a signed six-digit
    year outside 0000-9999. *)
Definition toISOString (t : Z) : string :=
  let '(y, m, d) := civil_from_days (t / msPerDay) in
  let ms := t mod msPerDay in
  let rest :=
    String "-" (pad2 m (String "-" (pad2 d (String "T"
      (pad2 (ms / 3600000) (String ":" (pad2 (ms / 60000 mod 60) (String ":"
      (pad2 (ms / 1000 mod 60) (String "." (pad3 (ms mod 1000) "Z"))))))))))) in
  if (0 <=? y) && (y <=? 9999) then pad4 y rest
  else String (if y <? 0 then "-"%char else "+"%char) (pad6 (Z.abs y) rest).

Definition is_digit (c : ascii) : bool :=
  let n := nat_of_ascii c in (48 <=? n)%nat && (n <=? 57)%nat.

(** The shape [dddd-dd-ddTdd:dd:dd.dddZ] of an ISO-8601 UTC timestamp. *)
Definition iso8601_utc (s : string) : bool :=
  match list_ascii_of_string s with
  | [y1; y2; y3; y4; "-"; m1; m2; "-"; d1; d2; "T";
     h1; h2; ":"; n1; n2; ":"; s1; s2; "."; f1; f2; f3; "Z"]%char =>
      forallb is_digit [y1; y2; y3; y4; m1; m2; d1; d2; h1; h2; n1; n2; s1; s2; f1; f2; f3]
  | _ => false
  end.

End Platform.

(** ** The backend the data layer talks to *)

(** Failures of the backend: sign-in fails with [AuthError], reads and
    writes with [PermissionError] or [NetworkError]. *)
Inductive error_kind : Type :=
  | AuthError
  | PermissionError
  | NetworkError.

Record error : Type := MkError { kind : error_kind; detail : string }.

(** A signed-in user, as far as this code looks at it. *)
Record principal : Type := MkPrincipal { uid : jsval }.

Abbreviation path := (list string).

Inductive event : Type :=
  | EvTimeout (ms : Z)
  | EvRandomUUID
  | EvAuthListen
  | EvSignInWithCustomToken (token : string)
  | EvSignInAnonymously
  | EvSetDocMerge (ref : path) (data : jsobj)
  | EvAddDoc (ref : path) (data : jsobj)
  | EvSnapshotListen (ref : path)
  | EvUnsubscribe (ref : path).

(** Calls that reach the backend's storage: the seed write, the
    subscription, the record append. *)
Definition is_remote (ev : event) : bool :=
  match ev with
  | EvSetDocMerge _ _ | EvAddDoc _ _ | EvSnapshotListen _ => true
  | _ => false
  end.

Definition is_sign_in (ev : event) : bool :=
  match ev with
  | EvSignInWithCustomToken _ | EvSignInAnonymously => true
  | _ => false
  end.

Definition is_addDoc (ev : event) : bool :=
  match ev with EvAddDoc _ _ => true | _ => false end.

(** What changes while the program runs: the signed-in user of the auth
    instance, the stored documents and collections, and the calls made so
    far, oldest first. *)
Record world : Type := MkWorld {
  currentUser : option principal;
  documents : gmap path jsobj;
  collections : gmap path (list jsobj);
  calls : list event
}.

Definition record_call (ev : event) (w : world) : world :=
  MkWorld (currentUser w) (documents w) (collections w) (calls w ++ [ev]).

Definition set_currentUser (u : option principal) (w : world) : world :=
  MkWorld u (documents w) (collections w) (calls w).

Definition merge_document (ref : path) (data : jsobj) (w : world) : world :=
  MkWorld (currentUser w)
          (<[ref := data ∪ default ∅ (documents w !! ref)]> (documents w))
          (collections w) (calls w).

Definition append_record (ref : path) (data : jsobj) (w : world) : world :=
  MkWorld (currentUser w) (documents w)
          (<[ref := default [] (collections w !! ref) ++ [data]]> (collections w))
          (calls w).

Definition collection_at (ref : path) (w : world) : list jsobj :=
  default [] (collections w !! ref).

(** How many of the calls made so far satisfy [P]. *)
Definition count_calls (P : event → bool) (w : world) : nat :=
  length (List.filter P (calls w)).

(** The delays of the [setTimeout] calls among [evs], in order. *)
Fixpoint timeouts (evs : list event) : list Z :=
  match evs with
  | [] => []
  | EvTimeout ms :: rest => ms :: timeouts rest
  | _ :: rest => timeouts rest
  end.

(** How the backend and the platform answer. Every answer may depend on
    everything that happened before, through the world. *)
Record backend : Type := MkBackend {
  (** the value of [new Date()] *)
  clock : world → Z;
  (** the random bytes [crypto.randomUUID()] draws *)
  entropy : world → nat → Z;
  (** [initializeApp], [getFirestore], [getAuth]: [Some e] when one throws *)
  initialize : jsobj → option error;
  (** a sign-in settles; when it resolves, the user the auth instance
      exposes afterwards *)
  sign_in : world → option string → outcome (option principal) error;
  (** [setDoc(ref, data, {merge: true})]: [Some e] when it is rejected *)
  set_doc : world → path → jsobj → option error;
  (** [addDoc(ref, data)]: [Some e] when it is rejected *)
  add_doc : world → path → jsobj → option error
}.

(** ** Collection paths

    [collection(db, ...components)] of the Firestore SDK builds its path
    with [ResourcePath.fromString]: a component that contains [//] is
    refused; every component is split at [/] and the empty pieces are
    dropped, so leading and trailing slashes are stripped and one
    component can contribute several segments. A collection path must
    have an odd number of segments. A refusal is a synchronous [throw]. *)
Module Paths.

(** [s.split('/')] *)
Fixpoint split (s : string) : list string :=
  match s with
  | EmptyString => [EmptyString]
  | String c rest =>
      if Ascii.eqb c "/" then EmptyString :: split rest
      else
        match split rest with
        | piece :: pieces => String c piece :: pieces
        | [] => [String c EmptyString]
        end
  end.

(** [s.indexOf('//') >= 0] *)
Fixpoint includes_double_slash (s : string) : bool :=
  match s with
  | EmptyString => false
  | String c rest =>
      match rest with
      | EmptyString => false
      | String c' _ => Ascii.eqb c "/" && Ascii.eqb c' "/" || includes_double_slash rest
      end
  end.

(** [s.split('/').filter(segment => segment.length > 0)] *)
Definition segments_of (component : string) : list string :=
  List.filter (λ piece, negb (String.eqb piece EmptyString)) (split component).

(** [ResourcePath.fromString(...components)]; [None] when it throws. *)
Definition fromString (components : list string) : option path :=
  if existsb includes_double_slash components then None
  else Some (concat (List.map segments_of components)).

(** [collection(db, ...components)]; [None] when it throws. *)
Definition collection (components : list string) : option path :=
  match fromString components with
  | Some segments => if Nat.even (length segments) then None else Some segments
  | None => None
  end.

(** A component that is exactly one segment: not empty, no slash. *)
Fixpoint has_slash (s : string) : bool :=
  match s with
  | EmptyString => false
  | String c rest => Ascii.eqb c "/" || has_slash rest
  end.

Definition plain (s : string) : bool :=
  negb (String.eqb s EmptyString) && negb (has_slash s).

End Paths.

(** The globals the canvas environment injects (lines 9-11);
    [firebase_config] is the parsed [__firebase_config]. *)
Record globals : Type := MkGlobals {
  app_id : option string;
  firebase_config : option jsobj;
  initial_auth_token : option string
}.

Definition appId (g : globals) : string := default "default-app-id" (app_id g).
Definition firebaseConfig (g : globals) : option jsobj := firebase_config g.
Definition initialAuthToken (g : globals) : option string := initial_auth_token g.

(** Handles made by [getFirestore(app)] and [getAuth(app)]. *)
Inductive firestore : Type := Firestore (config : jsobj).
Inductive authInstance : Type := Auth (config : jsobj).

Global Instance firestore_eq_dec : EqDecision firestore.
Proof. solve_decision. Defined.

Section Core.
Variable G : globals.
Variable B : backend.

Definition setTimeout (ms : Z) (w : world) : world := record_call (EvTimeout ms) w.

(** [crypto.randomUUID()] *)
Definition randomUUID (w : world) : string * world :=
  (Platform.uuid_of_bytes (entropy B w), record_call EvRandomUUID w).

(** [authInstance.currentUser?.uid] *)
Definition currentUser_uid (w : world) : jsval :=
  match currentUser w with
  | Some u => uid u
  | None => JUndefined
  end.

Definition settle_sign_in (w0 w : world) (token : option string)
  : outcome unit error * world :=
  match sign_in B w0 token with
  | Resolve u => (Resolve (), set_currentUser u w)
  | Reject e => (Reject e, w)
  end.

Definition signInWithCustomToken (token : string) (w : world)
  : outcome unit error * world :=
  settle_sign_in w (record_call (EvSignInWithCustomToken token) w) (Some token).

Definition signInAnonymously (w : world) : outcome unit error * world :=
  settle_sign_in w (record_call EvSignInAnonymously w) None.

Definition setDoc_merge (ref : path) (data : jsobj) (w : world)
  : outcome unit error * world :=
  let w1 := record_call (EvSetDocMerge ref data) w in
  match set_doc B w ref data with
  | None => (Resolve (), merge_document ref data w1)
  | Some e => (Reject e, w1)
  end.

(** [addDoc] resolves to the position of the new record. *)
Definition addDoc (ref : path) (data : jsobj) (w : world)
  : outcome nat error * world :=
  let w1 := record_call (EvAddDoc ref data) w in
  match add_doc B w ref data with
  | None => (Resolve (length (collection_at ref w)), append_record ref data w1)
  | Some e => (Reject e, w1)
  end.

(** [withRetry(fn)] with the default [retries = 5, delay = 1000]. *)
Definition withRetry_default {A} (fuel : nat) (fn : world → outcome A error * world)
    (w : world) : option (outcome A error * world * list (Retry.tick A error)) :=
  Retry.withRetry setTimeout fn fuel 5 1000 w.

(** ** useFirebaseSetup (lines 26-83) *)

Record firebase_state : Type := MkFirebase {
  db : option firestore;
  auth : option authInstance;
  userId : jsval;
  isAuthReady : bool
}.

(** The four [useState] initial values. *)
Definition useFirebaseSetup_initial : firebase_state := MkFirebase None None JNull false.

Definition setDb (v : option firestore) (st : firebase_state) : firebase_state :=
  MkFirebase v (auth st) (userId st) (isAuthReady st).
Definition setAuth (v : option authInstance) (st : firebase_state) : firebase_state :=
  MkFirebase (db st) v (userId st) (isAuthReady st).
Definition setUserId (v : jsval) (st : firebase_state) : firebase_state :=
  MkFirebase (db st) (auth st) v (isAuthReady st).
Definition setIsAuthReady (v : bool) (st : firebase_state) : firebase_state :=
  MkFirebase (db st) (auth st) (userId st) v.

(** The effect (lines 32-80), run once after the first render. The
    boolean tells whether the auth-state listener was registered. *)
Definition useFirebaseSetup_effect (st : firebase_state) (w : world)
  : firebase_state * world * bool :=
  match firebaseConfig G with
  | None => (setIsAuthReady true st, w, false)
  | Some cfg =>
      match initialize B cfg with
      | Some _ => (setIsAuthReady true st, w, false)
      | None =>
          (setAuth (Some (Auth cfg)) (setDb (Some (Firestore cfg)) st),
           record_call EvAuthListen w, true)
      end
  end.

(** The sign-in the callback attempts (lines 58-62). *)
Definition sign_in_attempt : world → outcome unit error * world :=
  match initialAuthToken G with
  | Some token =>
      if truthy (JStr token) then signInWithCustomToken token else signInAnonymously
  | None => signInAnonymously
  end.

(** The credential that attempt presents: the token, or none for an
    anonymous sign-in. *)
Definition sign_in_token : option string :=
  match initialAuthToken G with
  | Some token => if truthy (JStr token) then Some token else None
  | None => None
  end.

(** [authInstance.currentUser?.uid || crypto.randomUUID()] (line 52):
    the right operand is evaluated only when the left one is falsy. *)
Definition uid_or_randomUUID (w : world) : jsval * world :=
  if truthy (currentUser_uid w) then (currentUser_uid w, w)
  else let '(s, w') := randomUUID w in (JStr s, w').

(** The auth-state callback (lines 51-72). *)
Definition onAuthStateChanged_callback (fuel : nat) (user : option principal)
    (st : firebase_state) (w : world) : option (firebase_state * world) :=
  let '(currentUserId, w1) := uid_or_randomUUID w in
  match user with
  | None =>
      match withRetry_default fuel sign_in_attempt w1 with
      | None => None
      | Some (Resolve _, w2, _) =>
          Some (setIsAuthReady true (setUserId (currentUser_uid w2) st), w2)
      | Some (Reject e, w2, _) =>
          Some (setIsAuthReady true (setUserId currentUserId st), w2)
      end
  | Some _ => Some (setIsAuthReady true (setUserId currentUserId st), w1)
  end.

(** The listener receives the notifications the backend sends, in order. *)
Fixpoint notify (fuel : nat) (notifications : list (option principal))
    (st : firebase_state) (w : world) : option (firebase_state * world) :=
  match notifications with
  | [] => Some (st, w)
  | user :: rest =>
      match onAuthStateChanged_callback fuel user st w with
      | Some (st1, w1) => notify fuel rest st1 w1
      | None => None
      end
  end.

(** The hook from its first render on: the effect, then the notifications
    if a listener was registered. *)
Definition useFirebaseSetup (fuel : nat) (notifications : list (option principal))
    (w : world) : option (firebase_state * world) :=
  let '(st, w1, listening) := useFirebaseSetup_effect useFirebaseSetup_initial w in
  if listening then notify fuel notifications st w1 else Some (st, w1).

(** ** Paths (lines 89-90) *)

Definition getCmsDocRef (d : firestore) : path :=
  ["artifacts"; appId G; "public"; "data"; "zorix_cms_config"; "metrics"].

(** [None] when [collection] throws; it does so on a [userId] that is
    not a string, when it looks for [//] in it. *)
Definition getLeadsCollectionRef (d : firestore) (userId : jsval) : option path :=
  match userId with
  | JStr s => Paths.collection ["artifacts"; appId G; "users"; s; "zorix_leads"]
  | JNull | JUndefined => None
  end.

(** ** useCmsConfig (lines 95-132) *)

Definition defaultData : jsobj :=
  {[ "years" := "5+"; "countries" := "15+"; "projects" := "500+"; "customers" := "300+" ]}.

(** The hook's state: [config], the dependencies of the last effect run,
    and the document the current effect listens to, if any. *)
Record cms_state : Type := MkCms {
  config : jsobj;
  deps : option (option firestore * bool);
  subscription : option path
}.

Definition useCmsConfig_initial : cms_state := MkCms defaultData None None.

Definition setConfig (v : jsobj) (st : cms_state) : cms_state :=
  MkCms v (deps st) (subscription st).
Definition set_deps (v : option (option firestore * bool)) (st : cms_state) : cms_state :=
  MkCms (config st) v (subscription st).
Definition set_subscription (v : option path) (st : cms_state) : cms_state :=
  MkCms (config st) (deps st) v.

(** What [onSnapshot] delivers: [docSnap.exists()] with [docSnap.data()],
    or a snapshot of a document that does not exist. *)
Inductive snapshot : Type :=
  | DocExists (data : jsobj)
  | DocMissing.

(** The two listener callbacks (lines 116-126). *)
Definition onNext (docSnap : snapshot) (st : cms_state) : cms_state :=
  match docSnap with
  | DocExists data => setConfig data st
  | DocMissing => setConfig defaultData st
  end.

Definition onError (e : error) (st : cms_state) : cms_state := setConfig defaultData st.

(** The cleanup the effect returned (line 128), if it returned one. *)
Definition useCmsConfig_cleanup (st : cms_state) (w : world) : cms_state * world :=
  match subscription st with
  | Some ref => (set_subscription None st, record_call (EvUnsubscribe ref) w)
  | None => (st, w)
  end.

(** The effect body (lines 100-128). [initializeDoc()] is called without
    [await]: it runs up to the first suspension of its [withRetry], so the
    first [setDoc] has been called when the effect goes on and registers
    the listener. The rest of [initializeDoc], the waits and retries that
    follow a rejected first write, comes after that; it is run to its end
    here, and its result is dropped. *)
Definition useCmsConfig_effect (fuel : nat) (d : option firestore) (ready : bool)
    (st : cms_state) (w : world) : option (cms_state * world) :=
  match d with
  | Some h =>
      if ready then
        let docRef := getCmsDocRef h in
        let '(o, w1) := setDoc_merge docRef defaultData w in
        let w2 := record_call (EvSnapshotListen docRef) w1 in
        match Retry.resume setTimeout (setDoc_merge docRef defaultData) fuel 5 1000 o w2 with
        | None => None
        | Some (_, w3, _) => Some (set_subscription (Some docRef) st, w3)
        end
      else Some (st, w)
  | None => Some (st, w)
  end.

(** A render with arguments [(db, isAuthReady)]: the effect runs on the
    first render and whenever a dependency changed, after the cleanup of
    the previous run. *)
Definition useCmsConfig_render (fuel : nat) (d : option firestore) (ready : bool)
    (st : cms_state) (w : world) : option (cms_state * world) :=
  if decide (deps st = Some (d, ready)) then Some (st, w)
  else
    let '(st1, w1) := useCmsConfig_cleanup st w in
    useCmsConfig_effect fuel d ready (set_deps (Some (d, ready)) st1) w1.

(** What happens to a mounted hook: it is rendered, or the backend
    delivers to its listener. A delivery without a listener is lost. *)
Inductive cms_input : Type :=
  | Render (d : option firestore) (ready : bool)
  | Next (docSnap : snapshot)
  | Error (e : error).

Definition useCmsConfig_step (fuel : nat) (i : cms_input) (st : cms_state) (w : world)
  : option (cms_state * world) :=
  match i with
  | Render d ready => useCmsConfig_render fuel d ready st w
  | Next docSnap =>
      Some (match subscription st with Some _ => onNext docSnap st | None => st end, w)
  | Error e =>
      Some (match subscription st with Some _ => onError e st | None => st end, w)
  end.

Fixpoint useCmsConfig_run (fuel : nat) (inputs : list cms_input)
    (st : cms_state) (w : world) : option (cms_state * world) :=
  match inputs with
  | [] => Some (st, w)
  | i :: rest =>
      match useCmsConfig_step fuel i st w with
      | Some (st1, w1) => useCmsConfig_run fuel rest st1 w1
      | None => None
      end
  end.

(** [useCmsConfig] returns [config]. *)
Definition useCmsConfig (fuel : nat) (inputs : list cms_input) (w : world)
  : option jsobj :=
  match useCmsConfig_run fuel inputs useCmsConfig_initial w with
  | Some (st, _) => Some (config st)
  | None => None
  end.

(** ** submitLead (lines 137-155) *)

Record result : Type := MkResult { success : bool; message : string }.

(** The object literal of lines 145-149, built when the operation runs. *)
Definition lead_record (formData : jsobj) (w : world) : jsobj :=
  <["status" := "New"]>
    (<["timestamp" := Platform.toISOString (clock B w)]> formData).

Definition submitLead (fuel : nat) (d : option firestore) (uid : jsval)
    (formData : jsobj) (w : world) : option (result * world) :=
  match d with
  | Some h =>
      if truthy uid then
        match getLeadsCollectionRef h uid with
        | Some leadsCollectionRef =>
            match
              withRetry_default fuel
                (λ w0, addDoc leadsCollectionRef (lead_record formData w0) w0) w
            with
            | None => None
            | Some (Resolve _, w1, _) =>
                Some (MkResult true
                        "Thank you! Your inquiry has been successfully submitted.", w1)
            | Some (Reject error, w1, _) =>
                Some (MkResult false
                        "Submission failed. Please check your network connection.", w1)
            end
        | None =>
            Some (MkResult false "Submission failed. Please check your network connection.", w)
        end
      else Some (MkResult false "System not ready. Please try again later.", w)
  | None => Some (MkResult false "System not ready. Please try again later.", w)
  end.

(** ** App (lines 758-761): the two hooks in one component *)

Record app_state : Type := MkApp {
  identity : firebase_state;
  auth_listener : bool;
  cms : cms_state
}.

(** What the backend sends to a mounted [App]. *)
Inductive app_input : Type :=
  | AuthStateChanged (user : option principal)
  | SnapshotNext (docSnap : snapshot)
  | SnapshotError (e : error).

(** A render of [App]: [useCmsConfig(db, isAuthReady)] with the current
    values of the identity hook. *)
Definition App_render (fuel : nat) (s : app_state) (w : world)
  : option (app_state * world) :=
  match useCmsConfig_render fuel (db (identity s)) (isAuthReady (identity s)) (cms s) w with
  | Some (c, w1) => Some (MkApp (identity s) (auth_listener s) c, w1)
  | None => None
  end.

(** The first render sees [db = null] and [isAuthReady = false]; its
    effects run in the order of the hooks, and the state they set causes
    a second render. *)
Definition App_mount (fuel : nat) (w : world) : option (app_state * world) :=
  let '(st, w1, listening) := useFirebaseSetup_effect useFirebaseSetup_initial w in
  match useCmsConfig_render fuel None false useCmsConfig_initial w1 with
  | Some (c, w2) => App_render fuel (MkApp st listening c) w2
  | None => None
  end.

Definition App_step (fuel : nat) (i : app_input) (s : app_state) (w : world)
  : option (app_state * world) :=
  match i with
  | AuthStateChanged user =>
      if auth_listener s then
        match onAuthStateChanged_callback fuel user (identity s) w with
        | Some (st, w1) => App_render fuel (MkApp st true (cms s)) w1
        | None => None
        end
      else Some (s, w)
  | SnapshotNext docSnap =>
      match useCmsConfig_step fuel (Next docSnap) (cms s) w with
      | Some (c, w1) => Some (MkApp (identity s) (auth_listener s) c, w1)
      | None => None
      end
  | SnapshotError e =>
      match useCmsConfig_step fuel (Error e) (cms s) w with
      | Some (c, w1) => Some (MkApp (identity s) (auth_listener s) c, w1)
      | None => None
      end
  end.

Fixpoint App_run (fuel : nat) (inputs : list app_input) (s : app_state) (w : world)
  : option (app_state * world) :=
  match inputs with
  | [] => Some (s, w)
  | i :: rest =>
      match App_step fuel i s w with
      | Some (s1, w1) => App_run fuel rest s1 w1
      | None => None
      end
  end.

Definition App (fuel : nat) (inputs : list app_input) (w : world)
  : option (app_state * world) :=
  match App_mount fuel w with
  | Some (s, w1) => App_run fuel inputs s w1
  | None => None
  end.

(** In [App], as long as the identity hook exposes no handle or is not
    ready, the configuration hook is not listening, shows the defaults and
    has made no storage call. *)
Definition App_guard_invariant (w0 : world) (s : app_state) (w : world) : Prop :=
  db (identity s) = None ∨ isAuthReady (identity s) = false →
  subscription (cms s) = None
  ∧ config (cms s) = defaultData
  ∧ count_calls is_remote w = count_calls is_remote w0.

End Core.

(** ** Concrete operations, backends and worlds *)

(** An operation on a call counter that always fails with the number of
    the call, and one that succeeds on its third call. *)
Definition always_failing (n : nat) : outcome string nat * nat := (Reject n, S n).

Definition third_time_lucky (n : nat) : outcome string nat * nat :=
  (if (n <? 2)%nat then Reject n else Resolve "done", S n).

(** No configuration injected, and a configuration with a token. *)
Definition G_none : globals := MkGlobals None None None.
Definition G_anon : globals := MkGlobals None (Some {[ "projectId" := "zorix" ]}) None.
Definition G_token : globals :=
  MkGlobals (Some "zorix-app") (Some {[ "projectId" := "zorix" ]}) (Some "tok-1").

Definition fixed_entropy (w : world) (i : nat) : Z := 17 * Z.of_nat i + 3.

(** A backend that accepts everything. *)
Definition B_up : backend :=
  MkBackend (λ _, 1700000000000) fixed_entropy (λ _, None)
            (λ _ _, Resolve (Some (MkPrincipal (JStr "user-1"))))
            (λ _ _ _, None) (λ _ _ _, None).

(** A backend whose every call fails. *)
Definition B_down : backend :=
  MkBackend (λ _, 1700000000000) fixed_entropy (λ _, None)
            (λ _ _, Reject (MkError AuthError "auth/network-request-failed"))
            (λ _ _ _, Some (MkError PermissionError "permission-denied"))
            (λ _ _ _, Some (MkError NetworkError "unavailable")).

(** A backend whose sign-in resolves without exposing a user. *)
Definition B_no_user : backend :=
  MkBackend (λ _, 1700000000000) fixed_entropy (λ _, None)
            (λ _ _, Resolve None)
            (λ _ _ _, None) (λ _ _ _, None).

(** A backend that rejects the first two sign-ins and the first two
    appends, and whose clock advances by the time waited. *)
Definition B_flaky : backend :=
  MkBackend (λ w, 1700000000000 + foldr Z.add 0 (timeouts (calls w)))
            fixed_entropy (λ _, None)
            (λ w _, if (count_calls is_sign_in w <? 2)%nat
                    then Reject (MkError AuthError "auth/network-request-failed")
                    else Resolve (Some (MkPrincipal (JStr "user-1"))))
            (λ _ _ _, None)
            (λ w _ _, if (count_calls is_addDoc w <? 2)%nat
                      then Some (MkError NetworkError "unavailable")
                      else None).

(** Two backends that sign the visitor in under a uid with a slash, as
    the uid of a custom token can have: one accepts every write, the
    other rejects every append. *)
Definition B_team : backend :=
  MkBackend (λ _, 1700000000000) fixed_entropy (λ _, None)
            (λ _ _, Resolve (Some (MkPrincipal (JStr "team/alice"))))
            (λ _ _ _, None) (λ _ _ _, None).

Definition B_team_down : backend :=
  MkBackend (λ _, 1700000000000) fixed_entropy (λ _, None)
            (λ _ _, Resolve (Some (MkPrincipal (JStr "team/alice"))))
            (λ _ _ _, None)
            (λ _ _ _, Some (MkError NetworkError "unavailable")).

(** A backend that accepts everything, for a visitor whose clock stands
    at the epoch. *)
Definition B_epoch : backend :=
  MkBackend (λ _, 0) fixed_entropy (λ _, None)
            (λ _ _, Resolve (Some (MkPrincipal (JStr "user-1"))))
            (λ _ _ _, None) (λ _ _ _, None).

Definition w_empty : world := MkWorld None ∅ ∅ [].

Definition h_zorix : firestore := Firestore {[ "projectId" := "zorix" ]}.

Definition acme_form : jsobj :=
  {[ "name" := "Acme"; "company" := "Acme Co"; "email" := "a@acme.com";
     "phone" := EmptyString; "inquiry" := "Quote Request" ]}.

(** ** Observations used by the further properties *)

Global Instance error_kind_eq_dec : EqDecision error_kind.
Proof. solve_decision. Defined.

Global Instance error_eq_dec : EqDecision error.
Proof. solve_decision. Defined.

Global Instance event_eq_dec : EqDecision event.
Proof. solve_decision. Defined.

(** The one sign-in call the configuration selects (lines 58-62). *)
Definition sign_in_event (g : globals) : event :=
  match sign_in_token g with
  | Some token => EvSignInWithCustomToken token
  | None => EvSignInAnonymously
  end.

Definition is_listen (ev : event) : bool :=
  match ev with EvSnapshotListen _ => true | _ => false end.

Definition is_unsubscribe (ev : event) : bool :=
  match ev with EvUnsubscribe _ => true | _ => false end.

Definition is_setDoc (ev : event) : bool :=
  match ev with EvSetDocMerge _ _ => true | _ => false end.

(** One for a hook that is listening, zero otherwise. *)
Definition live (st : cms_state) : nat :=
  match subscription st with Some _ => 1 | None => 0 end.

(** ** ContactUsPage (lines 513-643) *)

Module ContactUsPage.

Record status_t : Type := MkStatus {
  status_message : option string;
  status_type : option string
}.

(** The three [useState] values of the component. *)
Record state : Type := MkState {
  formData : jsobj;
  status : status_t;
  isLoading : bool
}.

Definition initial_formData : jsobj :=
  {[ "name" := EmptyString; "company" := EmptyString; "email" := EmptyString;
     "phone" := EmptyString; "inquiry" := "Quote Request" ]}.

Definition initial : state := MkState initial_formData (MkStatus None None) false.

(** The [name] attributes of the four inputs and of the select. *)
Definition fields : list string := ["name"; "company"; "email"; "phone"; "inquiry"].

(** [handleChange] for an event with [e.target.name] and
    [e.target.value]. *)
Definition handleChange (name value : string) (s : state) : state :=
  MkState (<[name := value]> (formData s)) (status s) (isLoading s).

Definition pending_message : string :=
  "System initialization pending. Please wait for the 'Initializing secure connection' message to clear.".

(** The state shown while [handleSubmit] is suspended. *)
Definition handleSubmit_start (s : state) : state :=
  MkState (formData s) (MkStatus None None) true.

Section Handlers.
Variable G : globals.
Variable B : backend.

(** [handleSubmit] with the props [db] and [userId], run to its end. *)
Definition handleSubmit (fuel : nat) (d : option firestore) (uid : jsval)
    (s : state) (w : world) : option (state * world) :=
  let s1 := handleSubmit_start s in
  let not_ready :=
    Some (MkState (formData s1) (MkStatus (Some pending_message) (Some "error")) false, w) in
  match d with
  | Some _ =>
      if truthy uid then
        match submitLead G B fuel d uid (formData s) w with
        | None => None
        | Some (result, w') =>
            if success result then
              Some (MkState initial_formData
                      (MkStatus (Some (message result)) (Some "success")) false, w')
            else
              Some (MkState (formData s1)
                      (MkStatus (Some (message result)) (Some "error")) false, w')
        end
      else not_ready
  | None => not_ready
  end.

(** What the user does on the page. *)
Inductive input : Type :=
  | Change (name value : string)
  | Submit.

Definition step (fuel : nat) (d : option firestore) (uid : jsval) (i : input)
    (s : state) (w : world) : option (state * world) :=
  match i with
  | Change name value => Some (handleChange name value s, w)
  | Submit => handleSubmit fuel d uid s w
  end.

Fixpoint run (fuel : nat) (d : option firestore) (uid : jsval) (inputs : list input)
    (s : state) (w : world) : option (state * world) :=
  match inputs with
  | [] => Some (s, w)
  | i :: rest =>
      match step fuel d uid i s w with
      | Some (s1, w1) => run fuel d uid rest s1 w1
      | None => None
      end
  end.

End Handlers.

(** The inputs the rendered controls can produce: changes of one of the
    five controls, and submits. *)
Definition from_controls (i : input) : Prop :=
  match i with
  | Change name _ => name ∈ fields
  | Submit => True
  end.

End ContactUsPage.

(** ** Navigation: NavItem, Header, Footer and renderPage of App *)

Module Navigation.

(** Strings are sequences of code units below 256; on these,
    [toLowerCase] maps A-Z and the accented capitals 192-222 (except the
    multiplication sign 215) 32 places up, and [\s] matches the code units
    9-13, 32 and 160. *)
Definition toLowerCase_char (c : ascii) : ascii :=
  let n := nat_of_ascii c in
  if ((65 <=? n) && (n <=? 90) || (192 <=? n) && (n <=? 222) && negb (n =? 215))%nat
  then ascii_of_nat (n + 32) else c.

Definition is_whitespace (c : ascii) : bool :=
  let n := nat_of_ascii c in
  ((9 <=? n) && (n <=? 13) || (n =? 32) || (n =? 160))%nat.

Fixpoint toLowerCase (s : string) : string :=
  match s with
  | EmptyString => EmptyString
  | String c rest => String (toLowerCase_char c) (toLowerCase rest)
  end.

(** [s.replace(/\s/g, '')] *)
Fixpoint remove_whitespace (s : string) : string :=
  match s with
  | EmptyString => EmptyString
  | String c rest =>
      if is_whitespace c then remove_whitespace rest
      else String c (remove_whitespace rest)
  end.

(** The page a [NavItem] selects (lines 161, 163). *)
Definition page_key (name : string) : string := remove_whitespace (toLowerCase name).

(** A [NavItem] is highlighted when its key is the current page. *)
Definition NavItem_active (name currentPage : string) : bool :=
  String.eqb currentPage (page_key name).

(** What [renderPage] shows (lines 765-795). *)
Inductive view : Type :=
  | Loading
  | HomePage (cmsConfig : jsobj)
  | AboutUsPage
  | ServicesPage
  | ProductCatalogPage
  | ContactUsPage (d : option firestore) (uid : jsval)
  | PrivacyPolicyPage
  | TermsOfTradePage
  | SitemapPage.

Definition renderPage (currentPage : string) (isAuthReady : bool) (cmsConfig : jsobj)
    (d : option firestore) (uid : jsval) : view :=
  if negb isAuthReady then Loading
  else if String.eqb currentPage "home" then HomePage cmsConfig
  else if String.eqb currentPage "aboutus" then AboutUsPage
  else if String.eqb currentPage "services" then ServicesPage
  else if String.eqb currentPage "products" then ProductCatalogPage
  else if String.eqb currentPage "contactus" then ContactUsPage d uid
  else if String.eqb currentPage "privacypolicy" then PrivacyPolicyPage
  else if String.eqb currentPage "termsoftrade" then TermsOfTradePage
  else if String.eqb currentPage "sitemap" then SitemapPage
  else HomePage cmsConfig.

(** The cases of the [switch]. *)
Definition pages : list string :=
  ["home"; "aboutus"; "services"; "products"; "contactus";
   "privacypolicy"; "termsoftrade"; "sitemap"].

(** The arguments of the [setPage] calls that can be clicked, in
    document order: the header, the page shown, the footer. *)
Definition nav_names : list string :=
  ["Home"; "About Us"; "Services"; "Products"; "Contact Us"].

(** The header (lines 172-205) shows its logo and, by the classes of the
    two elements, either the five nav items ([hidden md:flex]: on a
    viewport of at least the [md] breakpoint) or the phone button
    ([md:hidden]: below it), never both. *)
Definition Header_links (md : bool) : list string :=
  ["home"] ++ (if md then List.map page_key nav_names else ["contactus"]).

Definition Footer_links : list string :=
  ["services"; "services"; "services"; "privacypolicy"; "termsoftrade"; "sitemap"].

Definition view_links (v : view) : list string :=
  match v with
  | HomePage _ => ["contactus"; "services"]
  | ProductCatalogPage => ["contactus"; "contactus"; "contactus"; "contactus"]
  | SitemapPage =>
      ["home"; "aboutus"; "services"; "products"; "contactus";
       "privacypolicy"; "termsoftrade"; "sitemap"]
  | _ => []
  end.

Definition links (md : bool) (currentPage : string) (isAuthReady : bool) : list string :=
  Header_links md
  ++ view_links (renderPage currentPage isAuthReady ∅ None JNull)
  ++ Footer_links.

(** A click on the [n]-th link of the page shown calls [setPage] with its
    target; there is nothing to click beyond the last link. *)
Definition click (md isAuthReady : bool) (n : nat) (currentPage : string) : string :=
  match links md currentPage isAuthReady !! n with
  | Some target => target
  | None => currentPage
  end.

(** Clicks, each with the viewport and the readiness at that moment;
    [App] starts on [home]. *)
Fixpoint navigate (clicks : list (bool * bool * nat)) (currentPage : string) : string :=
  match clicks with
  | [] => currentPage
  | (md, ready, n) :: rest => navigate rest (click md ready n currentPage)
  end.

End Navigation.

(** ** The Bitcoin price page (src/unnamed/part_000) *)

Module BtcPage.

(** The table of [initTradingViewChart]. *)
Definition intervals : list (string * string) :=
  [("1D", "1D"); ("1W", "1W"); ("1M", "1M"); ("3M", "3M"); ("1Y", "1Y"); ("ALL", "ALL")].

Fixpoint own_entry (table : list (string * string)) (key : string) : option string :=
  match table with
  | [] => None
  | (k, v) :: rest => if String.eqb k key then Some v else own_entry rest key
  end.

(** The options a [TradingView.widget] is created with, as far as they
    vary or matter here; [interval] is [None] when the table has no own
    entry for the timeframe. *)
Record widget : Type := MkWidget {
  symbol : string;
  interval : option string;
  theme : string;
  container_id : string
}.

(** [initTradingViewChart(timeframe = '1D')]; [None] is a call without
    the argument. *)
Definition initTradingViewChart (timeframe : option string) : widget :=
  MkWidget "BINANCE:BTCUSDT" (own_entry intervals (default "1D" timeframe))
           "dark" "tradingview-chart".

Record button : Type := MkButton { timeframe : string; active : bool }.

(** What the two buttons with changing markup show. *)
Inductive theme_markup : Type := MoonDarkMode | SunLightMode.
Inductive fullscreen_markup : Type := ExpandFullscreen | CompressExitFullscreen.

(** The parts of the document the handlers read and write. Class lists
    are sets: the order of the tokens has no effect. *)
Record page : Type := MkPage {
  body : gset string;
  theme_toggle : theme_markup;
  buttons : list button;
  widgets : list widget;
  fullscreenElement : bool;
  fullscreen_btn : fullscreen_markup;
  uncaught : nat
}.

(** The document as the markup gives it. *)
Definition initial : page :=
  MkPage {[ "gradient-bg"; "text-gray-100"; "min-h-screen" ]} MoonDarkMode
         [MkButton "1D" true; MkButton "1W" false; MkButton "1M" false;
          MkButton "3M" false; MkButton "1Y" false; MkButton "ALL" false]
         [] false ExpandFullscreen 0.

(** [classList.toggle] *)
Definition toggle (c : string) (classes : gset string) : gset string :=
  if decide (c ∈ classes) then classes ∖ {[ c ]} else classes ∪ {[ c ]}.

Definition deactivate (b : button) : button := MkButton (timeframe b) false.

(** The click handler of the [i]-th timeframe button. *)
Definition click_timeframe (i : nat) (p : page) : page :=
  match buttons p !! i with
  | None => p
  | Some this =>
      MkPage (body p) (theme_toggle p)
             (<[i := MkButton (timeframe this) true]> (deactivate <$> buttons p))
             (widgets p ++ [initTradingViewChart (Some (timeframe this))])
             (fullscreenElement p) (fullscreen_btn p) (uncaught p)
  end.

(** [document.querySelector('.timeframe-btn.active')] *)
Definition active_button (p : page) : option button :=
  List.find active (buttons p).

(** The click handler of the theme button. Reading [dataset] of a missing
    element throws after the classes and the markup have been changed. *)
Definition click_theme (p : page) : page :=
  let body' :=
    toggle "text-gray-800" (toggle "text-gray-100"
      (toggle "bg-gray-100" (toggle "gradient-bg" (body p)))) in
  let isDark := bool_decide ("gradient-bg" ∈ body') in
  let markup := if isDark then MoonDarkMode else SunLightMode in
  match active_button p with
  | Some b =>
      MkPage body' markup (buttons p)
             (widgets p ++ [initTradingViewChart (Some (timeframe b))])
             (fullscreenElement p) (fullscreen_btn p) (uncaught p)
  | None =>
      MkPage body' markup (buttons p) (widgets p)
             (fullscreenElement p) (fullscreen_btn p) (S (uncaught p))
  end.

(** The click handler of the fullscreen button; [granted] tells whether
    the request for fullscreen is fulfilled (a rejection is caught and
    logged). *)
Definition click_fullscreen (granted : bool) (p : page) : page :=
  if fullscreenElement p then
    MkPage (body p) (theme_toggle p) (buttons p) (widgets p)
           false ExpandFullscreen (uncaught p)
  else
    MkPage (body p) (theme_toggle p) (buttons p) (widgets p)
           granted CompressExitFullscreen (uncaught p).

(** Leaving fullscreen with the Escape key runs no handler of the page. *)
Definition press_escape (p : page) : page :=
  MkPage (body p) (theme_toggle p) (buttons p) (widgets p)
         false (fullscreen_btn p) (uncaught p).

(** The [DOMContentLoaded] handler, as far as the chart goes. *)
Definition DOMContentLoaded (p : page) : page :=
  MkPage (body p) (theme_toggle p) (buttons p)
         (widgets p ++ [initTradingViewChart None])
         (fullscreenElement p) (fullscreen_btn p) (uncaught p).

Inductive input : Type :=
  | ClickTimeframe (i : nat)
  | ClickTheme
  | ClickFullscreen (granted : bool)
  | PressEscape.

Definition step (i : input) (p : page) : page :=
  match i with
  | ClickTimeframe n => click_timeframe n p
  | ClickTheme => click_theme p
  | ClickFullscreen granted => click_fullscreen granted p
  | PressEscape => press_escape p
  end.

Definition run (inputs : list input) (p : page) : page :=
  foldl (λ q i, step i q) p inputs.

(** The page once it has loaded, and after what the user did then. *)
Definition loaded : page := DOMContentLoaded initial.

(** Inputs under which the browser grants every request and fullscreen is
    left only through the button. *)
Definition cooperative (i : input) : Prop :=
  match i with
  | ClickFullscreen granted => granted = true
  | PressEscape => False
  | _ => True
  end.

(** The six buttons with the [k]-th one active, and the two palettes of
    the body. *)
Definition timeframes : list string := ["1D"; "1W"; "1M"; "3M"; "1Y"; "ALL"].

Definition active_at (k : nat) : list button :=
  imap (λ j tf, MkButton tf (bool_decide (j = k))) timeframes.

Definition dark_body : gset string := {[ "gradient-bg"; "text-gray-100"; "min-h-screen" ]}.
Definition light_body : gset string := {[ "bg-gray-100"; "text-gray-800"; "min-h-screen" ]}.

End BtcPage.

(** ** fetchBTCData of the Bitcoin price page *)

Module BtcData.

(** An element of the page: its text and the tokens of its class
    attribute. *)
Record element : Type := MkElement { textContent : string; classes : list string }.

(** The six elements [fetchBTCData] writes to; all are in the markup. *)
Record document : Type := MkDocument {
  btc_price : element;
  price_change : element;
  price_change_percent : element;
  market_cap_el : element;
  volume_el : element;
  supply_el : element
}.

(** [classList.add] and [classList.remove] *)
Definition classList_add (c : string) (e : element) : element :=
  MkElement (textContent e)
            (if bool_decide (c ∈ classes e) then classes e else classes e ++ [c]).

Definition classList_remove (c : string) (e : element) : element :=
  MkElement (textContent e) (List.filter (λ x, negb (String.eqb x c)) (classes e)).

Definition set_text (t : string) (e : element) : element := MkElement t (classes e).

(** An assignment to [className] replaces every token. *)
Definition set_className (cs : list string) (e : element) : element :=
  MkElement (textContent e) cs.

Section Numbers.

(** JavaScript numbers with the operations and formatting functions the
    code applies to them: [x >= 0], [Math.abs], [x / 1000000000],
    [toLocaleString('en-US', ...)] with two and with no fraction digits,
    and [toFixed(2)]. *)
Variable number : Type.
Variable NaN : number.
Variable zero : number.
Variable ge_zero : number → bool.
Variable abs : number → number.
Variable billions : number → number.
Variable toLocaleString2 : number → string.
Variable toLocaleString0 : number → string.
Variable toFixed2 : number → string.

(** A value read by the code where the API puts a number: absent
    ([undefined]), [null], or a number. *)
Inductive leaf : Type :=
  | Missing
  | Null
  | Num (x : number).

(** A value whose properties the code reads: absent, [null], or anything
    else, given by the properties read from it. *)
Inductive node (A : Type) : Type :=
  | Absent
  | NullNode
  | Obj (fields : A).
Arguments Absent {A}.
Arguments NullNode {A}.
Arguments Obj {A} fields.

Record usd_fields : Type := MkUsd { usd : leaf }.

Record market_data_fields : Type := MkMarketData {
  current_price : node usd_fields;
  price_change_24h : leaf;
  price_change_percentage_24h : leaf;
  market_cap : node usd_fields;
  total_volume : node usd_fields;
  circulating_supply : leaf
}.

Record data_fields : Type := MkData { market_data : node market_data_fields }.

(** How the request ends: [fetch] or [response.json()] rejects, or the
    body parses to [data]. *)
Inductive response : Type :=
  | RequestFailed
  | Parsed (data : node data_fields).

(** Reading a property of [undefined] or [null] throws a [TypeError]. *)
Definition props {A} (v : node A) : option A :=
  match v with
  | Obj fields => Some fields
  | Absent | NullNode => None
  end.

(** Calling a method of [Number.prototype] on a value. *)
Definition call (method : number → string) (v : leaf) : option string :=
  match v with
  | Num x => Some (method x)
  | Missing | Null => None
  end.

(** [ToNumber] *)
Definition to_number (v : leaf) : number :=
  match v with
  | Num x => x
  | Null => zero
  | Missing => NaN
  end.

(** The six reads at the top of the [try] block, in order. *)
Definition read_values (data : node data_fields)
  : option (leaf * leaf * leaf * leaf * leaf * leaf) :=
  d ← props data;
  md ← props (market_data d);
  cp ← props (current_price md);
  mc ← props (market_cap md);
  tv ← props (total_volume md);
  Some (usd cp, price_change_24h md, price_change_percentage_24h md,
        usd mc, usd tv, circulating_supply md).

Definition set_btc_price (e : element) (doc : document) : document :=
  MkDocument e (price_change doc) (price_change_percent doc)
             (market_cap_el doc) (volume_el doc) (supply_el doc).
Definition set_price_change (e : element) (doc : document) : document :=
  MkDocument (btc_price doc) e (price_change_percent doc)
             (market_cap_el doc) (volume_el doc) (supply_el doc).
Definition set_price_change_percent (e : element) (doc : document) : document :=
  MkDocument (btc_price doc) (price_change doc) e
             (market_cap_el doc) (volume_el doc) (supply_el doc).
Definition set_market_cap (e : element) (doc : document) : document :=
  MkDocument (btc_price doc) (price_change doc) (price_change_percent doc)
             e (volume_el doc) (supply_el doc).
Definition set_volume (e : element) (doc : document) : document :=
  MkDocument (btc_price doc) (price_change doc) (price_change_percent doc)
             (market_cap_el doc) e (supply_el doc).
Definition set_supply (e : element) (doc : document) : document :=
  MkDocument (btc_price doc) (price_change doc) (price_change_percent doc)
             (market_cap_el doc) (volume_el doc) e.

(** The class the two change elements get. *)
Definition change_class (positive : bool) : list string :=
  ["price-change"; if positive then "positive" else "negative"].

(** [fetchBTCData]: the document it leaves, and whether it has set the
    timer that removes [blink]. An exception anywhere in the [try] block
    ends the function with what had been written until then. *)
Definition fetchBTCData (r : response) (doc : document) : document * bool :=
  match r with
  | RequestFailed => (doc, false)
  | Parsed data =>
      match read_values data with
      | None => (doc, false)
      | Some (price, change24h, change24hPercent, marketCap, volume, supply) =>
          match call toLocaleString2 price with
          | None => (doc, false)
          | Some price_text =>
              let doc1 := set_btc_price (set_text ("$" +:+ price_text) (btc_price doc)) doc in
              let positive := ge_zero (to_number change24h) in
              let amount := toLocaleString2 (abs (to_number change24h)) in
              let doc2 :=
                set_price_change
                  (set_className (change_class positive)
                     (set_text ((if positive then "+$" else "-$") +:+ amount)
                        (price_change doc1))) doc1 in
              match call toFixed2 change24hPercent with
              | None => (doc2, false)
              | Some percent_text =>
                  let doc3 :=
                    set_price_change_percent
                      (set_className (change_class positive)
                         (set_text ("(" +:+ percent_text +:+ "%)")
                            (price_change_percent doc2))) doc2 in
                  let doc4 :=
                    set_market_cap
                      (set_text ("$" +:+ toFixed2 (billions (to_number marketCap)) +:+ "B")
                         (market_cap_el doc3)) doc3 in
                  let doc5 :=
                    set_volume
                      (set_text ("$" +:+ toFixed2 (billions (to_number volume)) +:+ "B")
                         (volume_el doc4)) doc4 in
                  match call toLocaleString0 supply with
                  | None => (doc5, false)
                  | Some supply_text =>
                      let doc6 := set_supply (set_text supply_text (supply_el doc5)) doc5 in
                      (set_btc_price (classList_add "blink" (btc_price doc6)) doc6, true)
                  end
              end
          end
      end
  end.

(** The price, when the request succeeds, every object on the way to it
    exists and it is a number. *)
Definition readable_price (r : response) : option number :=
  match r with
  | RequestFailed => None
  | Parsed data =>
      match read_values data with
      | Some (Num price, _, _, _, _, _) => Some price
      | _ => None
      end
  end.

(** A body with all six numbers. *)
Definition full_body (price change24h change24hPercent marketCap volume supply : number)
  : response :=
  Parsed (Obj (MkData (Obj (MkMarketData
    (Obj (MkUsd (Num price))) (Num change24h) (Num change24hPercent)
    (Obj (MkUsd (Num marketCap))) (Obj (MkUsd (Num volume))) (Num supply))))).

(** A body in which the percentage is absent or [null]. *)
Definition body_without_percent (price : number) (change24h percent : leaf)
    (marketCap volume : node usd_fields) (supply : leaf) : response :=
  Parsed (Obj (MkData (Obj (MkMarketData
    (Obj (MkUsd (Num price))) change24h percent marketCap volume supply)))).

End Numbers.

Arguments Missing {number}.
Arguments Null {number}.
Arguments Num {number} x.
Arguments Absent {A}.
Arguments NullNode {A}.
Arguments Obj {A} fields.
Arguments RequestFailed {number}.
Arguments Parsed {number} data.

(** The timer callback: [classList.remove('blink')] on the price. *)
Definition blink_timeout (doc : document) : document :=
  MkDocument (classList_remove "blink" (btc_price doc)) (price_change doc)
             (price_change_percent doc) (market_cap_el doc) (volume_el doc) (supply_el doc).

(** The six elements as the markup gives them. *)
Definition initial : document :=
  MkDocument (MkElement "$--.--" ["text-2xl"; "font-bold"])
             (MkElement EmptyString ["ml-2"; "text-sm"])
             (MkElement EmptyString ["ml-2"; "text-sm"])
             (MkElement "$--.--" ["text-2xl"; "font-bold"])
             (MkElement "$--.--" ["text-2xl"; "font-bold"])
             (MkElement "--.--" ["text-2xl"; "font-bold"]).

(** A stand-in for the numbers, used to run the function: integers, a
    sign test and an unformatted rendering. *)
Definition run_on_integers (r : response Z) (doc : document) : document * bool :=
  fetchBTCData Z 0 0 (λ x, 0 <=? x) Z.abs (λ x, x / 1000000000)
    (λ x, if x <? 0 then "neg" else "pos") (λ x, if x <? 0 then "neg" else "pos")
    (λ x, if x <? 0 then "neg" else "pos") r doc.

End BtcData.

(** * Properties *)

(** ** Platform functions on concrete inputs *)

Example toISOString_epoch : Platform.toISOString 0 = "1970-01-01T00:00:00.000Z".
Proof. reflexivity. Qed.
Example toISOString_2023 : Platform.toISOString 1700000000000 = "2023-11-14T22:13:20.000Z".
Proof. reflexivity. Qed.
Example toISOString_before : Platform.toISOString (-1) = "1969-12-31T23:59:59.999Z".
Proof. reflexivity. Qed.
Example toISOString_leap : Platform.toISOString 1709210096789 = "2024-02-29T12:34:56.789Z".
Proof. reflexivity. Qed.
Example iso_ok : Platform.iso8601_utc (Platform.toISOString 1709210096789) = true.
Proof. reflexivity. Qed.
Example uuid_zero :
  Platform.uuid_of_bytes (λ _, 0) = "00000000-0000-4000-8000-000000000000".
Proof. reflexivity. Qed.
Example uuid_ff :
  Platform.uuid_of_bytes (λ i, 255 - Z.of_nat i) = "fffefdfc-fbfa-49f8-b7f6-f5f4f3f2f1f0".
Proof. reflexivity. Qed.

(** ** withRetry *)

Section RetryFacts.
Context {W A E : Type}.
Variable setTimeout : Z → W → W.
Variable fn : W → outcome A E * W.

Import Retry.

Local Abbreviation withRetry := (Retry.withRetry setTimeout fn).
Local Abbreviation world_at := (Retry.world_at setTimeout fn).
Local Abbreviation outcome_at := (Retry.outcome_at setTimeout fn).
Local Abbreviation failed_prefix := (Retry.failed_prefix setTimeout fn).

Lemma backoff_length k d : length (backoff k d) = k.
Proof. revert d; induction k as [|k IH]; intros d; simpl; [done|]. by rewrite IH. Qed.

Lemma backoff_lookup k d (i : nat) :
  (i < k)%nat → backoff k d !! i = Some (d * 2 ^ Z.of_nat i).
Proof.
  revert d i; induction k as [|k IH]; intros d i Hi; [lia|].
  destruct i as [|i]; simpl.
  - f_equal. lia.
  - rewrite IH by lia. f_equal.
    replace (Z.of_nat (S i)) with (Z.succ (Z.of_nat i)) by lia.
    rewrite Z.pow_succ_r by lia. lia.
Qed.

Lemma attempts_app (tr1 tr2 : list (tick A E)) :
  attempts (tr1 ++ tr2) = (attempts tr1 + attempts tr2)%nat.
Proof.
  induction tr1 as [|[o|ms] tr1 IH]; simpl; [done| |done]. by rewrite IH.
Qed.

Lemma waits_app (tr1 tr2 : list (tick A E)) :
  waits (tr1 ++ tr2) = waits tr1 ++ waits tr2.
Proof.
  induction tr1 as [|[o|ms] tr1 IH]; simpl; [done|done|]. by rewrite IH.
Qed.

Lemma attempts_failed_prefix k d w : attempts (failed_prefix k d w) = k.
Proof. revert d w; induction k as [|k IH]; intros d w; simpl; [done|]. by rewrite IH. Qed.

Lemma waits_failed_prefix k d w : waits (failed_prefix k d w) = backoff k d.
Proof. revert d w; induction k as [|k IH]; intros d w; simpl; [done|]. by rewrite IH. Qed.

Lemma outcome_at_S i d w :
  outcome_at (S i) d w = outcome_at i (d * 2) (setTimeout d (snd (fn w))).
Proof. reflexivity. Qed.

(** After [k] failed attempts that each had a retry left, the call
    continues as a call with [k] fewer retries, the delay doubled [k]
    times, from the world those attempts left. *)
Lemma withRetry_failed_prefix k :
  ∀ fuel retries d w,
    (∀ i, (i < k)%nat → is_reject (outcome_at i d w) = true) →
    (retries < 0 ∨ Z.of_nat k ≤ retries) →
    withRetry (k + fuel) retries d w =
      match withRetry fuel (retries - Z.of_nat k) (d * 2 ^ Z.of_nat k) (world_at k d w) with
      | Some (r, w2, tr) => Some (r, w2, failed_prefix k d w ++ tr)
      | None => None
      end.
Proof.
  induction k as [|k IH]; intros fuel retries d w Hfail Hr.
  - simpl. replace (retries - Z.of_nat 0) with retries by lia.
    replace (d * 2 ^ Z.of_nat 0) with d by (simpl; lia).
    by destruct (withRetry fuel retries d w) as [[[r w2] tr]|].
  - assert (H0 : is_reject (fst (fn w)) = true) by (apply (Hfail O); lia).
    change (withRetry (S k + fuel) retries d w) with
      (let '(o, w1) := fn w in
       match o with
       | Resolve a => Some (Resolve a, w1, [Attempt o])
       | Reject error =>
           if retries =? 0 then Some (Reject error, w1, [Attempt o])
           else
             match withRetry (k + fuel) (retries - 1) (d * 2) (setTimeout d w1) with
             | Some (r, w2, tr) => Some (r, w2, Attempt o :: Wait d :: tr)
             | None => None
             end
       end).
    simpl world_at. simpl failed_prefix.
    destruct (fn w) as [o w1] eqn:Hfn. simpl in H0 |- *.
    destruct o as [a|e]; [done|].
    destruct (Z.eqb_spec retries 0) as [->|Hne]; [lia|].
    rewrite IH.
    + replace (retries - 1 - Z.of_nat k) with (retries - Z.of_nat (S k)) by lia.
      replace (d * 2 * 2 ^ Z.of_nat k) with (d * 2 ^ Z.of_nat (S k)).
      2:{ replace (Z.of_nat (S k)) with (Z.succ (Z.of_nat k)) by lia.
          rewrite Z.pow_succ_r by lia. lia. }
      by destruct (withRetry fuel _ _ _) as [[[r w2] tr]|].
    + intros i Hi. specialize (Hfail (S i) ltac:(lia)).
      rewrite outcome_at_S, Hfn in Hfail. exact Hfail.
    + lia.
Qed.

(** An attempt that resolves ends the call at once. *)
Lemma withRetry_resolves fuel retries d w a :
  fst (fn w) = Resolve a →
  withRetry (S fuel) retries d w = Some (Resolve a, snd (fn w), [Attempt (Resolve a)]).
Proof. simpl. destruct (fn w) as [o w1]; simpl. by intros ->. Qed.

(** An attempt that fails with no retry left ends the call with its error. *)
Lemma withRetry_last_failure fuel d w e :
  fst (fn w) = Reject e →
  withRetry (S fuel) 0 d w = Some (Reject e, snd (fn w), [Attempt (Reject e)]).
Proof. simpl. destruct (fn w) as [o w1]; simpl. by intros ->. Qed.

(** With a retry count that is not negative the call returns, whatever
    the operation does. *)
(** A call is its first invocation followed by [resume]. *)
Lemma withRetry_resume fuel retries d w :
  withRetry (S fuel) retries d w =
    match Retry.resume setTimeout fn fuel retries d (fst (fn w)) (snd (fn w)) with
    | Some (r, w2, tr) => Some (r, w2, Attempt (fst (fn w)) :: tr)
    | None => None
    end.
Proof.
  simpl. destruct (fn w) as [[a|e] w1]; simpl; [done|].
  destruct (retries =? 0); [done|].
  by destruct (Retry.withRetry setTimeout fn fuel _ _ _) as [[[r w2] tr]|].
Qed.

Lemma withRetry_total fuel retries d w :
  0 ≤ retries → (Z.to_nat retries < fuel)%nat →
  is_Some (withRetry fuel retries d w).
Proof.
  revert retries d w. induction fuel as [|fuel IH]; intros retries d w H0 Hf; [lia|].
  simpl. destruct (fn w) as [[a|e] w1]; [done|].
  destruct (Z.eqb_spec retries 0) as [->|Hne]; [done|].
  destruct (IH (retries - 1) (d * 2) (setTimeout d w1)) as [[[r w2] tr] ->]; [lia|lia|done].
Qed.

Lemma resume_total fuel retries d o w :
  0 ≤ retries → (Z.to_nat retries ≤ fuel)%nat →
  is_Some (Retry.resume setTimeout fn fuel retries d o w).
Proof.
  intros H0 Hf. unfold Retry.resume. destruct o as [a|e]; [done|].
  destruct (Z.eqb_spec retries 0) as [->|Hne]; [done|].
  destruct (withRetry_total fuel (retries - 1) (d * 2) (setTimeout d w))
    as [[[r w2] tr] ->]; [lia|lia|done].
Qed.

(** With a negative retry count and an operation that always fails the
    call never returns. *)
Lemma withRetry_negative_diverges fuel retries d w :
  retries < 0 → (∀ w', is_reject (fst (fn w')) = true) →
  withRetry fuel retries d w = None.
Proof.
  revert retries d w. induction fuel as [|fuel IH]; intros retries d w Hr Hfail; [done|].
  simpl. specialize (Hfail w) as Hw. destruct (fn w) as [[a|e] w1]; [done|].
  destruct (Z.eqb_spec retries 0) as [->|Hne]; [lia|].
  by rewrite IH by (lia || done).
Qed.

(** A run in which each of the [N] attempts fails: the shared form of
    the exhaustion property, used for the sign-in and the record append
    as well. *)
Lemma withRetry_all_failed (N : nat) (d : Z) (w : W) (fuel : nat) :
  (1 ≤ N)%nat →
  (N ≤ fuel)%nat →
  (∀ i, (i < N)%nat → is_reject (outcome_at i d w) = true) →
  ∃ e tr,
    withRetry fuel (Z.of_nat N - 1) d w
      = Some (Reject e, snd (fn (world_at (N - 1) d w)), tr)
    ∧ outcome_at (N - 1) d w = Reject e
    ∧ tr = failed_prefix (N - 1) d w ++ [Attempt (Reject e)]
    ∧ attempts tr = N
    ∧ waits tr = backoff (N - 1) d
    ∧ (∀ i, (i < N - 1)%nat → waits tr !! i = Some (d * 2 ^ Z.of_nat i)).
Proof.
  intros HN Hfuel Hfail.
  assert (Hlast : is_reject (outcome_at (N - 1) d w) = true) by (apply Hfail; lia).
  destruct (outcome_at (N - 1) d w) as [a|e] eqn:Ho; [done|].
  exists e, (failed_prefix (N - 1) d w ++ [Attempt (Reject e)]).
  assert (Hw : waits (failed_prefix (N - 1) d w ++ [Attempt (Reject e)]) = backoff (N - 1) d).
  { rewrite waits_app, waits_failed_prefix. simpl. by rewrite app_nil_r. }
  split_and!; try done.
  - replace fuel with ((N - 1) + S (fuel - N))%nat by lia.
    rewrite withRetry_failed_prefix; [|intros i Hi; apply Hfail; lia|lia].
    replace (Z.of_nat N - 1 - Z.of_nat (N - 1)) with 0 by lia.
    by rewrite (withRetry_last_failure _ _ _ e).
  - rewrite attempts_app, attempts_failed_prefix. simpl. lia.
  - intros i Hi. rewrite Hw. by apply backoff_lookup.
Qed.

(** C1. For every [N >= 1], an operation that fails on each of its [N]
    attempts is invoked exactly [N] times by [withRetry] with [N - 1]
    retries: the call returns, its ticks are [N - 1] failed attempts each
    followed by a wait and then the last attempt, the waits are
    [d, 2d, 4d, ...] (wait number [i] is [d * 2^i]), and the call rejects
    with exactly the error of the last attempt. *)
Theorem withRetry_exhausted (N : nat) (d : Z) (w : W) (fuel : nat) :
  (1 ≤ N)%nat →
  (N ≤ fuel)%nat →
  (∀ i, (i < N)%nat → is_reject (outcome_at i d w) = true) →
  ∃ e tr,
    withRetry fuel (Z.of_nat N - 1) d w
      = Some (Reject e, snd (fn (world_at (N - 1) d w)), tr)
    ∧ outcome_at (N - 1) d w = Reject e
    ∧ tr = failed_prefix (N - 1) d w ++ [Attempt (Reject e)]
    ∧ attempts tr = N
    ∧ waits tr = backoff (N - 1) d
    ∧ (∀ i, (i < N - 1)%nat → waits tr !! i = Some (d * 2 ^ Z.of_nat i)).
Proof. apply withRetry_all_failed. Qed.

(** A run whose first success is attempt [k]: the shared form of the
    success property, used for the record append as well. *)
Lemma withRetry_first_success (N k : nat) (d : Z) (w : W) (fuel : nat) (a : A) :
  (1 ≤ k ≤ N)%nat →
  (k ≤ fuel)%nat →
  (∀ i, (i < k - 1)%nat → is_reject (outcome_at i d w) = true) →
  outcome_at (k - 1) d w = Resolve a →
  ∃ tr,
    withRetry fuel (Z.of_nat N - 1) d w
      = Some (Resolve a, snd (fn (world_at (k - 1) d w)), tr)
    ∧ tr = failed_prefix (k - 1) d w ++ [Attempt (Resolve a)]
    ∧ attempts tr = k
    ∧ last tr = Some (Attempt (Resolve a))
    ∧ waits tr = backoff (k - 1) d.
Proof.
  intros Hk Hfuel Hfail Hok.
  exists (failed_prefix (k - 1) d w ++ [Attempt (Resolve a)]).
  split_and!; try done.
  - replace fuel with ((k - 1) + S (fuel - k))%nat by lia.
    rewrite withRetry_failed_prefix; [|done|lia].
    by rewrite (withRetry_resolves _ _ _ _ a).
  - rewrite attempts_app, attempts_failed_prefix. simpl. lia.
  - by rewrite last_snoc.
  - rewrite waits_app, waits_failed_prefix. simpl. by rewrite app_nil_r.
Qed.

(** C2. For every [N] and every operation that first succeeds on attempt
    [k <= N], [withRetry] invokes it exactly [k] times, resolves to
    exactly the value of that attempt, and stops there: the last tick is
    the successful attempt, no wait follows it, and the world is the one
    that attempt left. *)
Theorem withRetry_succeeds_on_attempt (N k : nat) (d : Z) (w : W) (fuel : nat) (a : A) :
  (1 ≤ k ≤ N)%nat →
  (k ≤ fuel)%nat →
  (∀ i, (i < k - 1)%nat → is_reject (outcome_at i d w) = true) →
  outcome_at (k - 1) d w = Resolve a →
  ∃ tr,
    withRetry fuel (Z.of_nat N - 1) d w
      = Some (Resolve a, snd (fn (world_at (k - 1) d w)), tr)
    ∧ tr = failed_prefix (k - 1) d w ++ [Attempt (Resolve a)]
    ∧ attempts tr = k
    ∧ last tr = Some (Attempt (Resolve a))
    ∧ waits tr = backoff (k - 1) d.
Proof. apply withRetry_first_success. Qed.

End RetryFacts.

Lemma withRetry_exhausted_witness :
  ∃ e tr,
    Retry.withRetry (λ _ n, n) always_failing 3 (Z.of_nat 3 - 1) 1000 O
      = Some (Reject e,
              snd (always_failing (Retry.world_at (λ _ n, n) always_failing (3 - 1) 1000 O)),
              tr)
    ∧ Retry.outcome_at (λ _ n, n) always_failing (3 - 1) 1000 O = Reject e
    ∧ tr = Retry.failed_prefix (λ _ n, n) always_failing (3 - 1) 1000 O
             ++ [Retry.Attempt (Reject e)]
    ∧ Retry.attempts tr = 3%nat
    ∧ Retry.waits tr = Retry.backoff (3 - 1) 1000
    ∧ (∀ i, (i < 3 - 1)%nat → Retry.waits tr !! i = Some (1000 * 2 ^ Z.of_nat i)).
Proof.
  apply (withRetry_exhausted (λ _ n, n) always_failing 3 1000 O 3); [lia|lia|].
  intros i _. reflexivity.
Defined.

Example withRetry_exhausted_run :
  Retry.withRetry (λ _ n, n) always_failing 3 2 1000 O
    = Some (Reject 2%nat, 3%nat,
            [Retry.Attempt (Reject 0%nat); Retry.Wait 1000;
             Retry.Attempt (Reject 1%nat); Retry.Wait 2000;
             Retry.Attempt (Reject 2%nat)]).
Proof. reflexivity. Qed.

Lemma withRetry_succeeds_on_attempt_witness :
  ∃ tr,
    Retry.withRetry (λ _ n, n) third_time_lucky 6 (Z.of_nat 6 - 1) 1000 O
      = Some (Resolve "done",
              snd (third_time_lucky
                     (Retry.world_at (λ _ n, n) third_time_lucky (3 - 1) 1000 O)),
              tr)
    ∧ tr = Retry.failed_prefix (λ _ n, n) third_time_lucky (3 - 1) 1000 O
             ++ [Retry.Attempt (Resolve "done")]
    ∧ Retry.attempts tr = 3%nat
    ∧ last tr = Some (Retry.Attempt (Resolve "done"))
    ∧ Retry.waits tr = Retry.backoff (3 - 1) 1000.
Proof.
  apply (withRetry_succeeds_on_attempt (λ _ n, n) third_time_lucky 6 3 1000 O 6 "done");
    [lia|lia| |reflexivity].
  intros i Hi. destruct i as [|[|i]]; [reflexivity|reflexivity|lia].
Defined.

Example withRetry_succeeds_run :
  Retry.withRetry (λ _ n, n) third_time_lucky 6 5 1000 O
    = Some (Resolve "done", 3%nat,
            [Retry.Attempt (Reject 0%nat); Retry.Wait 1000;
             Retry.Attempt (Reject 1%nat); Retry.Wait 2000;
             Retry.Attempt (Resolve "done")]).
Proof. reflexivity. Qed.

(** ** Platform functions *)

Section PlatformFacts.
Import Platform.

Lemma uuid_length (b : nat → Z) : String.length (uuid_of_bytes b) = 36%nat.
Proof. reflexivity. Qed.

Lemma uuid_nonempty (b : nat → Z) : uuid_of_bytes b ≠ EmptyString.
Proof. intros H. pose proof (uuid_length b) as L. rewrite H in L. discriminate L. Qed.

Lemma uuid_truthy (b : nat → Z) : truthy (JStr (uuid_of_bytes b)) = true.
Proof. reflexivity. Qed.

Lemma digit_char_is_digit (n : Z) : is_digit (digit_char n) = true.
Proof.
  unfold digit_char.
  pose proof (Z.mod_pos_bound n 10 ltac:(lia)) as Hb.
  destruct (n mod 10) as [|p|p]; [reflexivity| |lia].
  do 4 (destruct p as [p|p|]; try reflexivity).
Qed.

(** A time value in the years 0000-9999 prints in the 24-character
    shape [YYYY-MM-DDTHH:mm:ss.sssZ]. *)
Lemma toISOString_shape (t : Z) :
  0 ≤ YearFromTime t ≤ 9999 → iso8601_utc (toISOString t) = true.
Proof.
  unfold YearFromTime, toISOString.
  destruct (civil_from_days (t / msPerDay)) as [[y m] d]. simpl fst.
  intros [Hlo Hhi].
  destruct (Z.leb_spec 0 y); [|lia]. destruct (Z.leb_spec y 9999); [|lia].
  cbv [andb iso8601_utc pad4 pad3 pad2 list_ascii_of_string forallb].
  by rewrite !digit_char_is_digit.
Qed.

End PlatformFacts.

(** ** Calls made through withRetry *)

Section CoreFacts.
Variable G : globals.
Variable B : backend.

Lemma count_calls_app (P : event → bool) (w w' : world) (rest : list event) :
  calls w' = calls w ++ rest →
  count_calls P w' = (count_calls P w + length (List.filter P rest))%nat.
Proof. intros H. unfold count_calls. by rewrite H, List.filter_app, length_app. Qed.

(** If every invocation of the operation makes exactly one call, of kind
    [P], then a [withRetry] run makes one such call per attempt and
    otherwise only waits. *)
Lemma withRetry_calls {A} (P : event → bool) (fn : world → outcome A error * world) :
  (∀ ms, P (EvTimeout ms) = false) →
  (∀ w, ∃ ev, P ev = true ∧ calls (snd (fn w)) = calls w ++ [ev]) →
  ∀ fuel retries d w r w' tr,
    Retry.withRetry setTimeout fn fuel retries d w = Some (r, w', tr) →
    ∃ rest,
      calls w' = calls w ++ rest
      ∧ Forall (λ ev, P ev = true ∨ ∃ ms, ev = EvTimeout ms) rest
      ∧ length (List.filter P rest) = Retry.attempts tr
      ∧ timeouts rest = Retry.waits tr.
Proof.
  intros HT Hfn fuel. induction fuel as [|fuel IH]; intros retries d w r w' tr; [done|].
  simpl. destruct (Hfn w) as (ev & HP & Hev).
  destruct (fn w) as [o w1]. simpl in Hev.
  assert (Hone : ∃ rest, calls w1 = calls w ++ rest
            ∧ Forall (λ ev, P ev = true ∨ ∃ ms, ev = EvTimeout ms) rest
            ∧ length (List.filter P rest) = 1%nat
            ∧ timeouts rest = []).
  { exists [ev]. split_and!; [done|constructor; [by left|constructor]| |].
    - simpl. by rewrite HP.
    - destruct ev; try done. by rewrite HT in HP. }
  destruct o as [a|e].
  - intros [= <- <- <-]. exact Hone.
  - destruct (retries =? 0).
    + intros [= <- <- <-]. exact Hone.
    + destruct (Retry.withRetry _ _ fuel _ _ _) as [[[r2 w2] tr2]|] eqn:Hrec; [|done].
      intros [= <- <- <-].
      destruct (IH _ _ _ _ _ _ Hrec) as (rest & Hc & HF & HL & HW).
      exists ([ev; EvTimeout d] ++ rest). split_and!.
      * rewrite Hc. simpl. rewrite Hev. by rewrite <- !app_assoc.
      * apply Forall_app. split; [|done].
        constructor; [by left|]. constructor; [right; by exists d|constructor].
      * rewrite List.filter_app, length_app, HL. simpl. by rewrite HP, HT.
      * simpl. rewrite HW. destruct ev; try done. by rewrite HT in HP.
Qed.

(** The same for the rest of a call whose first invocation has settled. *)
Lemma resume_calls {A} (P : event → bool) (fn : world → outcome A error * world) :
  (∀ ms, P (EvTimeout ms) = false) →
  (∀ w, ∃ ev, P ev = true ∧ calls (snd (fn w)) = calls w ++ [ev]) →
  ∀ fuel retries d o w r w' tr,
    Retry.resume setTimeout fn fuel retries d o w = Some (r, w', tr) →
    ∃ rest,
      calls w' = calls w ++ rest
      ∧ Forall (λ ev, P ev = true ∨ ∃ ms, ev = EvTimeout ms) rest
      ∧ length (List.filter P rest) = Retry.attempts tr
      ∧ timeouts rest = Retry.waits tr.
Proof.
  intros HT Hfn fuel retries d o w r w' tr. unfold Retry.resume.
  assert (Hnone : ∃ rest : list event, calls w = calls w ++ rest
            ∧ Forall (λ ev, P ev = true ∨ ∃ ms, ev = EvTimeout ms) rest
            ∧ length (List.filter P rest) = O
            ∧ timeouts rest = []).
  { exists []. by rewrite app_nil_r. }
  destruct o as [a|e]; [by intros [= <- <- <-]|].
  destruct (retries =? 0); [by intros [= <- <- <-]|].
  destruct (Retry.withRetry _ _ fuel _ _ _) as [[[r2 w2] tr2]|] eqn:Hrec; [|done].
  intros [= <- <- <-].
  destruct (withRetry_calls P fn HT Hfn _ _ _ _ _ _ _ Hrec) as (rest & Hc & HF & HL & HW).
  exists (EvTimeout d :: rest). split_and!.
  - rewrite Hc. simpl. by rewrite <- app_assoc.
  - constructor; [right; by exists d|done].
  - simpl. by rewrite HT.
  - simpl. by rewrite HW.
Qed.

(** With the default five retries, an operation that makes one call of
    kind [P] per invocation and always fails is attempted six times, with
    waits of 1, 2, 4, 8 and 16 seconds in between, and the call rejects. *)
Lemma withRetry_default_exhausted {A} (P : event → bool)
    (fn : world → outcome A error * world) fuel w :
  (∀ ms, P (EvTimeout ms) = false) →
  (∀ w0, ∃ ev, P ev = true ∧ calls (snd (fn w0)) = calls w0 ++ [ev]) →
  (∀ w0, is_reject (fst (fn w0)) = true) →
  (6 ≤ fuel)%nat →
  ∃ e w' tr rest,
    withRetry_default fuel fn w = Some (Reject e, w', tr)
    ∧ calls w' = calls w ++ rest
    ∧ Forall (λ ev, P ev = true ∨ ∃ ms, ev = EvTimeout ms) rest
    ∧ length (List.filter P rest) = 6%nat
    ∧ timeouts rest = [1000; 2000; 4000; 8000; 16000].
Proof.
  intros HT Hcall Hfail Hf.
  destruct (withRetry_all_failed setTimeout fn 6 1000 w fuel)
    as (e & tr & Hrun & _ & _ & Hatt & Hwaits & _); [lia|done|..].
  { intros i _. apply Hfail. }
  change (Z.of_nat 6 - 1) with 5 in Hrun.
  destruct (withRetry_calls P fn HT Hcall _ _ _ _ _ _ _ Hrun)
    as (rest & Hc & HF & HL & HW).
  eexists e, _, tr, rest. split_and!; try done.
  - by rewrite HL.
  - by rewrite HW, Hwaits.
Qed.

(** ** useFirebaseSetup *)

Lemma sign_in_attempt_unfold (w : world) :
  ∃ ev, is_sign_in ev = true
        ∧ sign_in_attempt G B w = settle_sign_in B w (record_call ev w) (sign_in_token G).
Proof.
  unfold sign_in_attempt, sign_in_token.
  destruct (initialAuthToken G) as [token|];
    [destruct (truthy (JStr token))|]; eexists; (split; [|reflexivity]); done.
Qed.

Lemma sign_in_attempt_call (w : world) :
  ∃ ev, is_sign_in ev = true ∧ calls (snd (sign_in_attempt G B w)) = calls w ++ [ev].
Proof.
  destruct (sign_in_attempt_unfold w) as (ev & Hev & ->).
  exists ev. split; [done|]. unfold settle_sign_in.
  by destruct (sign_in B w (sign_in_token G)).
Qed.

Lemma sign_in_attempt_rejects (w : world) :
  (∀ w0 token, is_reject (sign_in B w0 token) = true) →
  is_reject (fst (sign_in_attempt G B w)) = true.
Proof.
  intros Hfail. destruct (sign_in_attempt_unfold w) as (ev & _ & ->).
  unfold settle_sign_in. specialize (Hfail w (sign_in_token G)).
  by destruct (sign_in B w (sign_in_token G)).
Qed.

Lemma uid_or_randomUUID_spec (w : world) :
  uid_or_randomUUID B w =
    if truthy (currentUser_uid w) then (currentUser_uid w, w)
    else (JStr (Platform.uuid_of_bytes (entropy B w)), record_call EvRandomUUID w).
Proof. reflexivity. Qed.

(** The callback always ends by setting [isAuthReady]. *)
Lemma callback_ready fuel user st w st' w' :
  onAuthStateChanged_callback G B fuel user st w = Some (st', w') →
  isAuthReady st' = true ∧ db st' = db st ∧ auth st' = auth st.
Proof.
  unfold onAuthStateChanged_callback.
  destruct (uid_or_randomUUID B w) as [cur w1].
  destruct user as [u|].
  - by intros [= <- <-].
  - destruct (withRetry_default _ _ _) as [[[[a|e] w2] tr]|]; [| |done];
      by intros [= <- <-].
Qed.

(** Six units of fuel are enough for the callback to return. *)
Lemma callback_total fuel user st w :
  (6 ≤ fuel)%nat → is_Some (onAuthStateChanged_callback G B fuel user st w).
Proof.
  intros Hf. unfold onAuthStateChanged_callback.
  destruct (uid_or_randomUUID B w) as [cur w1].
  destruct user as [u|]; [done|].
  destruct (withRetry_total setTimeout (sign_in_attempt G B) fuel 5 1000 w1) as [[[r w2] tr] Hr];
    [lia|lia|].
  unfold withRetry_default. rewrite Hr. by destruct r.
Qed.

Lemma notify_total fuel notifications st w :
  (6 ≤ fuel)%nat → is_Some (notify G B fuel notifications st w).
Proof.
  intros Hf. revert st w.
  induction notifications as [|user rest IH]; intros st w; simpl; [done|].
  destruct (callback_total fuel user st w Hf) as [[st1 w1] ->]. apply IH.
Qed.

Lemma notify_ready fuel notifications st w st' w' :
  notify G B fuel notifications st w = Some (st', w') →
  (notifications ≠ [] ∨ isAuthReady st = true) →
  isAuthReady st' = true.
Proof.
  revert st w. induction notifications as [|user rest IH]; intros st w; simpl.
  - intros [= <- <-] [?|?]; done.
  - destruct (onAuthStateChanged_callback G B fuel user st w) as [[st1 w1]|] eqn:Hcb; [|done].
    intros Hn _. apply (IH _ _ Hn). right.
    by destruct (callback_ready _ _ _ _ _ _ Hcb).
Qed.

(** [userId] is assigned only together with [isAuthReady]: a state that
    is not ready still has the initial [null] user id. *)
Lemma not_ready_no_userId fuel notifications w st w' :
  useFirebaseSetup G B fuel notifications w = Some (st, w') →
  isAuthReady st = false → userId st = JNull.
Proof.
  unfold useFirebaseSetup, useFirebaseSetup_effect.
  destruct (firebaseConfig G) as [cfg|]; [destruct (initialize B cfg)|]; simpl.
  - by intros [= <- <-].
  - destruct notifications as [|user rest].
    + by intros [= <- <-].
    + intros Hn Hr. apply notify_ready in Hn; [congruence|by left].
  - by intros [= <- <-].
Qed.

(** When every sign-in fails, the retried sign-in of the callback makes
    six attempts, waits 1, 2, 4, 8 and 16 seconds between them, and
    rejects. *)
Lemma sign_in_exhausted fuel w :
  (6 ≤ fuel)%nat →
  (∀ w0 token, is_reject (sign_in B w0 token) = true) →
  ∃ e w' tr rest,
    withRetry_default fuel (sign_in_attempt G B) w = Some (Reject e, w', tr)
    ∧ calls w' = calls w ++ rest
    ∧ Forall (λ ev, is_sign_in ev = true ∨ ∃ ms, ev = EvTimeout ms) rest
    ∧ length (List.filter is_sign_in rest) = 6%nat
    ∧ timeouts rest = [1000; 2000; 4000; 8000; 16000].
Proof.
  intros Hf Hfail.
  apply (withRetry_default_exhausted is_sign_in); try done.
  - apply sign_in_attempt_call.
  - intros w0. by apply sign_in_attempt_rejects.
Qed.

(** C3. The identity manager always becomes ready. Without a backend
    configuration it is ready at once, with a null identity and without a
    backend handle. With one, it is ready as soon as the first auth
    notification has been handled, whatever the backend answers. When no
    user is signed in and every sign-in attempt fails, it is ready after
    six attempts (waits of 1, 2, 4, 8 and 16 seconds), and its identity is
    the random UUID drawn before the first attempt: 36 characters,
    non-empty. *)
Theorem useFirebaseSetup_always_ready (fuel : nat) (w : world) :
  (6 ≤ fuel)%nat →
  (firebaseConfig G = None →
     ∀ notifications,
       useFirebaseSetup G B fuel notifications w
         = Some (MkFirebase None None JNull true, w))
  ∧ (∀ user rest, ∃ st' w',
       useFirebaseSetup G B fuel (user :: rest) w = Some (st', w')
       ∧ isAuthReady st' = true)
  ∧ (∀ cfg,
       firebaseConfig G = Some cfg →
       initialize B cfg = None →
       currentUser w = None →
       (∀ w0 token, is_reject (sign_in B w0 token) = true) →
       ∃ st' w' id rest,
         useFirebaseSetup G B fuel [None] w = Some (st', w')
         ∧ isAuthReady st' = true
         ∧ userId st' = JStr id
         ∧ id = Platform.uuid_of_bytes (entropy B (record_call EvAuthListen w))
         ∧ String.length id = 36%nat
         ∧ id ≠ EmptyString
         ∧ calls w' = calls w ++ [EvAuthListen; EvRandomUUID] ++ rest
         ∧ length (List.filter is_sign_in rest) = 6%nat
         ∧ timeouts rest = [1000; 2000; 4000; 8000; 16000]).
Proof.
  intros Hf. split_and!.
  - intros Hcfg notifications.
    unfold useFirebaseSetup, useFirebaseSetup_effect. by rewrite Hcfg.
  - intros user rest.
    unfold useFirebaseSetup.
    destruct (useFirebaseSetup_effect G B useFirebaseSetup_initial w)
      as [[st0 w0] listening] eqn:Heff.
    destruct listening.
    + destruct (notify_total fuel (user :: rest) st0 w0 Hf) as [[st' w'] Hn].
      exists st', w'. split; [done|]. apply (notify_ready _ _ _ _ _ _ Hn). by left.
    + exists st0, w0. split; [done|].
      unfold useFirebaseSetup_effect in Heff.
      destruct (firebaseConfig G) as [cfg|]; [destruct (initialize B cfg)|];
        by inversion Heff.
  - intros cfg Hcfg Hinit Hnone Hfail.
    unfold useFirebaseSetup, useFirebaseSetup_effect. rewrite Hcfg, Hinit.
    simpl notify. unfold onAuthStateChanged_callback.
    rewrite uid_or_randomUUID_spec.
    assert (Hu : currentUser_uid (record_call EvAuthListen w) = JUndefined).
    { unfold currentUser_uid. simpl. by rewrite Hnone. }
    rewrite Hu. simpl truthy. cbv iota.
    destruct (sign_in_exhausted fuel
                (record_call EvRandomUUID (record_call EvAuthListen w)) Hf Hfail)
      as (e & w' & tr & rest & -> & Hc & _ & HL & HT).
    eexists _, w', _, rest. split_and!; try done; try apply uuid_nonempty.
    rewrite Hc. simpl. by rewrite <- !app_assoc.
Qed.

(** C10. In the auth-state callback the fallback identifier is computed
    first: it is the uid of the auth instance's current user when that is
    a non-empty string, and otherwise a random UUID, a non-empty string
    of 36 characters made of the bytes drawn at that moment. The draw,
    if any, comes before every sign-in call, and nothing but sign-in
    calls and waits follows it. The fallback is what [userId] becomes
    when sign-in is skipped (a user is present) or rejects, in particular
    when every sign-in is rejected. When the retried sign-in resolves,
    [userId] is exactly [authInstance.currentUser?.uid] as read
    afterwards, with no fallback: if the backend resolves the sign-in
    without exposing a user, [userId] is [undefined] while [isAuthReady]
    is true. *)
Theorem callback_userId (fuel : nat) (user : option principal)
    (st : firebase_state) (w : world) :
  (6 ≤ fuel)%nat →
  ∃ st' w' w1 fallback rest,
    onAuthStateChanged_callback G B fuel user st w = Some (st', w')
    ∧ isAuthReady st' = true
    ∧ fallback = (if truthy (currentUser_uid w) then currentUser_uid w
                  else JStr (Platform.uuid_of_bytes (entropy B w)))
    ∧ truthy fallback = true
    ∧ (truthy (currentUser_uid w) = false →
       ∃ id, fallback = JStr id ∧ String.length id = 36%nat)
    ∧ w1 = (if truthy (currentUser_uid w) then w else record_call EvRandomUUID w)
    ∧ calls w' = calls w1 ++ rest
    ∧ Forall (λ ev, is_sign_in ev = true ∨ ∃ ms, ev = EvTimeout ms) rest
    ∧ match user with
      | Some _ => rest = [] ∧ userId st' = fallback
      | None =>
          ∃ r tr,
            withRetry_default fuel (sign_in_attempt G B) w1 = Some (r, w', tr)
            ∧ userId st' = match r with
                           | Resolve _ => currentUser_uid w'
                           | Reject _ => fallback
                           end
      end
    ∧ (user = None →
       (∀ w0 token, is_reject (sign_in B w0 token) = true) →
       userId st' = fallback
       ∧ length (List.filter is_sign_in rest) = 6%nat)
    ∧ (user = None →
       ∀ u, sign_in B w1 (sign_in_token G) = Resolve u →
            userId st' = match u with Some p => uid p | None => JUndefined end).
Proof.
  intros Hf. unfold onAuthStateChanged_callback. rewrite uid_or_randomUUID_spec.
  set (fallback := if truthy (currentUser_uid w) then currentUser_uid w
                   else JStr (Platform.uuid_of_bytes (entropy B w))).
  set (w1 := if truthy (currentUser_uid w) then w else record_call EvRandomUUID w).
  assert (Hpair : (if truthy (currentUser_uid w) then (currentUser_uid w, w)
                   else (JStr (Platform.uuid_of_bytes (entropy B w)),
                         record_call EvRandomUUID w)) = (fallback, w1)).
  { unfold fallback, w1. by destruct (truthy (currentUser_uid w)). }
  rewrite Hpair.
  assert (Htruthy : truthy fallback = true).
  { unfold fallback. destruct (truthy (currentUser_uid w)) eqn:Ht; [done|apply uuid_truthy]. }
  assert (Hshape : truthy (currentUser_uid w) = false →
            ∃ id, fallback = JStr id ∧ String.length id = 36%nat).
  { intros Ht. unfold fallback. rewrite Ht. eexists. split; [done|apply uuid_length]. }
  destruct user as [u0|].
  - exists (setIsAuthReady true (setUserId fallback st)), w1, w1, fallback, [].
    split_and!; try done. by rewrite app_nil_r.
  - destruct (withRetry_total setTimeout (sign_in_attempt G B) fuel 5 1000 w1)
      as [[[r w2] tr] Hr]; [lia|lia|].
    destruct (withRetry_calls is_sign_in (sign_in_attempt G B)
                ltac:(done) sign_in_attempt_call _ _ _ _ _ _ _ Hr)
      as (rest & Hc & HF & _ & _).
    unfold withRetry_default. rewrite Hr.
    exists (setIsAuthReady true
              (setUserId (match r with
                          | Resolve _ => currentUser_uid w2
                          | Reject _ => fallback
                          end) st)), w2, w1, fallback, rest.
    split_and!; try done; try (by destruct r).
    + exists r, tr. split; [done|]. by destruct r.
    + intros _ Hfail.
      destruct (sign_in_exhausted fuel w1 Hf Hfail) as (e & w3 & tr3 & rest3 & Hr3 & Hc3 & _ & HL & _).
      unfold withRetry_default in Hr3. rewrite Hr in Hr3. injection Hr3 as -> <- <-.
      split; [done|]. rewrite Hc in Hc3. apply app_inv_head in Hc3. by subst rest3.
    + intros _ u Hu.
      destruct fuel as [|fuel']; [lia|].
      destruct (sign_in_attempt_unfold w1) as (ev & _ & Hsa).
      assert (Hfst : (sign_in_attempt G B w1).1 = Resolve ()).
      { rewrite Hsa. unfold settle_sign_in. by rewrite Hu. }
      rewrite (withRetry_resolves setTimeout _ _ _ _ _ _ Hfst) in Hr.
      injection Hr as <- <- <-. simpl.
      rewrite Hsa. unfold settle_sign_in. rewrite Hu. by destruct u.
Qed.

(** ** useCmsConfig *)

Lemma defaultData_nonempty : defaultData ≠ ∅.
Proof.
  intros H. assert (L : defaultData !! "years" = Some "5+") by reflexivity.
  rewrite H in L. by rewrite lookup_empty in L.
Qed.

Lemma setDoc_merge_call (ref : path) (data : jsobj) (w : world) :
  ∃ ev, is_remote ev = true ∧ calls (snd (setDoc_merge B ref data w)) = calls w ++ [ev].
Proof.
  exists (EvSetDocMerge ref data). split; [done|]. unfold setDoc_merge.
  by destruct (set_doc B w ref data).
Qed.

(** A render never touches [config]. *)
Lemma render_config fuel d ready st w st' w' :
  useCmsConfig_render G B fuel d ready st w = Some (st', w') →
  config st' = config st.
Proof.
  unfold useCmsConfig_render, useCmsConfig_cleanup, useCmsConfig_effect.
  destruct (decide _); [by intros [= <- <-]|].
  destruct (subscription st), d as [h|]; try destruct ready;
    try (by intros [= <- <-]);
    destruct (setDoc_merge _ _ _ _) as [o w1];
    destruct (Retry.resume _ _ _ _ _ _ _) as [[[r w3] tr]|]; try done;
    by intros [= <- <-].
Qed.

Lemma render_total fuel d ready st w :
  (6 ≤ fuel)%nat → is_Some (useCmsConfig_render G B fuel d ready st w).
Proof.
  intros Hf. unfold useCmsConfig_render. destruct (decide _); [done|].
  destruct (useCmsConfig_cleanup st w) as [st1 w1].
  unfold useCmsConfig_effect. destruct d as [h|]; [destruct ready|]; try done.
  destruct (setDoc_merge B (getCmsDocRef G h) defaultData w1) as [o w2].
  destruct (resume_total setTimeout (setDoc_merge B (getCmsDocRef G h) defaultData)
              fuel 5 1000 o (record_call (EvSnapshotListen (getCmsDocRef G h)) w2))
    as [[[r w3] tr] Hr]; [lia|lia|].
  by rewrite Hr.
Qed.

Lemma step_total fuel i st w :
  (6 ≤ fuel)%nat → is_Some (useCmsConfig_step G B fuel i st w).
Proof. intros Hf. destruct i; simpl; [by apply render_total|done|done]. Qed.

Lemma run_total fuel inputs st w :
  (6 ≤ fuel)%nat → is_Some (useCmsConfig_run G B fuel inputs st w).
Proof.
  intros Hf. revert st w. induction inputs as [|i rest IH]; intros st w; simpl; [done|].
  destruct (step_total fuel i st w Hf) as [[st1 w1] ->]. apply IH.
Qed.

Lemma run_app fuel pre post st w :
  useCmsConfig_run G B fuel (pre ++ post) st w =
    match useCmsConfig_run G B fuel pre st w with
    | Some (st1, w1) => useCmsConfig_run G B fuel post st1 w1
    | None => None
    end.
Proof.
  revert st w. induction pre as [|i pre IH]; intros st w; simpl; [done|].
  destruct (useCmsConfig_step G B fuel i st w) as [[st1 w1]|]; [apply IH|done].
Qed.

(** One input leaves the view as it is, resets it to the defaults, or
    replaces it by the data of the snapshot just delivered. *)
Lemma step_config fuel i st w st' w' :
  useCmsConfig_step G B fuel i st w = Some (st', w') →
  config st' = config st
  ∨ config st' = defaultData
  ∨ ∃ data, i = Next (DocExists data) ∧ config st' = data.
Proof.
  destruct i as [d ready|[data|]|e]; simpl.
  - intros H. left. by apply render_config in H.
  - intros [= <- <-]. destruct (subscription st); [|by left].
    right; right. by exists data.
  - intros [= <- <-]. destruct (subscription st); [right|]; by left.
  - intros [= <- <-]. destruct (subscription st); [right|]; by left.
Qed.

Lemma run_config fuel inputs st w st' w' :
  useCmsConfig_run G B fuel inputs st w = Some (st', w') →
  config st' = config st
  ∨ config st' = defaultData
  ∨ ∃ data, Next (DocExists data) ∈ inputs ∧ config st' = data.
Proof.
  revert st w. induction inputs as [|i rest IH]; intros st w; simpl.
  - intros [= <- <-]. by left.
  - destruct (useCmsConfig_step G B fuel i st w) as [[st1 w1]|] eqn:Hs; [|done].
    intros Hr. destruct (IH _ _ Hr) as [Hc|[Hc|(data & Hin & Hc)]].
    + rewrite Hc. destruct (step_config _ _ _ _ _ _ Hs) as [?|[?|(data & -> & ?)]];
        [by left|by right; left|].
      right; right. exists data. split; [apply list_elem_of_here|done].
    + by right; left.
    + right; right. exists data. split; [by apply list_elem_of_further|done].
Qed.

(** A render whose guard fails, in a hook that is not listening, changes
    neither the world nor the view. *)
Lemma render_guarded fuel d ready st w :
  subscription st = None →
  d = None ∨ ready = false →
  ∃ st', useCmsConfig_render G B fuel d ready st w = Some (st', w)
         ∧ subscription st' = None ∧ config st' = config st.
Proof.
  intros Hsub Hg. unfold useCmsConfig_render, useCmsConfig_cleanup, useCmsConfig_effect.
  destruct (decide _); [by exists st|].
  rewrite Hsub. destruct Hg as [->| ->]; [|destruct d]; by eexists.
Qed.

Lemma run_guarded fuel inputs st w :
  subscription st = None →
  (∀ d ready, Render d ready ∈ inputs → d = None ∨ ready = false) →
  ∃ st', useCmsConfig_run G B fuel inputs st w = Some (st', w)
         ∧ subscription st' = None ∧ config st' = config st.
Proof.
  revert st. induction inputs as [|i rest IH]; intros st Hsub Hg; simpl.
  - by exists st.
  - assert (Hrest : ∀ d ready, Render d ready ∈ rest → d = None ∨ ready = false).
    { intros d ready Hin. apply Hg. by apply list_elem_of_further. }
    destruct i as [d ready|docSnap|e]; simpl.
    + destruct (render_guarded fuel d ready st w Hsub) as (st1 & -> & Hs1 & Hc1).
      { apply Hg, list_elem_of_here. }
      destruct (IH st1 Hs1 Hrest) as (st' & -> & Hs' & Hc').
      exists st'. split_and!; [done|done|congruence].
    + rewrite Hsub. apply (IH st Hsub Hrest).
    + rewrite Hsub. apply (IH st Hsub Hrest).
Qed.

Lemma passing_render_dec (inputs : list cms_input) :
  (∃ h, Render (Some h) true ∈ inputs)
  ∨ (∀ d ready, Render d ready ∈ inputs → d = None ∨ ready = false).
Proof.
  induction inputs as [|i rest [(h & Hin)|Hall]].
  - right. intros d ready Hin. by apply elem_of_nil in Hin.
  - left. exists h. by apply list_elem_of_further.
  - destruct i as [[h|] [|]|docSnap|e];
      try (right; intros d ready [Heq|Hin]%elem_of_cons; [by inversion Heq; auto|by apply Hall]).
    left. exists h. apply list_elem_of_here.
Qed.

(** Sign-in calls, waits and UUID draws are not storage calls. *)
Lemma callback_no_remote fuel user st w st' w' :
  onAuthStateChanged_callback G B fuel user st w = Some (st', w') →
  count_calls is_remote w' = count_calls is_remote w.
Proof.
  unfold onAuthStateChanged_callback. rewrite uid_or_randomUUID_spec.
  assert (Hdraw : ∀ w1, (w1 = w ∨ w1 = record_call EvRandomUUID w) →
            count_calls is_remote w1 = count_calls is_remote w).
  { intros w1 [->| ->]; [done|].
    unfold count_calls. simpl. rewrite List.filter_app. simpl. by rewrite app_nil_r. }
  destruct (truthy (currentUser_uid w)).
  - destruct user as [u|]; [by intros [= <- <-]|].
    destruct (withRetry_default _ _ _) as [[[r w2] tr]|] eqn:Hr; [|done].
    destruct (withRetry_calls is_sign_in (sign_in_attempt G B)
                ltac:(done) sign_in_attempt_call _ _ _ _ _ _ _ Hr)
      as (rest & Hc & HF & _ & _).
    assert (H2 : count_calls is_remote w2 = count_calls is_remote w).
    { rewrite (count_calls_app _ _ _ _ Hc).
      replace (List.filter is_remote rest) with (@nil event); [simpl; lia|].
      clear Hc. induction HF as [|ev rest' Hev _ IH]; [done|].
      simpl. rewrite <- IH. by destruct Hev as [Hs|[ms ->]]; [destruct ev|]. }
    by destruct r; intros [= <- <-].
  - destruct user as [u|]; [intros [= <- <-]; apply Hdraw; by right|].
    destruct (withRetry_default _ _ _) as [[[r w2] tr]|] eqn:Hr; [|done].
    destruct (withRetry_calls is_sign_in (sign_in_attempt G B)
                ltac:(done) sign_in_attempt_call _ _ _ _ _ _ _ Hr)
      as (rest & Hc & HF & _ & _).
    assert (H2 : count_calls is_remote w2 = count_calls is_remote w).
    { rewrite (count_calls_app _ _ _ _ Hc), Hdraw by (by right).
      replace (List.filter is_remote rest) with (@nil event); [simpl; lia|].
      clear Hc. induction HF as [|ev rest' Hev _ IH]; [done|].
      simpl. rewrite <- IH. by destruct Hev as [Hs|[ms ->]]; [destruct ev|]. }
    by destruct r; intros [= <- <-].
Qed.

Lemma App_render_guarded fuel w0 s w s' w' :
  App_render G B fuel s w = Some (s', w') →
  (db (identity s) = None ∨ isAuthReady (identity s) = false →
   subscription (cms s) = None
   ∧ config (cms s) = defaultData
   ∧ count_calls is_remote w = count_calls is_remote w0) →
  identity s' = identity s ∧ App_guard_invariant w0 s' w'.
Proof.
  unfold App_render. intros Hr Hinv.
  destruct (useCmsConfig_render G B fuel _ _ (cms s) w) as [[c w1]|] eqn:Hc; [|done].
  injection Hr as <- <-. split; [done|]. intros Hg. simpl in Hg |- *.
  destruct (Hinv Hg) as (Hsub & Hcfg & Hcount).
  destruct (render_guarded fuel _ _ (cms s) w Hsub Hg) as (c' & Hc' & Hs' & Hcfg').
  rewrite Hc' in Hc. injection Hc as <- <-. split_and!; [done|congruence|done].
Qed.

Lemma App_mount_guarded fuel w s w' :
  App_mount G B fuel w = Some (s, w') → App_guard_invariant w s w'.
Proof.
  unfold App_mount.
  destruct (useFirebaseSetup_effect G B useFirebaseSetup_initial w) as [[st w1] listening] eqn:He.
  assert (Hw1 : count_calls is_remote w1 = count_calls is_remote w).
  { unfold useFirebaseSetup_effect in He.
    destruct (firebaseConfig G) as [cfg|]; [destruct (initialize B cfg)|];
      injection He as <- <- <-; try done.
    unfold count_calls. simpl. rewrite List.filter_app. simpl. by rewrite app_nil_r. }
  destruct (render_guarded fuel None false useCmsConfig_initial w1 eq_refl (or_introl eq_refl))
    as (c & -> & Hsub & Hcfg).
  intros Hr. apply (App_render_guarded _ w) in Hr; [by destruct Hr|].
  by intros _.
Qed.

Lemma App_step_guarded fuel w0 i s w s' w' :
  App_step G B fuel i s w = Some (s', w') →
  App_guard_invariant w0 s w → App_guard_invariant w0 s' w'.
Proof.
  destruct i as [user|docSnap|e]; simpl.
  - destruct (auth_listener s); [|by intros [= <- <-]].
    destruct (onAuthStateChanged_callback G B fuel user (identity s) w)
      as [[st w1]|] eqn:Hcb; [|done].
    intros Hr Hinv.
    destruct (callback_ready _ _ _ _ _ _ Hcb) as (Hready & Hdb & _).
    apply (App_render_guarded _ w0) in Hr; [by destruct Hr|].
    simpl. intros Hg.
    assert (Hg0 : db (identity s) = None ∨ isAuthReady (identity s) = false).
    { destruct Hg as [Hg|Hg]; [left; congruence|congruence]. }
    destruct (Hinv Hg0) as (? & ? & Hcount). split_and!; [done|done|].
    by rewrite (callback_no_remote _ _ _ _ _ _ Hcb).
  - intros [= <- <-] Hinv Hg. simpl in *.
    destruct (Hinv Hg) as (Hsub & ? & ?). by rewrite Hsub.
  - intros [= <- <-] Hinv Hg. simpl in *.
    destruct (Hinv Hg) as (Hsub & ? & ?). by rewrite Hsub.
Qed.

Lemma App_guarded fuel inputs w s w' :
  App G B fuel inputs w = Some (s, w') →
  db (identity s) = None ∨ isAuthReady (identity s) = false →
  subscription (cms s) = None
  ∧ config (cms s) = defaultData
  ∧ count_calls is_remote w' = count_calls is_remote w.
Proof.
  unfold App. destruct (App_mount G B fuel w) as [[s0 w0]|] eqn:Hm; [|done].
  apply App_mount_guarded in Hm. revert s0 w0 Hm.
  induction inputs as [|i rest IH]; intros s0 w0 Hm; simpl.
  - by intros [= <- <-].
  - destruct (App_step G B fuel i s0 w0) as [[s1 w1]|] eqn:Hs; [|done].
    apply IH. by apply (App_step_guarded _ _ _ _ _ _ _ Hs).
Qed.

Lemma App_run_total fuel inputs s w :
  (6 ≤ fuel)%nat → is_Some (App_run G B fuel inputs s w).
Proof.
  intros Hf. revert s w. induction inputs as [|i rest IH]; intros s w; simpl; [done|].
  assert (Hrender : ∀ s0 w0, is_Some (App_render G B fuel s0 w0)).
  { intros s0 w0. unfold App_render.
    by destruct (render_total fuel (db (identity s0)) (isAuthReady (identity s0))
                   (cms s0) w0 Hf) as [[c w1] ->]. }
  assert (Hstep : is_Some (App_step G B fuel i s w)).
  { destruct i as [user|docSnap|e]; simpl; [|done|done].
    destruct (auth_listener s); [|done].
    destruct (callback_total fuel user (identity s) w Hf) as [[st w1] ->].
    apply Hrender. }
  destruct Hstep as [[s1 w1] ->]. apply IH.
Qed.

Lemma App_total fuel inputs w :
  (6 ≤ fuel)%nat → is_Some (App G B fuel inputs w).
Proof.
  intros Hf. unfold App, App_mount.
  destruct (useFirebaseSetup_effect G B useFirebaseSetup_initial w) as [[st w1] listening].
  destruct (render_total fuel None false useCmsConfig_initial w1 Hf) as [[c w2] ->].
  unfold App_render.
  destruct (render_total fuel (db st) (isAuthReady st) c w2 Hf) as [[c' w3] Hr].
  simpl. rewrite Hr. by apply App_run_total.
Qed.

(** C6. As long as every render so far had an absent backend handle or
    [isAuthReady] false, the hook has made no call at all (the world is
    unchanged: no seed write, no subscription), it is not listening, and
    it exposes the compiled-in defaults. Hence if a longer run has made a
    remote call, a render with a handle and [isAuthReady] true came
    first. In [App], where the arguments of the hook are those of the
    identity hook, this holds at every moment: whenever the handle is
    absent or the identity is not ready, no storage call has been made
    and the defaults are exposed. *)
Theorem useCmsConfig_guarded (fuel : nat) (pre post : list cms_input) (w : world) :
  (∀ d ready, Render d ready ∈ pre → d = None ∨ ready = false) →
  ∃ st,
    useCmsConfig_run G B fuel pre useCmsConfig_initial w = Some (st, w)
    ∧ subscription st = None
    ∧ config st = defaultData
    ∧ useCmsConfig G B fuel pre w = Some defaultData
    ∧ (∀ st' w',
         useCmsConfig_run G B fuel (pre ++ post) useCmsConfig_initial w = Some (st', w') →
         count_calls is_remote w' ≠ count_calls is_remote w →
         ∃ h, Render (Some h) true ∈ post)
    ∧ (∀ inputs s w',
         App G B fuel inputs w = Some (s, w') →
         db (identity s) = None ∨ isAuthReady (identity s) = false →
         subscription (cms s) = None
         ∧ config (cms s) = defaultData
         ∧ count_calls is_remote w' = count_calls is_remote w).
Proof.
  intros Hg.
  destruct (run_guarded fuel pre useCmsConfig_initial w eq_refl Hg) as (st & Hrun & Hsub & Hc).
  exists st. split_and!; try done.
  - unfold useCmsConfig. by rewrite Hrun, Hc.
  - intros st' w'. rewrite run_app, Hrun. intros Hpost Hne.
    destruct (passing_render_dec post) as [?|Hall]; [done|].
    destruct (run_guarded fuel post st w Hsub Hall) as (st2 & Hrun2 & _).
    rewrite Hrun2 in Hpost. by injection Hpost as <- <-.
  - intros inputs s w'. apply App_guarded.
Qed.

(** C4, as the code has it. The view returned by the hook is always
    either the compiled-in defaults, which are not empty, or the data of
    an existing-document snapshot that was delivered, taken verbatim. It is
    determined by the last delivery: after a delivery to a listening hook
    the view is that snapshot's data if the document exists and the
    defaults otherwise, and renders leave it alone. So the view is not
    empty as long as no delivered existing document is empty. *)
Theorem useCmsConfig_view (fuel : nat) (inputs : list cms_input) (w : world) :
  (6 ≤ fuel)%nat →
  ∃ st w',
    useCmsConfig_run G B fuel inputs useCmsConfig_initial w = Some (st, w')
    ∧ useCmsConfig G B fuel inputs w = Some (config st)
    ∧ (config st = defaultData
       ∨ ∃ data, Next (DocExists data) ∈ inputs ∧ config st = data)
    ∧ defaultData ≠ ∅
    ∧ ((∀ data, Next (DocExists data) ∈ inputs → data ≠ ∅) → config st ≠ ∅)
    ∧ (∀ past i st0 w0,
         inputs = past ++ [i] →
         useCmsConfig_run G B fuel past useCmsConfig_initial w = Some (st0, w0) →
         subscription st0 ≠ None →
         config st = match i with
                     | Next (DocExists data) => data
                     | Next DocMissing | Error _ => defaultData
                     | Render _ _ => config st0
                     end).
Proof.
  intros Hf.
  destruct (run_total fuel inputs useCmsConfig_initial w Hf) as [[st w'] Hrun].
  assert (Hview : config st = defaultData
                  ∨ ∃ data, Next (DocExists data) ∈ inputs ∧ config st = data).
  { destruct (run_config _ _ _ _ _ _ Hrun) as [?|[?|?]]; auto. }
  exists st, w'. split_and!; try done; try apply defaultData_nonempty.
  - unfold useCmsConfig. by rewrite Hrun.
  - intros Hne. destruct Hview as [->|(data & Hin & ->)];
      [apply defaultData_nonempty|by apply Hne].
  - intros past i st0 w0 -> Hpast Hsub.
    rewrite run_app, Hpast in Hrun. simpl in Hrun.
    destruct (useCmsConfig_step G B fuel i st0 w0) as [[st1 w1]|] eqn:Hs; [|done].
    injection Hrun as <- <-.
    destruct i as [d ready|[data|]|e]; simpl in Hs.
    + by apply render_config in Hs.
    + destruct (subscription st0); [|done]. by injection Hs as <- <-.
    + destruct (subscription st0); [|done]. by injection Hs as <- <-.
    + destruct (subscription st0); [|done]. by injection Hs as <- <-.
Qed.

(** C5. A hook that listens and receives first "the document does not
    exist" and then an existing snapshot ends with exactly the data of
    that snapshot. For the snapshot with the single field [years = 7+] the
    view is exactly that one-field mapping: no default is merged in. *)
Theorem useCmsConfig_missing_then_snapshot (fuel : nat) (h : firestore)
    (data : jsobj) (w : world) :
  (6 ≤ fuel)%nat →
  useCmsConfig G B fuel [Render (Some h) true; Next DocMissing; Next (DocExists data)] w
    = Some data
  ∧ ∃ view,
      useCmsConfig G B fuel
        [Render (Some h) true; Next DocMissing; Next (DocExists {[ "years" := "7+" ]})] w
        = Some view
      ∧ view = {[ "years" := "7+" ]}
      ∧ dom view = {[ "years" ]}
      ∧ view !! "countries" = None
      ∧ view !! "projects" = None
      ∧ view !! "customers" = None
      ∧ view ≠ {[ "years" := "7+" ]} ∪ defaultData.
Proof.
  intros Hf.
  assert (Hgen : ∀ data',
    useCmsConfig G B fuel [Render (Some h) true; Next DocMissing; Next (DocExists data')] w
      = Some data').
  { intros data'. unfold useCmsConfig. simpl.
    unfold useCmsConfig_render, useCmsConfig_effect. simpl.
    destruct (setDoc_merge B (getCmsDocRef G h) defaultData w) as [o w1].
    destruct (resume_total setTimeout (setDoc_merge B (getCmsDocRef G h) defaultData)
                fuel 5 1000 o (record_call (EvSnapshotListen (getCmsDocRef G h)) w1))
      as [[[r w3] tr] Hr]; [lia|lia|].
    by rewrite Hr. }
  split; [apply Hgen|].
  exists {[ "years" := "7+" ]}. split_and!; try done.
  all: try (by rewrite dom_singleton_L).
  all: intros Heq.
  all: assert (L : ({[ "years" := "7+" ]} ∪ defaultData : jsobj) !! "countries" = Some "15+")
         by reflexivity.
  all: by rewrite <- Heq in L.
Qed.

(** ** submitLead *)

Lemma addDoc_call (ref : path) (formData : jsobj) (w : world) :
  ∃ ev, is_addDoc ev = true
        ∧ calls (snd (addDoc B ref (lead_record B formData w) w)) = calls w ++ [ev].
Proof.
  exists (EvAddDoc ref (lead_record B formData w)). split; [done|]. unfold addDoc.
  by destruct (add_doc B w ref _).
Qed.

Lemma collection_at_append (ref ref' : path) (data : jsobj) (w : world) :
  collection_at ref' (append_record ref data w) =
    if decide (ref = ref') then collection_at ref w ++ [data] else collection_at ref' w.
Proof.
  unfold collection_at, append_record. simpl. rewrite lookup_insert.
  by destruct (decide (ref = ref')) as [->|].
Qed.

(** A component without a slash is split into itself. *)
Lemma split_no_slash (s : string) : Paths.has_slash s = false → Paths.split s = [s].
Proof.
  induction s as [|c s IH]; simpl; [done|].
  destruct (Ascii.eqb c "/"); simpl; [done|]. intros Hs. by rewrite (IH Hs).
Qed.

Lemma plain_segments (s : string) : Paths.plain s = true → Paths.segments_of s = [s].
Proof.
  unfold Paths.plain, Paths.segments_of. intros [Hne Hs%negb_true_iff]%andb_true_iff.
  rewrite (split_no_slash s Hs). simpl. by rewrite Hne.
Qed.

Lemma plain_no_double_slash (s : string) :
  Paths.has_slash s = false → Paths.includes_double_slash s = false.
Proof.
  induction s as [|c s IH]; simpl; [done|].
  intros [Hc Hs]%orb_false_iff. destruct s as [|c' s']; [done|].
  rewrite Hc. simpl. by apply IH.
Qed.

(** With an app id and a user id that are one segment each, the lead
    collection is [artifacts/<appId>/users/<userId>/zorix_leads]. *)
Lemma getLeadsCollectionRef_plain (h : firestore) (s : string) :
  Paths.plain (appId G) = true →
  Paths.plain s = true →
  getLeadsCollectionRef G h (JStr s)
    = Some ["artifacts"; appId G; "users"; s; "zorix_leads"].
Proof.
  intros Ha Hs. unfold getLeadsCollectionRef, Paths.collection, Paths.fromString.
  assert (Ha' : Paths.has_slash (appId G) = false).
  { unfold Paths.plain in Ha. apply andb_true_iff in Ha as [_ Ha].
    by apply negb_true_iff in Ha. }
  assert (Hs' : Paths.has_slash s = false).
  { unfold Paths.plain in Hs. apply andb_true_iff in Hs as [_ Hs].
    by apply negb_true_iff in Hs. }
  simpl existsb.
  rewrite (plain_no_double_slash _ Ha'), (plain_no_double_slash _ Hs'). simpl.
  by rewrite (plain_segments _ Ha), (plain_segments _ Hs).
Qed.

(** When [collection] throws, [submitLead] returns the generic failure
    without a call. *)
Lemma submitLead_invalid_path (fuel : nat) (h : firestore) (uid : jsval)
    (formData : jsobj) (w : world) :
  truthy uid = true →
  getLeadsCollectionRef G h uid = None →
  submitLead G B fuel (Some h) uid formData w
    = Some (MkResult false "Submission failed. Please check your network connection.", w).
Proof. intros Hu Href. unfold submitLead. by rewrite Hu, Href. Qed.

(** Rejected appends and waits leave the collections as they were. *)
Lemma world_at_collections (ref : path) (formData : jsobj) (k : nat) :
  ∀ d w,
    (∀ i, (i < k)%nat →
       is_reject (Retry.outcome_at setTimeout
                    (λ w0, addDoc B ref (lead_record B formData w0) w0) i d w) = true) →
    collections (Retry.world_at setTimeout
                   (λ w0, addDoc B ref (lead_record B formData w0) w0) k d w)
      = collections w.
Proof.
  induction k as [|k IH]; intros d w Hfail; [done|].
  simpl Retry.world_at. rewrite IH.
  - specialize (Hfail O ltac:(lia)). unfold Retry.outcome_at in Hfail. simpl in Hfail |- *.
    unfold addDoc in *. by destruct (add_doc B w ref _).
  - intros i Hi. apply (Hfail (S i)). lia.
Qed.

(** When the append is accepted on attempt [k] of the six, after [k - 1]
    rejections, [submitLead] succeeds after exactly [k] [addDoc] calls and
    the collection has gained exactly one record: the form data stamped
    with the clock of the accepted attempt. *)
Lemma submitLead_accepted_after_retries (fuel k : nat) (h : firestore) (uid : jsval)
    (ref : path) (formData : jsobj) (w : world) :
  truthy uid = true →
  getLeadsCollectionRef G h uid = Some ref →
  (1 ≤ k ≤ 6)%nat →
  (k ≤ fuel)%nat →
  (∀ i, (i < k - 1)%nat →
     is_reject (Retry.outcome_at setTimeout
                  (λ w0, addDoc B ref (lead_record B formData w0) w0) i 1000 w) = true) →
  is_reject (Retry.outcome_at setTimeout
               (λ w0, addDoc B ref (lead_record B formData w0) w0) (k - 1) 1000 w) = false →
  ∃ w' w_k,
    submitLead G B fuel (Some h) uid formData w
      = Some (MkResult true "Thank you! Your inquiry has been successfully submitted.", w')
    ∧ w_k = Retry.world_at setTimeout
              (λ w0, addDoc B ref (lead_record B formData w0) w0) (k - 1) 1000 w
    ∧ collection_at ref w' = collection_at ref w ++ [lead_record B formData w_k]
    ∧ count_calls is_addDoc w' = (count_calls is_addDoc w + k)%nat.
Proof.
  intros Hu Href Hk Hf Hfail Hok.
  set (fn := λ w0, addDoc B ref (lead_record B formData w0) w0) in *.
  destruct (Retry.outcome_at setTimeout fn (k - 1) 1000 w) as [a|e] eqn:Ho; [|done].
  destruct (withRetry_first_success setTimeout fn 6 k 1000 w fuel a)
    as (tr & Hrun & _ & Hatt & _); try done.
  change (Z.of_nat 6 - 1) with 5 in Hrun.
  destruct (withRetry_calls is_addDoc fn ltac:(done)
              (λ w0, addDoc_call ref formData w0) _ _ _ _ _ _ _ Hrun)
    as (rest & Hc & _ & HL & _).
  eexists _, _. split_and!; [|reflexivity|..].
  - unfold submitLead. rewrite Hu, Href. fold fn.
    unfold withRetry_default. by rewrite Hrun.
  - unfold Retry.outcome_at in Ho.
    pose proof (world_at_collections ref formData (k - 1) 1000 w Hfail) as Hframe.
    fold fn in Hframe.
    set (wk := Retry.world_at setTimeout fn (k - 1) 1000 w) in *.
    unfold fn at 1. unfold fn in Ho. unfold addDoc in *.
    destruct (add_doc B wk ref (lead_record B formData wk)); [done|].
    simpl snd. rewrite collection_at_append, decide_True by done.
    unfold collection_at. simpl. by rewrite Hframe.
  - rewrite (count_calls_app _ _ _ _ Hc). by rewrite HL, Hatt.
Qed.

(** C7. When the backend handle is absent or the user id is absent
    (null, undefined or empty), [submitLead] returns the not-ready failure
    and leaves the world as it was: no call is made, so no record append
    is attempted and nothing is retried. This is the case in particular
    for the handle and user id of an identity hook that is not ready. *)
Theorem submitLead_not_ready (fuel : nat) (d : option firestore) (uid : jsval)
    (formData : jsobj) (w : world) :
  d = None ∨ truthy uid = false →
  submitLead G B fuel d uid formData w
    = Some (MkResult false "System not ready. Please try again later.", w)
  ∧ (∀ fuel0 notifications w0 st w1,
       useFirebaseSetup G B fuel0 notifications w0 = Some (st, w1) →
       isAuthReady st = false →
       submitLead G B fuel (db st) (userId st) formData w
         = Some (MkResult false "System not ready. Please try again later.", w)).
Proof.
  intros Hg. split.
  - unfold submitLead. destruct Hg as [->| ->]; [done|by destruct d].
  - intros fuel0 notifications w0 st w1 Hrun Hnr.
    unfold submitLead. rewrite (not_ready_no_userId _ _ _ _ _ Hrun Hnr).
    by destruct (db st).
Qed.

(** C8, as the code has it. When the handle and the user id are present,
    the path of the lead collection is valid and the backend accepts the
    write, [submitLead] returns the success result after one [addDoc]
    call, which appends exactly one record to the lead collection and
    touches no other collection; for an app id and a user id of one
    segment each that collection is
    [artifacts/<appId>/users/<userId>/zorix_leads]. The record is the
    form data with [status] set to [New] and [timestamp] set to the
    ISO-8601 rendering of [new Date()], read in the browser when the
    operation runs: it is part of the data passed to [addDoc]. Every
    submitted field with another key is kept, so the record contains
    all of a form data that has no field of these two names, as that of
    the contact form. *)
Theorem submitLead_accepted (fuel : nat) (h : firestore) (uid : jsval) (ref : path)
    (formData : jsobj) (w : world) :
  (1 ≤ fuel)%nat →
  truthy uid = true →
  getLeadsCollectionRef G h uid = Some ref →
  add_doc B w ref (lead_record B formData w) = None →
  ∃ w' record,
    submitLead G B fuel (Some h) uid formData w
      = Some (MkResult true "Thank you! Your inquiry has been successfully submitted.", w')
    ∧ (∀ s, uid = JStr s → Paths.plain (appId G) = true → Paths.plain s = true →
            ref = ["artifacts"; appId G; "users"; s; "zorix_leads"])
    ∧ record = <["status" := "New"]>
                 (<["timestamp" := Platform.toISOString (clock B w)]> formData)
    ∧ collection_at ref w' = collection_at ref w ++ [record]
    ∧ (∀ ref', ref' ≠ ref → collection_at ref' w' = collection_at ref' w)
    ∧ calls w' = calls w ++ [EvAddDoc ref record]
    ∧ record !! "status" = Some "New"
    ∧ record !! "timestamp" = Some (Platform.toISOString (clock B w))
    ∧ (0 ≤ Platform.YearFromTime (clock B w) ≤ 9999 →
       Platform.iso8601_utc (Platform.toISOString (clock B w)) = true)
    ∧ (∀ k, k ≠ "timestamp" → k ≠ "status" → record !! k = formData !! k)
    ∧ (formData !! "timestamp" = None → formData !! "status" = None →
       formData ⊆ record)
    ∧ dom record = {[ "status"; "timestamp" ]} ∪ dom formData.
Proof.
  intros Hf Hu Href Hacc.
  destruct fuel as [|fuel']; [lia|].
  eexists _, _. split_and!; [| |reflexivity|..].
  - unfold submitLead. rewrite Hu, Href. unfold withRetry_default.
    rewrite (withRetry_resolves setTimeout _ _ _ _ _ (length (collection_at ref w))).
    + reflexivity.
    + unfold addDoc. by rewrite Hacc.
  - intros s -> Ha Hs. rewrite (getLeadsCollectionRef_plain h s Ha Hs) in Href.
    by injection Href as <-.
  - unfold addDoc. rewrite Hacc. simpl snd.
    rewrite collection_at_append. by rewrite decide_True.
  - intros ref' Hne. unfold addDoc. rewrite Hacc. simpl snd.
    rewrite collection_at_append. by rewrite decide_False.
  - unfold addDoc. by rewrite Hacc.
  - by rewrite lookup_insert_eq.
  - rewrite lookup_insert_ne by done. by rewrite lookup_insert_eq.
  - apply toISOString_shape.
  - intros k Hk1 Hk2. by rewrite !lookup_insert_ne.
  - intros Hts Hst. etrans; [apply insert_subseteq; exact Hts|].
    apply insert_subseteq. by rewrite lookup_insert_ne.
  - rewrite !dom_insert_L. by rewrite (assoc_L (∪)).
Qed.

(** C9, as the code has it. When the handle and the user id are present,
    the path of the lead collection is valid and the backend rejects
    every [addDoc], [submitLead] still returns a result, the failure one,
    after exactly six [addDoc] calls (the first attempt and five retries,
    with waits of 1, 2, 4, 8 and 16 seconds). The error of the sixth
    attempt is what [withRetry] hands to the [catch]; the message
    returned is a fixed text, not empty, and it is not the text of that
    error as long as the backend does not word its own errors with that
    very sentence. *)
Theorem submitLead_exhausted (fuel : nat) (h : firestore) (uid : jsval) (ref : path)
    (formData : jsobj) (w : world) :
  (6 ≤ fuel)%nat →
  truthy uid = true →
  getLeadsCollectionRef G h uid = Some ref →
  (∀ w0 data, is_Some (add_doc B w0 ref data)) →
  ∃ w' rest e,
    submitLead G B fuel (Some h) uid formData w
      = Some (MkResult false "Submission failed. Please check your network connection.", w')
    ∧ calls w' = calls w ++ rest
    ∧ Forall (λ ev, is_addDoc ev = true ∨ ∃ ms, ev = EvTimeout ms) rest
    ∧ length (List.filter is_addDoc rest) = 6%nat
    ∧ count_calls is_addDoc w' = (count_calls is_addDoc w + 6)%nat
    ∧ timeouts rest = [1000; 2000; 4000; 8000; 16000]
    ∧ withRetry_default fuel (λ w0, addDoc B ref (lead_record B formData w0) w0) w
        = Some (Reject e, w',
                Retry.failed_prefix setTimeout
                  (λ w0, addDoc B ref (lead_record B formData w0) w0) 5 1000 w
                ++ [Retry.Attempt (Reject e)])
    ∧ Retry.outcome_at setTimeout
        (λ w0, addDoc B ref (lead_record B formData w0) w0) 5 1000 w = Reject e
    ∧ "Submission failed. Please check your network connection." ≠ EmptyString
    ∧ ((∀ w0 data e0, add_doc B w0 ref data = Some e0 →
          detail e0 ≠ "Submission failed. Please check your network connection.") →
       "Submission failed. Please check your network connection." ≠ detail e).
Proof.
  intros Hf Hu Href Hrej.
  set (fn := λ w0, addDoc B ref (lead_record B formData w0) w0).
  assert (Hfail : ∀ w0, is_reject (fst (fn w0)) = true).
  { intros w0. unfold fn, addDoc.
    by destruct (Hrej w0 (lead_record B formData w0)) as [e ->]. }
  destruct (withRetry_all_failed setTimeout fn 6 1000 w fuel)
    as (e & tr & Hrun & Hlast & Htr & Hatt & Hwaits & _); [lia|done|..].
  { intros i _. apply Hfail. }
  change (Z.of_nat 6 - 1) with 5 in Hrun. change (6 - 1)%nat with 5%nat in *.
  destruct (withRetry_calls is_addDoc fn ltac:(done)
              (λ w0, addDoc_call ref formData w0) _ _ _ _ _ _ _ Hrun)
    as (rest & Hc & HF & HL & HW).
  exists (snd (fn (Retry.world_at setTimeout fn 5 1000 w))), rest, e.
  split_and!; try done.
  - unfold submitLead. rewrite Hu, Href. fold fn. unfold withRetry_default. by rewrite Hrun.
  - by rewrite HL, Hatt.
  - rewrite (count_calls_app _ _ _ _ Hc). by rewrite HL, Hatt.
  - by rewrite HW, Hwaits.
  - unfold withRetry_default. by rewrite Hrun, Htr.
  - intros Hbackend Heq.
    unfold Retry.outcome_at, fn, addDoc in Hlast.
    destruct (add_doc B _ ref _) as [e0|] eqn:Hadd; [|done].
    injection Hlast as <-. by apply (Hbackend _ _ _ Hadd).
Qed.

End CoreFacts.

(** ** The properties on concrete backends *)

Lemma useFirebaseSetup_always_ready_witness :
  useFirebaseSetup G_none B_up 6 [None] w_empty
    = Some (MkFirebase None None JNull true, w_empty)
  ∧ ∃ st' w',
      useFirebaseSetup G_anon B_down 6 [None] w_empty = Some (st', w')
      ∧ isAuthReady st' = true
      ∧ userId st' = JStr "03142536-4758-497a-8b9c-adbecfe0f102".
Proof.
  split.
  - destruct (useFirebaseSetup_always_ready G_none B_up 6 w_empty ltac:(lia))
      as (Hnone & _ & _).
    apply Hnone. reflexivity.
  - destruct (useFirebaseSetup_always_ready G_anon B_down 6 w_empty ltac:(lia))
      as (_ & _ & Hdown).
    destruct (Hdown {[ "projectId" := "zorix" ]} eq_refl eq_refl eq_refl (λ _ _, eq_refl))
      as (st' & w' & id & rest & Hrun & Hready & Hid & Hval & _).
    exists st', w'. split; [exact Hrun|]. split; [exact Hready|].
    rewrite Hid, Hval. reflexivity.
Defined.

Example useFirebaseSetup_down_calls :
  (λ r, calls r.2) <$> useFirebaseSetup G_anon B_down 6 [None] w_empty
    = Some [EvAuthListen; EvRandomUUID;
            EvSignInAnonymously; EvTimeout 1000;
            EvSignInAnonymously; EvTimeout 2000;
            EvSignInAnonymously; EvTimeout 4000;
            EvSignInAnonymously; EvTimeout 8000;
            EvSignInAnonymously; EvTimeout 16000;
            EvSignInAnonymously].
Proof. reflexivity. Qed.

Example useFirebaseSetup_token_calls :
  (λ r, (userId r.1, calls r.2)) <$> useFirebaseSetup G_token B_up 6 [None] w_empty
    = Some (JStr "user-1", [EvAuthListen; EvRandomUUID; EvSignInWithCustomToken "tok-1"]).
Proof. reflexivity. Qed.

Lemma callback_userId_witness :
  (∃ st' w',
     onAuthStateChanged_callback G_anon B_down 6 None useFirebaseSetup_initial w_empty
       = Some (st', w')
     ∧ isAuthReady st' = true
     ∧ userId st' = JStr "03142536-4758-497a-8b9c-adbecfe0f102")
  ∧ (∃ st' w',
       onAuthStateChanged_callback G_anon B_no_user 6 None useFirebaseSetup_initial w_empty
         = Some (st', w')
       ∧ isAuthReady st' = true
       ∧ userId st' = JUndefined).
Proof.
  split.
  - destruct (callback_userId G_anon B_down 6 None useFirebaseSetup_initial w_empty
                ltac:(lia))
      as (st' & w' & w1 & fallback & rest & Hrun & Hready & Hfb & _ & _ & _ & _ & _ & _
          & Hfail & _).
    exists st', w'. split; [exact Hrun|]. split; [exact Hready|].
    rewrite (proj1 (Hfail eq_refl (λ _ _, eq_refl))), Hfb. reflexivity.
  - destruct (callback_userId G_anon B_no_user 6 None useFirebaseSetup_initial w_empty
                ltac:(lia))
      as (st' & w' & w1 & fallback & rest & Hrun & Hready & _ & _ & _ & Hw1 & _ & _ & _
          & _ & Hresolved).
    exists st', w'. split; [exact Hrun|]. split; [exact Hready|].
    exact (Hresolved eq_refl None eq_refl).
Defined.

Example callback_no_user_run :
  (λ r, (r.1, calls r.2))
    <$> onAuthStateChanged_callback G_anon B_no_user 6 None useFirebaseSetup_initial w_empty
    = Some (MkFirebase None None JUndefined true, [EvRandomUUID; EvSignInAnonymously]).
Proof. reflexivity. Qed.

(** An existing document without fields makes the view empty. *)
Lemma useCmsConfig_empty_document :
  useCmsConfig G_anon B_up 6 [Render (Some h_zorix) true; Next (DocExists ∅)] w_empty
    = Some ∅
  ∧ ¬ (∀ G B fuel inputs w view,
         useCmsConfig G B fuel inputs w = Some view → view ≠ ∅).
Proof.
  assert (H : useCmsConfig G_anon B_up 6
                [Render (Some h_zorix) true; Next (DocExists ∅)] w_empty = Some ∅)
    by reflexivity.
  split; [exact H|]. intros Hall. exact (Hall _ _ _ _ _ _ H eq_refl).
Qed.

Lemma useCmsConfig_view_witness :
  ∃ st w',
    useCmsConfig_run G_anon B_down 6
      [Render (Some h_zorix) true; Next (DocExists {[ "years" := "7+" ]})]
      useCmsConfig_initial w_empty = Some (st, w')
    ∧ config st = {[ "years" := "7+" ]}.
Proof.
  destruct (useCmsConfig_view G_anon B_down 6
              [Render (Some h_zorix) true; Next (DocExists {[ "years" := "7+" ]})]
              w_empty ltac:(lia))
    as (st & w' & Hrun & _ & _ & _ & _ & Hlast).
  exists st, w'. split; [exact Hrun|].
  exact (Hlast [Render (Some h_zorix) true] (Next (DocExists {[ "years" := "7+" ]}))
           _ _ eq_refl eq_refl ltac:(discriminate)).
Defined.

Lemma useCmsConfig_missing_then_snapshot_witness :
  useCmsConfig G_anon B_down 6
    [Render (Some h_zorix) true; Next DocMissing; Next (DocExists {[ "years" := "7+" ]})]
    w_empty = Some {[ "years" := "7+" ]}.
Proof.
  exact (proj1 (useCmsConfig_missing_then_snapshot G_anon B_down 6 h_zorix
                  {[ "years" := "7+" ]} w_empty ltac:(lia))).
Defined.

Lemma useCmsConfig_guarded_witness :
  ∃ st,
    useCmsConfig_run G_anon B_up 6
      [Render None false; Next (DocExists {[ "years" := "7+" ]});
       Render (Some h_zorix) false; Render None true]
      useCmsConfig_initial w_empty = Some (st, w_empty)
    ∧ config st = defaultData.
Proof.
  destruct (useCmsConfig_guarded G_anon B_up 6
              [Render None false; Next (DocExists {[ "years" := "7+" ]});
               Render (Some h_zorix) false; Render None true]
              [Render (Some h_zorix) true] w_empty)
    as (st & Hrun & _ & Hcfg & _).
  - intros d ready Hin. rewrite !elem_of_cons in Hin.
    destruct Hin as [H|[H|[H|[H|H]]]];
      [inversion H; auto|inversion H|inversion H; auto|inversion H; auto|].
    by apply elem_of_nil in H.
  - exists st. split; [exact Hrun|exact Hcfg].
Defined.

Example useCmsConfig_seed_then_listen :
  (λ r, calls r.2)
    <$> useCmsConfig_run G_anon B_up 6 [Render None false; Render (Some h_zorix) true]
          useCmsConfig_initial w_empty
    = Some [EvSetDocMerge (getCmsDocRef G_anon h_zorix) defaultData;
            EvSnapshotListen (getCmsDocRef G_anon h_zorix)].
Proof. reflexivity. Qed.

Lemma submitLead_not_ready_witness :
  submitLead G_anon B_up 6 None (JStr "user-1") acme_form w_empty
    = Some (MkResult false "System not ready. Please try again later.", w_empty)
  ∧ submitLead G_anon B_up 6 (Some h_zorix) JNull acme_form w_empty
    = Some (MkResult false "System not ready. Please try again later.", w_empty).
Proof.
  split.
  - exact (proj1 (submitLead_not_ready G_anon B_up 6 None (JStr "user-1") acme_form
                    w_empty (or_introl eq_refl))).
  - exact (proj1 (submitLead_not_ready G_anon B_up 6 (Some h_zorix) JNull acme_form
                    w_empty (or_intror eq_refl))).
Defined.

(** Against C8 as stated. A visitor signed in under the uid
    [team/alice] has a handle and a user id and the backend accepts every
    write; yet [collection] refuses the path, which has six segments, and
    [submitLead] returns the failure result without a call to [addDoc].
    And the timestamp is not assigned by the server: it is part of the
    data passed to [addDoc] and is the reading of the browser's clock,
    here a clock that stands at the epoch. *)
Lemma submitLead_accepting_backend_failure :
  (∃ st w1,
     useFirebaseSetup G_token B_team 6 [None] w_empty = Some (st, w1)
     ∧ isAuthReady st = true
     ∧ db st = Some h_zorix
     ∧ userId st = JStr "team/alice"
     ∧ submitLead G_token B_team 6 (db st) (userId st) acme_form w1
         = Some (MkResult false "Submission failed. Please check your network connection.",
                 w1)
     ∧ count_calls is_addDoc w1 = 0%nat
     ∧ collections w1 = ∅)
  ∧ ¬ (∀ G B fuel h uid formData w,
         (1 ≤ fuel)%nat →
         truthy uid = true →
         (∀ w0 ref data, add_doc B w0 ref data = None) →
         ∃ w', submitLead G B fuel (Some h) uid formData w
                 = Some (MkResult true
                           "Thank you! Your inquiry has been successfully submitted.", w'))
  ∧ (∃ w' record,
       submitLead G_anon B_epoch 1 (Some h_zorix) (JStr "user-1") acme_form w_empty
         = Some (MkResult true "Thank you! Your inquiry has been successfully submitted.",
                 w')
       ∧ clock B_epoch w_empty = 0
       ∧ calls w'
           = [EvAddDoc ["artifacts"; "default-app-id"; "users"; "user-1"; "zorix_leads"]
                record]
       ∧ record !! "timestamp" = Some "1970-01-01T00:00:00.000Z").
Proof.
  assert (H : submitLead G_token B_team 6 (Some h_zorix) (JStr "team/alice") acme_form
                w_empty
              = Some (MkResult false
                        "Submission failed. Please check your network connection.",
                      w_empty))
    by reflexivity.
  split_and!.
  - eexists _, _. split_and!; reflexivity.
  - intros Hall.
    destruct (Hall G_token B_team 6%nat h_zorix (JStr "team/alice") acme_form w_empty
                ltac:(lia) eq_refl (λ _ _ _, eq_refl)) as (w' & Hw').
    rewrite H in Hw'. discriminate Hw'.
  - eexists _, _. split_and!; reflexivity.
Qed.

Lemma submitLead_accepted_witness :
  ∃ w' record,
    submitLead G_anon B_up 1 (Some h_zorix) (JStr "user-1") acme_form w_empty
      = Some (MkResult true "Thank you! Your inquiry has been successfully submitted.", w')
    ∧ collection_at ["artifacts"; "default-app-id"; "users"; "user-1"; "zorix_leads"] w'
        = [record]
    ∧ record !! "status" = Some "New"
    ∧ record !! "timestamp" = Some "2023-11-14T22:13:20.000Z"
    ∧ record !! "company" = Some "Acme Co".
Proof.
  destruct (submitLead_accepted G_anon B_up 1 h_zorix (JStr "user-1")
              ["artifacts"; "default-app-id"; "users"; "user-1"; "zorix_leads"]
              acme_form w_empty ltac:(lia) eq_refl eq_refl eq_refl)
    as (w' & record & Hrun & _ & Hrec & Hcoll & _ & _ & Hst & Hts & _ & Hkeep & _).
  exists w', record. split; [exact Hrun|].
  split; [exact Hcoll|].
  split; [exact Hst|]. split; [exact Hts|].
  rewrite (Hkeep "company") by discriminate. reflexivity.
Defined.

(** Against C9 as stated. For the visitor signed in under [team/alice],
    with a backend that rejects every append, [submitLead] returns the
    failure result after no attempt at all. *)
Lemma submitLead_failure_without_attempt :
  (∃ st w1,
     useFirebaseSetup G_token B_team_down 6 [None] w_empty = Some (st, w1)
     ∧ isAuthReady st = true
     ∧ db st = Some h_zorix
     ∧ userId st = JStr "team/alice"
     ∧ submitLead G_token B_team_down 6 (db st) (userId st) acme_form w1
         = Some (MkResult false "Submission failed. Please check your network connection.",
                 w1)
     ∧ count_calls is_addDoc w1 = 0%nat)
  ∧ ¬ (∀ G B fuel h uid formData w,
         (6 ≤ fuel)%nat →
         truthy uid = true →
         (∀ w0 ref data, is_Some (add_doc B w0 ref data)) →
         ∃ r w',
           submitLead G B fuel (Some h) uid formData w = Some (r, w')
           ∧ count_calls is_addDoc w' = (count_calls is_addDoc w + 6)%nat).
Proof.
  assert (H : submitLead G_token B_team_down 6 (Some h_zorix) (JStr "team/alice") acme_form
                w_empty
              = Some (MkResult false
                        "Submission failed. Please check your network connection.",
                      w_empty))
    by reflexivity.
  split.
  - eexists _, _. split_and!; reflexivity.
  - intros Hall.
    destruct (Hall G_token B_team_down 6%nat h_zorix (JStr "team/alice") acme_form w_empty
                ltac:(lia) eq_refl (λ _ _ _, ex_intro _ _ eq_refl)) as (r & w' & Hw' & Hn).
    rewrite H in Hw'. injection Hw' as <- <-. discriminate Hn.
Qed.

Lemma submitLead_exhausted_witness :
  ∃ w' e,
    submitLead G_anon B_down 6 (Some h_zorix) (JStr "user-1") acme_form w_empty
      = Some (MkResult false "Submission failed. Please check your network connection.", w')
    ∧ count_calls is_addDoc w' = 6%nat
    ∧ "Submission failed. Please check your network connection." ≠ detail e.
Proof.
  destruct (submitLead_exhausted G_anon B_down 6 h_zorix (JStr "user-1")
              ["artifacts"; "default-app-id"; "users"; "user-1"; "zorix_leads"]
              acme_form w_empty
              ltac:(lia) eq_refl eq_refl (λ _ _, ex_intro _ _ eq_refl))
    as (w' & rest & e & Hrun & _ & _ & _ & Hcount & _ & _ & _ & _ & Hdistinct).
  exists w', e. split; [exact Hrun|]. split; [exact Hcount|].
  apply Hdistinct. intros w0 data e0 [= <-]. discriminate.
Defined.

Example submitLead_down_calls :
  (λ r, (r.1, List.map is_addDoc (calls r.2), timeouts (calls r.2), collections r.2))
    <$> submitLead G_anon B_down 6 (Some h_zorix) (JStr "user-1") acme_form w_empty
    = Some (MkResult false "Submission failed. Please check your network connection.",
            [true; false; true; false; true; false; true; false; true; false; true],
            [1000; 2000; 4000; 8000; 16000], ∅).
Proof. reflexivity. Qed.

(** Sign-in succeeds on the third attempt; the lead is then submitted with
    the handle and user id the hook exposes, and is accepted on the third
    attempt as well. *)
Example end_to_end_flaky :
  (st ← fst <$> useFirebaseSetup G_anon B_flaky 6 [None] w_empty;
   r ← submitLead G_anon B_flaky 6 (db st) (userId st) acme_form w_empty;
   Some (isAuthReady st, userId st, r.1,
         collection_at ["artifacts"; "default-app-id"; "users"; "user-1"; "zorix_leads"] r.2,
         count_calls is_addDoc r.2))
  = Some (true, JStr "user-1",
          MkResult true "Thank you! Your inquiry has been successfully submitted.",
          [ <["status" := "New"]> (<["timestamp" := "2023-11-14T22:13:23.000Z"]> acme_form) ],
          3%nat).
Proof. vm_compute. reflexivity. Qed.

(** [App] on a working backend: nothing is stored or subscribed before the
    auth notification has been handled; then the seed write and the
    subscription follow, and the delivered snapshot becomes the view. *)
Example App_before_notification :
  (λ r, (isAuthReady (identity r.1), config (cms r.1), calls r.2))
    <$> App G_anon B_up 6 [SnapshotNext (DocExists {[ "years" := "7+" ]})] w_empty
    = Some (false, defaultData, [EvAuthListen]).
Proof. reflexivity. Qed.

Example App_after_notification :
  (λ r, (isAuthReady (identity r.1), config (cms r.1), calls r.2))
    <$> App G_anon B_up 6
          [AuthStateChanged None; SnapshotNext (DocExists {[ "years" := "7+" ]})] w_empty
    = Some (true, {[ "years" := "7+" ]},
            [EvAuthListen; EvRandomUUID; EvSignInAnonymously;
             EvSetDocMerge (getCmsDocRef G_anon h_zorix) defaultData;
             EvSnapshotListen (getCmsDocRef G_anon h_zorix)]).
Proof. reflexivity. Qed.

(** * Further properties of the code *)

(** ** withRetry on an arbitrary operation *)

Section RetryShape.
Context {W A E : Type}.
Variable setTimeout : Z → W → W.
Variable fn : W → outcome A E * W.

Import Retry.

Local Abbreviation withRetry := (Retry.withRetry setTimeout fn).
Local Abbreviation world_at := (Retry.world_at setTimeout fn).
Local Abbreviation outcome_at := (Retry.outcome_at setTimeout fn).
Local Abbreviation failed_prefix := (Retry.failed_prefix setTimeout fn).

Lemma backoff_sum (k : nat) (d : Z) :
  foldr Z.add 0 (backoff k d) = d * (2 ^ Z.of_nat k - 1).
Proof.
  revert d. induction k as [|k IH]; intros d; [simpl; lia|].
  simpl foldr. rewrite IH.
  replace (Z.of_nat (S k)) with (Z.succ (Z.of_nat k)) by lia.
  rewrite Z.pow_succ_r by lia. lia.
Qed.

(** Every run with a retry count that is not negative has this shape:
    [k] failed attempts, each followed by its wait, and one last attempt
    whose outcome is the result. *)
Lemma withRetry_shape (fuel : nat) :
  ∀ retries d w,
    0 ≤ retries → (Z.to_nat retries < fuel)%nat →
    ∃ k,
      (k ≤ Z.to_nat retries)%nat
      ∧ withRetry fuel retries d w
          = Some (outcome_at k d w, snd (fn (world_at k d w)),
                  failed_prefix k d w ++ [Attempt (outcome_at k d w)])
      ∧ (∀ i, (i < k)%nat → is_reject (outcome_at i d w) = true)
      ∧ (is_reject (outcome_at k d w) = true → k = Z.to_nat retries).
Proof.
  induction fuel as [|fuel IH]; intros retries d w H0 Hf; [lia|].
  destruct (fn w) as [o w1] eqn:Hfn.
  assert (Hzero : outcome_at 0 d w = o) by (unfold Retry.outcome_at; simpl; by rewrite Hfn).
  destruct o as [a|e].
  - exists O. split_and!; [lia| |intros; lia|by rewrite Hzero].
    rewrite Hzero. simpl. by rewrite Hfn.
  - destruct (Z.eqb_spec retries 0) as [->|Hne].
    + exists O. split_and!; [lia| |intros; lia|done].
      rewrite Hzero. simpl. by rewrite Hfn.
    + destruct (IH (retries - 1) (d * 2) (setTimeout d w1)) as (k & Hk & Hrun & Hfail & Hlast);
        [lia|lia|].
      assert (Hshift : ∀ i, outcome_at (S i) d w = outcome_at i (d * 2) (setTimeout d w1)).
      { intros i. unfold Retry.outcome_at. simpl. by rewrite Hfn. }
      exists (S k). split_and!; [lia| | |].
      * rewrite Hshift. simpl. rewrite Hfn. simpl.
        destruct (Z.eqb_spec retries 0); [lia|]. by rewrite Hrun.
      * intros [|i] Hi; [by rewrite Hzero|]. rewrite Hshift. apply Hfail. lia.
      * rewrite Hshift. intros Hr. rewrite (Hlast Hr). lia.
Qed.

(** A run that returns made at least one and at most [retries + 1]
    invocations, whatever fuel it had. *)
Lemma withRetry_attempts_le (fuel : nat) :
  ∀ retries d w o w' tr,
    0 ≤ retries →
    withRetry fuel retries d w = Some (o, w', tr) →
    (1 ≤ attempts tr ≤ Z.to_nat retries + 1)%nat.
Proof.
  induction fuel as [|fuel IH]; intros retries d w o w' tr H0; [done|].
  simpl. destruct (fn w) as [[a|e] w1].
  - intros [= <- <- <-]. simpl. lia.
  - destruct (Z.eqb_spec retries 0) as [->|Hne].
    + intros [= <- <- <-]. simpl. lia.
    + destruct (Retry.withRetry _ _ fuel _ _ _) as [[[r2 w2] tr2]|] eqn:Hrec; [|done].
      intros [= <- <- <-]. cbn [attempts].
      specialize (IH (retries - 1) _ _ _ _ _ ltac:(lia) Hrec). lia.
Qed.

(** X1. With a retry count that is not negative, [withRetry] returns for
    every operation, after at most [retries + 1] invocations. The result
    is the outcome of the last invocation, every earlier invocation
    failed, and a rejection is returned only when all [retries + 1]
    invocations failed. *)
Theorem withRetry_bounded (fuel : nat) (retries d : Z) (w : W) :
  0 ≤ retries →
  (Z.to_nat retries < fuel)%nat →
  ∃ o w' tr,
    withRetry fuel retries d w = Some (o, w', tr)
    ∧ (1 ≤ attempts tr ≤ Z.to_nat retries + 1)%nat
    ∧ last tr = Some (Attempt o)
    ∧ o = outcome_at (attempts tr - 1) d w
    ∧ (∀ i, (i < attempts tr - 1)%nat → is_reject (outcome_at i d w) = true)
    ∧ (is_reject o = true → attempts tr = (Z.to_nat retries + 1)%nat).
Proof.
  intros H0 Hf.
  destruct (withRetry_shape fuel retries d w H0 Hf) as (k & Hk & Hrun & Hfail & Hlast).
  eexists _, _, _. split; [exact Hrun|].
  rewrite attempts_app, attempts_failed_prefix. simpl.
  replace (k + 1 - 1)%nat with k by lia.
  split_and!; [lia|lia|by rewrite last_snoc|done|done|].
  intros Hr. rewrite (Hlast Hr). lia.
Qed.

(** A returning run: its number of invocations and the sum of its waits. *)
Lemma withRetry_total_wait_shape (fuel : nat) (retries d : Z) (w : W) :
  0 ≤ retries →
  (Z.to_nat retries < fuel)%nat →
  ∃ o w' tr,
    withRetry fuel retries d w = Some (o, w', tr)
    ∧ (1 ≤ attempts tr ≤ Z.to_nat retries + 1)%nat
    ∧ (0 ≤ d → 0 ≤ foldr Z.add 0 (waits tr) ≤ d * (2 ^ retries - 1)).
Proof.
  intros H0 Hf.
  destruct (withRetry_shape fuel retries d w H0 Hf) as (k & Hk & Hrun & _).
  eexists _, _, _. split; [exact Hrun|].
  rewrite attempts_app, attempts_failed_prefix, waits_app, waits_failed_prefix. simpl.
  rewrite app_nil_r, backoff_sum. split; [lia|]. intros Hd.
  assert (1 ≤ 2 ^ Z.of_nat k) by (apply Z.pow_le_mono_r with (b := 0); lia).
  split; [nia|].
  apply Z.mul_le_mono_nonneg_l; [done|].
  apply Z.sub_le_mono_r. apply Z.pow_le_mono_r; lia.
Qed.

(** X2. The waits of a run double from [delay] on, so a run that made [n]
    invocations has waited [delay * (2^(n-1) - 1)] milliseconds in all;
    with a delay that is not negative this is at most
    [delay * (2^retries - 1)]. *)
Theorem withRetry_total_wait (fuel : nat) (retries d : Z) (w : W) :
  0 ≤ retries →
  (Z.to_nat retries < fuel)%nat →
  ∃ o w' tr,
    withRetry fuel retries d w = Some (o, w', tr)
    ∧ waits tr = backoff (attempts tr - 1) d
    ∧ foldr Z.add 0 (waits tr) = d * (2 ^ Z.of_nat (attempts tr - 1) - 1)
    ∧ (0 ≤ d → foldr Z.add 0 (waits tr) ≤ d * (2 ^ retries - 1)).
Proof.
  intros H0 Hf.
  destruct (withRetry_shape fuel retries d w H0 Hf) as (k & Hk & Hrun & _).
  eexists _, _, _. split; [exact Hrun|].
  rewrite attempts_app, attempts_failed_prefix, waits_app, waits_failed_prefix. simpl.
  rewrite app_nil_r. replace (k + 1 - 1)%nat with k by lia.
  split_and!; [done|apply backoff_sum|].
  intros Hd. rewrite backoff_sum.
  apply Z.mul_le_mono_nonneg_l; [done|].
  apply Z.sub_le_mono_r. apply Z.pow_le_mono_r; lia.
Qed.

(** X3. With a negative retry count the counter never reaches zero:
    against an operation that always fails the call never returns,
    however much fuel it is given. *)
Theorem withRetry_negative_never_returns (fuel : nat) (retries d : Z) (w : W) :
  retries < 0 →
  (∀ w', is_reject (fst (fn w')) = true) →
  withRetry fuel retries d w = None.
Proof. apply withRetry_negative_diverges. Qed.

End RetryShape.

Lemma withRetry_bounded_witness :
  ∃ o w' tr,
    Retry.withRetry (λ _ n, n) third_time_lucky 6 5 1000 O = Some (o, w', tr)
    ∧ (1 ≤ Retry.attempts tr ≤ Z.to_nat 5 + 1)%nat
    ∧ last tr = Some (Retry.Attempt o)
    ∧ o = Retry.outcome_at (λ _ n, n) third_time_lucky (Retry.attempts tr - 1) 1000 O
    ∧ (∀ i, (i < Retry.attempts tr - 1)%nat →
            is_reject (Retry.outcome_at (λ _ n, n) third_time_lucky i 1000 O) = true)
    ∧ (is_reject o = true → Retry.attempts tr = (Z.to_nat 5 + 1)%nat).
Proof.
  apply (withRetry_bounded (λ _ n, n) third_time_lucky 6 5 1000 O); [lia|simpl; lia].
Defined.

Lemma withRetry_total_wait_witness :
  ∃ o w' tr,
    Retry.withRetry (λ _ n, n) always_failing 6 5 1000 O = Some (o, w', tr)
    ∧ Retry.waits tr = Retry.backoff (Retry.attempts tr - 1) 1000
    ∧ foldr Z.add 0 (Retry.waits tr) = 1000 * (2 ^ Z.of_nat (Retry.attempts tr - 1) - 1)
    ∧ (0 ≤ 1000 → foldr Z.add 0 (Retry.waits tr) ≤ 1000 * (2 ^ 5 - 1)).
Proof.
  apply (withRetry_total_wait (λ _ n, n) always_failing 6 5 1000 O); [lia|simpl; lia].
Defined.

Example withRetry_default_total_wait :
  (λ r, foldr Z.add 0 (Retry.waits r.2))
    <$> Retry.withRetry (λ _ n, n) always_failing 6 5 1000 O = Some 31000.
Proof. reflexivity. Qed.

Lemma withRetry_negative_never_returns_witness :
  Retry.withRetry (λ _ n, n) always_failing 50 (-1) 1000 O = None.
Proof.
  apply (withRetry_negative_never_returns (λ _ n, n) always_failing 50 (-1) 1000 O); [lia|].
  intros w'. reflexivity.
Defined.

(** ** useFirebaseSetup: which calls it makes and what it keeps *)

Section IdentityFacts.
Variable G : globals.
Variable B : backend.

Lemma sign_in_attempt_event (w : world) :
  sign_in_attempt G B w
    = settle_sign_in B w (record_call (sign_in_event G) w) (sign_in_token G).
Proof.
  unfold sign_in_attempt, sign_in_event, sign_in_token.
  destruct (initialAuthToken G) as [token|]; [|done].
  by destruct (truthy (JStr token)).
Qed.



(** A notification that arrives while the auth instance already exposes
    a user with a non-empty uid makes no call at all; the [user] argument
    itself is only tested for presence. *)
Lemma callback_signed_in (fuel : nat) (user u : principal)
    (st : firebase_state) (w : world) :
  currentUser w = Some u →
  truthy (uid u) = true →
  onAuthStateChanged_callback G B fuel (Some user) st w
    = Some (MkFirebase (db st) (auth st) (uid u) true, w).
Proof.
  intros Hcur Htruthy. unfold onAuthStateChanged_callback, uid_or_randomUUID.
  unfold currentUser_uid. rewrite Hcur, Htruthy. reflexivity.
Qed.

(** X5. When the sign-in is rejected [k - 1] times and then resolves, with
    [k] at most six, the callback makes exactly [k] sign-in calls, the
    identifier computed beforehand is dropped, and [userId] is the uid of
    the user the auth instance exposes after the successful sign-in, or
    [undefined] when it exposes none. *)
Theorem callback_sign_in_after_failures (fuel k : nat) (st : firebase_state)
    (w : world) (u : option principal) :
  (1 ≤ k ≤ 6)%nat →
  (k ≤ fuel)%nat →
  (∀ i, (i < k - 1)%nat →
     is_reject (Retry.outcome_at setTimeout (sign_in_attempt G B) i 1000
                  (uid_or_randomUUID B w).2) = true) →
  sign_in B (Retry.world_at setTimeout (sign_in_attempt G B) (k - 1) 1000
               (uid_or_randomUUID B w).2) (sign_in_token G) = Resolve u →
  ∃ st' w',
    onAuthStateChanged_callback G B fuel None st w = Some (st', w')
    ∧ isAuthReady st' = true
    ∧ currentUser w' = u
    ∧ userId st' = match u with Some p => uid p | None => JUndefined end
    ∧ count_calls is_sign_in w'
        = (count_calls is_sign_in (uid_or_randomUUID B w).2 + k)%nat.
Proof.
  intros Hk Hf Hfail Hok. unfold onAuthStateChanged_callback.
  destruct (uid_or_randomUUID B w) as [cur w1]. simpl in *.
  set (wk := Retry.world_at setTimeout (sign_in_attempt G B) (k - 1) 1000 w1) in *.
  assert (Hres : Retry.outcome_at setTimeout (sign_in_attempt G B) (k - 1) 1000 w1
                 = Resolve ()).
  { unfold Retry.outcome_at. fold wk. rewrite sign_in_attempt_event.
    unfold settle_sign_in. by rewrite Hok. }
  destruct (withRetry_first_success setTimeout (sign_in_attempt G B) 6 k 1000 w1 fuel ())
    as (tr & Hrun & _ & Hatt & _); try done.
  change (Z.of_nat 6 - 1) with 5 in Hrun. fold wk in Hrun.
  destruct (withRetry_calls is_sign_in (sign_in_attempt G B) ltac:(done)
              (sign_in_attempt_call G B) _ _ _ _ _ _ _ Hrun) as (rest & Hc & _ & HL & _).
  unfold withRetry_default. rewrite Hrun.
  assert (Hw' : currentUser (sign_in_attempt G B wk).2 = u).
  { rewrite sign_in_attempt_event. unfold settle_sign_in. by rewrite Hok. }
  eexists _, _. split_and!; [done|done|exact Hw'| |].
  - simpl. unfold currentUser_uid. rewrite Hw'. done.
  - rewrite (count_calls_app _ _ _ _ Hc). by rewrite HL, Hatt.
Qed.

Lemma notify_signed_in fuel (u : principal) notifications :
  ∀ st w,
    currentUser w = Some u →
    truthy (uid u) = true →
    Forall is_Some notifications →
    notify G B fuel notifications st w
      = Some (match notifications with
              | [] => st
              | _ :: _ => MkFirebase (db st) (auth st) (uid u) true
              end, w).
Proof.
  induction notifications as [|user rest IH]; intros st w Hcur Ht Hall; [done|].
  apply Forall_cons in Hall as [[user' ->] Hrest]. simpl.
  rewrite (callback_signed_in fuel user' u st w Hcur Ht).
  rewrite (IH _ _ Hcur Ht Hrest). by destruct rest.
Qed.

(** X6. For a visitor who is already signed in, the hook makes no call
    besides registering its listener, with any fuel: when the auth
    instance exposes a user with a non-empty uid and every notification
    carries a user, no UUID is drawn and no sign-in is attempted, and
    after the first notification [userId] is that uid and the hook is
    ready. *)
Theorem useFirebaseSetup_signed_in (fuel : nat) (cfg : jsobj) (u : principal)
    (notifications : list (option principal)) (w : world) :
  firebaseConfig G = Some cfg →
  initialize B cfg = None →
  currentUser w = Some u →
  truthy (uid u) = true →
  Forall is_Some notifications →
  notifications ≠ [] →
  useFirebaseSetup G B fuel notifications w
    = Some (MkFirebase (Some (Firestore cfg)) (Some (Auth cfg)) (uid u) true,
            record_call EvAuthListen w).
Proof.
  intros Hcfg Hinit Hcur Ht Hall Hne.
  unfold useFirebaseSetup, useFirebaseSetup_effect. rewrite Hcfg, Hinit.
  rewrite (notify_signed_in fuel u notifications _ (record_call EvAuthListen w) Hcur Ht Hall).
  by destruct notifications.
Qed.

Lemma notify_app fuel n1 n2 st w :
  notify G B fuel (n1 ++ n2) st w =
    match notify G B fuel n1 st w with
    | Some (st1, w1) => notify G B fuel n2 st1 w1
    | None => None
    end.
Proof.
  revert st w. induction n1 as [|user n1 IH]; intros st w; simpl; [done|].
  destruct (onAuthStateChanged_callback G B fuel user st w) as [[st1 w1]|]; [apply IH|done].
Qed.

Lemma notify_keeps fuel notifications st w st' w' :
  notify G B fuel notifications st w = Some (st', w') →
  db st' = db st ∧ auth st' = auth st
  ∧ (isAuthReady st = true → isAuthReady st' = true).
Proof.
  revert st w. induction notifications as [|user rest IH]; intros st w; simpl.
  - by intros [= <- <-].
  - destruct (onAuthStateChanged_callback G B fuel user st w) as [[st1 w1]|] eqn:Hcb; [|done].
    intros Hn. destruct (callback_ready _ _ _ _ _ _ _ _ Hcb) as (Hr & Hdb & Hauth).
    destruct (IH _ _ Hn) as (Hdb' & Hauth' & Hready').
    split_and!; [congruence|congruence|auto].
Qed.

(** X7. Later notifications never take anything back: compared with the
    state after a prefix of the notifications, the state after more of
    them has the same [db] and [auth] handles, and is ready if the earlier
    one was. *)
Theorem useFirebaseSetup_stable (fuel : nat) (n1 n2 : list (option principal))
    (w : world) (st1 st2 : firebase_state) (w1 w2 : world) :
  useFirebaseSetup G B fuel n1 w = Some (st1, w1) →
  useFirebaseSetup G B fuel (n1 ++ n2) w = Some (st2, w2) →
  db st2 = db st1
  ∧ auth st2 = auth st1
  ∧ (isAuthReady st1 = true → isAuthReady st2 = true).
Proof.
  unfold useFirebaseSetup.
  destruct (useFirebaseSetup_effect G B useFirebaseSetup_initial w) as [[st0 w0] listening].
  destruct listening.
  - rewrite notify_app. intros ->. apply notify_keeps.
  - by intros [= <- <-] [= <- <-].
Qed.

(** What a run of the hook that has returned has done about the
    handles. *)
Lemma useFirebaseSetup_handles_of_run (fuel : nat)
    (notifications : list (option principal))
    (w : world) (st : firebase_state) (w' : world) :
  useFirebaseSetup G B fuel notifications w = Some (st, w') →
  (∃ cfg rest,
     firebaseConfig G = Some cfg ∧ initialize B cfg = None
     ∧ db st = Some (Firestore cfg) ∧ auth st = Some (Auth cfg)
     ∧ calls w' = calls w ++ EvAuthListen :: rest)
  ∨ ((firebaseConfig G = None
      ∨ ∃ cfg e, firebaseConfig G = Some cfg ∧ initialize B cfg = Some e)
     ∧ st = MkFirebase None None JNull true
     ∧ w' = w).
Proof.
  unfold useFirebaseSetup, useFirebaseSetup_effect.
  destruct (firebaseConfig G) as [cfg|]; [destruct (initialize B cfg) as [e|] eqn:Hi|].
  - intros [= <- <-]. right. split_and!; [right; by exists cfg, e|done|done].
  - intros Hn. left.
    destruct (notify_keeps _ _ _ _ _ _ Hn) as (Hdb & Hauth & _).
    assert (Hcalls : ∃ rest, calls w' = calls (record_call EvAuthListen w) ++ rest).
    { clear Hdb Hauth. revert Hn.
      generalize (setAuth (Some (Auth cfg)) (setDb (Some (Firestore cfg))
                    useFirebaseSetup_initial)).
      generalize (record_call EvAuthListen w).
      induction notifications as [|user rest IH]; intros w0 st0; simpl.
      - intros [= <- <-]. exists []. by rewrite app_nil_r.
      - destruct (onAuthStateChanged_callback G B fuel user st0 w0) as [[st1 w1]|] eqn:Hcb;
          [|done].
        intros Hn. destruct (IH _ _ Hn) as (rest2 & Hc2).
        assert (Hc1 : ∃ rest1, calls w1 = calls w0 ++ rest1).
        { revert Hcb. unfold onAuthStateChanged_callback. rewrite uid_or_randomUUID_spec.
          assert (Hstep : ∀ wa, (∃ r0, calls wa = calls w0 ++ r0) →
                    match user with
                    | Some _ => True
                    | None => ∀ r w2 tr,
                        withRetry_default fuel (sign_in_attempt G B) wa = Some (r, w2, tr) →
                        ∃ rest1, calls w2 = calls w0 ++ rest1
                    end).
          { intros wa (r0 & Hr0). destruct user; [done|]. intros r w2 tr Hr.
            destruct (withRetry_calls is_sign_in (sign_in_attempt G B) ltac:(done)
                        (sign_in_attempt_call G B) _ _ _ _ _ _ _ Hr)
              as (rest1 & Hc1 & _).
            exists (r0 ++ rest1). by rewrite Hc1, Hr0, app_assoc. }
          destruct (truthy (currentUser_uid w0)).
          - destruct user as [u|].
            + intros [= <- <-]. exists []. by rewrite app_nil_r.
            + specialize (Hstep w0 (ex_intro _ [] (eq_sym (app_nil_r _)))).
              simpl in Hstep.
              destruct (withRetry_default _ _ _) as [[[r w2] tr]|] eqn:Hr; [|done].
              destruct (Hstep _ _ _ eq_refl) as (rest1 & Hrest1).
              by destruct r; intros [= <- <-]; exists rest1.
          - destruct user as [u|].
            + intros [= <- <-]. by exists [EvRandomUUID].
            + specialize (Hstep (record_call EvRandomUUID w0)
                            (ex_intro _ [EvRandomUUID] eq_refl)).
              simpl in Hstep.
              destruct (withRetry_default _ _ _) as [[[r w2] tr]|] eqn:Hr; [|done].
              destruct (Hstep _ _ _ eq_refl) as (rest1 & Hrest1).
              by destruct r; intros [= <- <-]; exists rest1. }
        destruct Hc1 as (rest1 & Hc1). exists (rest1 ++ rest2).
        by rewrite Hc2, Hc1, app_assoc. }
    destruct Hcalls as (rest & Hcalls).
    exists cfg, rest. split_and!; [done|done|by rewrite Hdb|by rewrite Hauth|].
    rewrite Hcalls. simpl. by rewrite <- app_assoc.
  - intros [= <- <-]. right. split_and!; [by left|done|done].
Qed.

(** X8. The hook returns for every list of notifications, and the two
    handles are set together, and only when a configuration is present
    and the initialisation does not throw; then the listener is the first
    call made. In every other case the hook is ready at once with no
    handle and a null user id, and it makes no call, whatever
    notifications follow. *)
Theorem useFirebaseSetup_handles (fuel : nat) (notifications : list (option principal))
    (w : world) :
  (6 ≤ fuel)%nat →
  ∃ st w',
    useFirebaseSetup G B fuel notifications w = Some (st, w')
    ∧ ((∃ cfg rest,
          firebaseConfig G = Some cfg ∧ initialize B cfg = None
          ∧ db st = Some (Firestore cfg) ∧ auth st = Some (Auth cfg)
          ∧ calls w' = calls w ++ EvAuthListen :: rest)
       ∨ ((firebaseConfig G = None
           ∨ ∃ cfg e, firebaseConfig G = Some cfg ∧ initialize B cfg = Some e)
          ∧ st = MkFirebase None None JNull true
          ∧ w' = w)).
Proof.
  intros Hf.
  assert (Htotal : is_Some (useFirebaseSetup G B fuel notifications w)).
  { unfold useFirebaseSetup.
    destruct (useFirebaseSetup_effect G B useFirebaseSetup_initial w)
      as [[st0 w0] listening].
    destruct listening; [by apply notify_total|done]. }
  destruct Htotal as [[st w'] Hrun]. exists st, w'. split; [exact Hrun|].
  exact (useFirebaseSetup_handles_of_run fuel notifications w st w' Hrun).
Qed.

End IdentityFacts.


Lemma callback_sign_in_after_failures_witness :
  ∃ st' w',
    onAuthStateChanged_callback G_anon B_flaky 6 None useFirebaseSetup_initial w_empty
      = Some (st', w')
    ∧ isAuthReady st' = true
    ∧ userId st' = JStr "user-1"
    ∧ count_calls is_sign_in w' = 3%nat.
Proof.
  destruct (callback_sign_in_after_failures G_anon B_flaky 6 3 useFirebaseSetup_initial
              w_empty (Some (MkPrincipal (JStr "user-1"))))
    as (st' & w' & Hrun & Hready & _ & Hid & Hcount); [lia|lia| |reflexivity|].
  - intros i Hi. destruct i as [|[|i]]; [reflexivity|reflexivity|lia].
  - exists st', w'. split; [exact Hrun|]. split; [exact Hready|].
    split; [exact Hid|exact Hcount].
Defined.

Lemma useFirebaseSetup_stable_witness :
  ∃ st1 st2,
    fst <$> useFirebaseSetup G_anon B_up 6 [None] w_empty = Some st1
    ∧ fst <$> useFirebaseSetup G_anon B_up 6
                ([None] ++ [Some (MkPrincipal (JStr "user-1")); None]) w_empty = Some st2
    ∧ db st2 = db st1 ∧ auth st2 = auth st1
    ∧ (isAuthReady st1 = true → isAuthReady st2 = true).
Proof.
  destruct (useFirebaseSetup G_anon B_up 6 [None] w_empty) as [[st1 w1]|] eqn:H1;
    [|discriminate H1].
  destruct (useFirebaseSetup G_anon B_up 6
              ([None] ++ [Some (MkPrincipal (JStr "user-1")); None]) w_empty)
    as [[st2 w2]|] eqn:H2; [|discriminate H2].
  exists st1, st2. split; [reflexivity|]. split; [reflexivity|].
  exact (useFirebaseSetup_stable G_anon B_up 6 [None]
           [Some (MkPrincipal (JStr "user-1")); None] w_empty st1 st2 w1 w2 H1 H2).
Defined.

Lemma useFirebaseSetup_handles_witness :
  ∃ st w',
    useFirebaseSetup G_anon B_down 6 [None] w_empty = Some (st, w')
    ∧ db st = Some h_zorix
    ∧ ∃ rest, calls w' = EvAuthListen :: rest.
Proof.
  destruct (useFirebaseSetup_handles G_anon B_down 6 [None] w_empty ltac:(lia))
    as (st & w' & Hrun
        & [(cfg & rest & Hcfg & _ & Hdb & _ & Hc)|([Hno|(cfg & e & _ & He)] & _)]).
  - exists st, w'. split; [exact Hrun|].
    injection Hcfg as <-. split; [exact Hdb|]. exists rest. exact Hc.
  - discriminate Hno.
  - discriminate He.
Defined.

(** ** useCmsConfig: listeners, seed writes and what the view depends on *)

Section CmsFacts.
Variable G : globals.
Variable B : backend.

Lemma count_calls_record (P : event → bool) (ev : event) (w : world) :
  count_calls P (record_call ev w)
    = (count_calls P w + if P ev then 1 else 0)%nat.
Proof.
  unfold count_calls. simpl. rewrite List.filter_app, length_app. simpl.
  by destruct (P ev).
Qed.

(** Calls of one kind counted among calls that are all of another kind. *)
Lemma filter_other_kind (P Q : event → bool) (rest : list event) :
  (∀ ev, P ev = true → Q ev = false) →
  (∀ ms, Q (EvTimeout ms) = false) →
  Forall (λ ev, P ev = true ∨ ∃ ms, ev = EvTimeout ms) rest →
  List.filter Q rest = [].
Proof.
  intros HPQ HT HF. induction HF as [|ev rest' Hev _ IH]; [done|].
  simpl. rewrite IH. destruct Hev as [HP|[ms ->]]; [by rewrite (HPQ _ HP)|by rewrite HT].
Qed.

(** The retries of the seed write make only [setDoc] calls to the
    metrics document, with the defaults, at most five of them, and none
    when the first write was accepted. *)
Lemma seed_calls fuel (h : firestore) (o : outcome unit error) (w : world) r w' tr :
  Retry.resume setTimeout (setDoc_merge B (getCmsDocRef G h) defaultData) fuel 5 1000 o w
    = Some (r, w', tr) →
  ∃ rest,
    calls w' = calls w ++ rest
    ∧ Forall (λ ev, is_setDoc ev = true ∨ ∃ ms, ev = EvTimeout ms) rest
    ∧ Forall (λ ev, ev = EvSetDocMerge (getCmsDocRef G h) defaultData
                    ∨ ∃ ms, ev = EvTimeout ms) rest
    ∧ (length (List.filter is_setDoc rest) ≤ 5)%nat
    ∧ (is_reject o = false → rest = [])
    ∧ (is_reject o = true → (1 ≤ length (List.filter is_setDoc rest))%nat).
Proof.
  intros Hr.
  set (ev0 := EvSetDocMerge (getCmsDocRef G h) defaultData).
  assert (Hcall : ∀ w0, ∃ ev, (is_setDoc ev && bool_decide (ev = ev0)) = true
            ∧ calls (snd (setDoc_merge B (getCmsDocRef G h) defaultData w0)) = calls w0 ++ [ev]).
  { intros w0. exists ev0. split; [by rewrite bool_decide_eq_true_2|].
    unfold setDoc_merge. by destruct (set_doc B w0 _ _). }
  destruct (resume_calls (λ ev, is_setDoc ev && bool_decide (ev = ev0))
              (setDoc_merge B (getCmsDocRef G h) defaultData) ltac:(done) Hcall
              _ _ _ _ _ _ _ _ Hr) as (rest & Hc & HF & HL & _).
  assert (Hatt : (Retry.attempts tr ≤ 5)%nat
                 ∧ (is_reject o = false → Retry.attempts tr = O)
                 ∧ (is_reject o = true → (1 ≤ Retry.attempts tr)%nat)).
  { unfold Retry.resume in Hr. destruct o as [a|e].
    - injection Hr as <- <- <-. simpl. split_and!; lia || done.
    - simpl in Hr.
      destruct (Retry.withRetry _ _ fuel _ _ _) as [[[r2 w2] tr2]|] eqn:Hrec; [|done].
      injection Hr as <- <- <-.
      pose proof (withRetry_attempts_le setTimeout _ fuel 4 _ _ _ _ _ ltac:(lia) Hrec) as Hle.
      cbn [Retry.attempts]. simpl in Hle. split_and!; lia || done. }
  assert (Hsame : List.filter is_setDoc rest
                  = List.filter (λ ev, is_setDoc ev && bool_decide (ev = ev0)) rest).
  { clear Hc HL. induction HF as [|ev rest' Hev _ IH]; [done|].
    simpl. rewrite IH. destruct Hev as [Hd|[ms ->]]; [|done].
    rewrite Hd. by apply andb_true_iff in Hd as [-> _]. }
  destruct Hatt as (Hle & Hzero & Hone).
  exists rest. split_and!; [done| | | | |].
  - eapply Forall_impl; [exact HF|].
    intros ev [Hd|?]; [left; by apply andb_true_iff in Hd as [? _]|by right].
  - eapply Forall_impl; [exact HF|].
    intros ev [Hd|?]; [left|by right].
    apply andb_true_iff in Hd as [_ Hd]. by apply bool_decide_eq_true in Hd.
  - rewrite Hsame, HL. lia.
  - intros Ho. destruct o as [a|e]; [|done].
    unfold Retry.resume in Hr. injection Hr as <- <- <-.
    rewrite <- (app_nil_r (calls w)) in Hc at 1. by apply app_inv_head in Hc.
  - intros Ho. rewrite Hsame, HL. by apply Hone.
Qed.

(** What a passing effect run calls, in order: the first seed write, the
    registration of the listener, then the waits and retries of a seed
    write whose first attempt was rejected. *)
Lemma effect_calls fuel (h : firestore) st w st' w' :
  useCmsConfig_effect G B fuel (Some h) true st w = Some (st', w') →
  ∃ retries,
    calls w' = calls w
               ++ [EvSetDocMerge (getCmsDocRef G h) defaultData;
                   EvSnapshotListen (getCmsDocRef G h)]
               ++ retries
    ∧ Forall (λ ev, is_setDoc ev = true ∨ ∃ ms, ev = EvTimeout ms) retries
    ∧ Forall (λ ev, ev = EvSetDocMerge (getCmsDocRef G h) defaultData
                    ∨ ∃ ms, ev = EvTimeout ms) retries
    ∧ (length (List.filter is_setDoc retries) ≤ 5)%nat
    ∧ (set_doc B w (getCmsDocRef G h) defaultData = None → retries = [])
    ∧ (set_doc B w (getCmsDocRef G h) defaultData ≠ None →
       (1 ≤ length (List.filter is_setDoc retries))%nat)
    ∧ st' = set_subscription (Some (getCmsDocRef G h)) st.
Proof.
  unfold useCmsConfig_effect.
  destruct (setDoc_merge B (getCmsDocRef G h) defaultData w) as [o w1] eqn:Hset.
  destruct (Retry.resume _ _ _ _ _ _ _) as [[[r w3] tr]|] eqn:Hr; [|done].
  intros [= <- <-].
  destruct (seed_calls _ _ _ _ _ _ _ Hr) as (rest & Hc & HF1 & HF2 & Hle & Hzero & Hone).
  assert (Hfirst : calls w1 = calls w ++ [EvSetDocMerge (getCmsDocRef G h) defaultData]
                   ∧ (set_doc B w (getCmsDocRef G h) defaultData = None →
                      is_reject o = false)
                   ∧ (set_doc B w (getCmsDocRef G h) defaultData ≠ None →
                      is_reject o = true)).
  { unfold setDoc_merge in Hset.
    destruct (set_doc B w _ _) as [e|]; injection Hset as <- <-; simpl; by split_and!. }
  destruct Hfirst as (Hfirst & Hacc & Hrej).
  exists rest. split_and!; try done.
  - rewrite Hc. simpl. rewrite Hfirst. by rewrite <- !app_assoc.
  - intros H. by apply Hzero, Hacc.
  - intros H. by apply Hone, Hrej.
Qed.

(** What one render does to the numbers of listeners registered and
    released. *)
Lemma render_balance fuel d ready st w st' w' :
  useCmsConfig_render G B fuel d ready st w = Some (st', w') →
  (count_calls is_listen w' + count_calls is_unsubscribe w + live st
   = count_calls is_listen w + count_calls is_unsubscribe w' + live st')%nat
  ∧ (count_calls is_listen w ≤ count_calls is_listen w')%nat
  ∧ (count_calls is_unsubscribe w ≤ count_calls is_unsubscribe w')%nat.
Proof.
  unfold useCmsConfig_render. destruct (decide _); [intros [= <- <-]; lia|].
  assert (Hclean : ∀ st1 w1, useCmsConfig_cleanup st w = (st1, w1) →
            count_calls is_listen w1 = count_calls is_listen w
            ∧ (count_calls is_unsubscribe w1 = count_calls is_unsubscribe w + live st)%nat
            ∧ live st1 = O ∧ subscription st1 = None).
  { unfold useCmsConfig_cleanup, live. intros st1 w1.
    destruct (subscription st) as [ref|] eqn:Hs; intros [= <- <-].
    - rewrite !count_calls_record. simpl. split_and!; lia || done.
    - rewrite Hs. split_and!; lia || done. }
  destruct (useCmsConfig_cleanup st w) as [st1 w1].
  destruct (Hclean _ _ eq_refl) as (Hl1 & Hu1 & Hlive1 & Hsub1).
  unfold useCmsConfig_effect.
  destruct d as [h|]; [destruct ready|].
  - fold (useCmsConfig_effect G B fuel (Some h) true (set_deps (Some (Some h, true)) st1) w1).
    intros Heff.
    destruct (effect_calls _ _ _ _ _ _ Heff) as (rest & Hc & HF & _ & _ & _ & _ & ->).
    rewrite !(count_calls_app _ _ _ _ Hc). rewrite !List.filter_app, !length_app.
    rewrite (filter_other_kind is_setDoc is_listen rest) by (done || by intros []).
    rewrite (filter_other_kind is_setDoc is_unsubscribe rest) by (done || by intros []).
    unfold live in *. simpl. lia.
  - intros [= <- <-]. unfold live in *. simpl. rewrite Hsub1. lia.
  - intros [= <- <-]. unfold live in *. simpl. rewrite Hsub1. lia.
Qed.

Lemma step_balance fuel i st w st' w' :
  useCmsConfig_step G B fuel i st w = Some (st', w') →
  (count_calls is_listen w' + count_calls is_unsubscribe w + live st
   = count_calls is_listen w + count_calls is_unsubscribe w' + live st')%nat
  ∧ (count_calls is_listen w ≤ count_calls is_listen w')%nat
  ∧ (count_calls is_unsubscribe w ≤ count_calls is_unsubscribe w')%nat.
Proof.
  destruct i as [d ready|docSnap|e]; simpl; [apply render_balance| |].
  - intros [= <- <-]. unfold live.
    destruct (subscription st) eqn:Hs; [destruct docSnap|]; simpl; rewrite ?Hs; lia.
  - intros [= <- <-]. unfold live.
    destruct (subscription st) eqn:Hs; simpl; rewrite ?Hs; lia.
Qed.

Lemma run_balance fuel inputs st w st' w' :
  useCmsConfig_run G B fuel inputs st w = Some (st', w') →
  (count_calls is_listen w' + count_calls is_unsubscribe w + live st
   = count_calls is_listen w + count_calls is_unsubscribe w' + live st')%nat
  ∧ (count_calls is_listen w ≤ count_calls is_listen w')%nat
  ∧ (count_calls is_unsubscribe w ≤ count_calls is_unsubscribe w')%nat.
Proof.
  revert st w. induction inputs as [|i rest IH]; intros st w; simpl.
  - intros [= <- <-]. lia.
  - destruct (useCmsConfig_step G B fuel i st w) as [[st1 w1]|] eqn:Hs; [|done].
    intros Hr. apply step_balance in Hs. apply IH in Hr. lia.
Qed.

(** X9. The hook holds at most one listener, and every listener it
    replaced was released first: at any moment the number of
    [onSnapshot] registrations exceeds the number of [unsubscribe] calls
    by one if the hook is listening and by none otherwise, and after the
    cleanup that runs on unmount the two numbers are equal. *)
Theorem useCmsConfig_listeners_balanced (fuel : nat) (inputs : list cms_input)
    (w : world) (st : cms_state) (w' : world) :
  useCmsConfig_run G B fuel inputs useCmsConfig_initial w = Some (st, w') →
  (count_calls is_listen w' - count_calls is_listen w
   = count_calls is_unsubscribe w' - count_calls is_unsubscribe w + live st)%nat
  ∧ (live st ≤ 1)%nat
  ∧ (let '(st_end, w_end) := useCmsConfig_cleanup st w' in
     subscription st_end = None
     ∧ (count_calls is_listen w_end - count_calls is_listen w
        = count_calls is_unsubscribe w_end - count_calls is_unsubscribe w)%nat).
Proof.
  intros Hrun. apply run_balance in Hrun. simpl in Hrun.
  change (live useCmsConfig_initial) with O in Hrun.
  split_and!; [lia|unfold live; destruct (subscription st); lia|].
  unfold useCmsConfig_cleanup, live in *.
  destruct (subscription st) as [ref|] eqn:Hs.
  - simpl. rewrite !count_calls_record. simpl. split; [done|lia].
  - split; [done|lia].
Qed.

End CmsFacts.

Section CmsEffect.
Variable G : globals.
Variable B : backend.



End CmsEffect.

Section CmsTwoBackends.
Variable G : globals.
Variables B1 B2 : backend.

Lemma render_state_independent fuel1 fuel2 d ready st w1 w2 st1 st2 w1' w2' :
  useCmsConfig_render G B1 fuel1 d ready st w1 = Some (st1, w1') →
  useCmsConfig_render G B2 fuel2 d ready st w2 = Some (st2, w2') →
  st1 = st2.
Proof.
  unfold useCmsConfig_render. destruct (decide _); [by intros [= <- <-] [= <- <-]|].
  unfold useCmsConfig_cleanup, useCmsConfig_effect.
  destruct (subscription st), d as [h|]; try destruct ready;
    repeat match goal with
           | |- context [setDoc_merge ?b ?ref ?data ?w] =>
               destruct (setDoc_merge b ref data w) as [? ?]
           end;
    repeat match goal with
           | |- context [Retry.resume ?t ?fn ?f ?r ?d ?o ?w] =>
               destruct (Retry.resume t fn f r d o w) as [[[? ?] ?]|]; [|done]
           end;
    by intros [= <- <-] [= <- <-].
Qed.

Lemma run_state_independent fuel1 fuel2 inputs :
  ∀ st w1 w2 st1 st2 w1' w2',
    useCmsConfig_run G B1 fuel1 inputs st w1 = Some (st1, w1') →
    useCmsConfig_run G B2 fuel2 inputs st w2 = Some (st2, w2') →
    st1 = st2.
Proof.
  induction inputs as [|i rest IH]; intros st w1 w2 st1 st2 w1' w2'; simpl.
  - by intros [= <- <-] [= <- <-].
  - destruct (useCmsConfig_step G B1 fuel1 i st w1) as [[sa wa]|] eqn:Ha; [|done].
    destruct (useCmsConfig_step G B2 fuel2 i st w2) as [[sb wb]|] eqn:Hb; [|done].
    assert (sa = sb) as <-.
    { destruct i as [d ready|docSnap|e]; simpl in Ha, Hb.
      - by apply (render_state_independent _ _ _ _ _ _ _ _ _ _ _ Ha Hb).
      - by injection Ha as <- <-; injection Hb as <- <-.
      - by injection Ha as <- <-; injection Hb as <- <-. }
    apply IH.
Qed.

(** X12. What the hook shows depends only on the renders and deliveries
    it received: two backends that answer the seed write differently (or
    differ in anything else), started in different worlds, lead to the
    same view. *)
Theorem useCmsConfig_backend_independent (fuel1 fuel2 : nat)
    (inputs : list cms_input) (w1 w2 : world) :
  (6 ≤ fuel1)%nat →
  (6 ≤ fuel2)%nat →
  ∃ view,
    useCmsConfig G B1 fuel1 inputs w1 = Some view
    ∧ useCmsConfig G B2 fuel2 inputs w2 = Some view.
Proof.
  intros Hf1 Hf2. unfold useCmsConfig.
  destruct (run_total G B1 fuel1 inputs useCmsConfig_initial w1 Hf1) as [[st1 w1'] H1].
  destruct (run_total G B2 fuel2 inputs useCmsConfig_initial w2 Hf2) as [[st2 w2'] H2].
  rewrite H1, H2. exists (config st1).
  by rewrite (run_state_independent _ _ _ _ _ _ _ _ _ _ H1 H2).
Qed.

End CmsTwoBackends.

(** ** submitLead: what is stored and what is called *)

Section LeadFacts.
Variable G : globals.
Variable B : backend.

(** What a retried append does to the stored data: nothing on
    rejection, one more record on success. *)
Lemma append_retry_frame (ref : path) (formData : jsobj) (fuel : nat) :
  ∀ retries d w o w' tr,
    Retry.withRetry setTimeout (λ w0, addDoc B ref (lead_record B formData w0) w0)
      fuel retries d w = Some (o, w', tr) →
    documents w' = documents w
    ∧ currentUser w' = currentUser w
    ∧ match o with
      | Reject _ => collections w' = collections w
      | Resolve _ =>
          ∃ w0, collections w'
                = <[ref := collection_at ref w ++ [lead_record B formData w0]]> (collections w)
      end.
Proof.
  induction fuel as [|fuel IH]; intros retries d w o w' tr; [done|].
  simpl. unfold addDoc at 1.
  destruct (add_doc B w ref (lead_record B formData w)) as [e|] eqn:Hadd.
  - destruct (retries =? 0).
    + by intros [= <- <- <-].
    + destruct (Retry.withRetry _ _ fuel _ _ _) as [[[r2 w2] tr2]|] eqn:Hrec; [|done].
      intros [= <- <- <-]. apply IH in Hrec as (Hd & Hu & Hc).
      split_and!; [done|done|]. destruct r2; [|done].
      destruct Hc as (w0 & Hc). by exists w0.
  - intros [= <- <- <-]. split_and!; [done|done|]. by exists w.
Qed.

(** What a submission leaves in the store, for every backend. *)
Lemma submitLead_stores (fuel : nat) (d : option firestore) (uid : jsval)
    (formData : jsobj) (w : world) (r : result) (w' : world) :
  submitLead G B fuel d uid formData w = Some (r, w') →
  documents w' = documents w
  ∧ if success r then
      ∃ h ref w0,
        d = Some h
        ∧ truthy uid = true
        ∧ getLeadsCollectionRef G h uid = Some ref
        ∧ collection_at ref w' = collection_at ref w ++ [lead_record B formData w0]
        ∧ (∀ ref', ref' ≠ ref → collection_at ref' w' = collection_at ref' w)
    else collections w' = collections w.
Proof.
  unfold submitLead. destruct d as [h|]; [|by intros [= <- <-]].
  destruct (truthy uid) eqn:Hu; [|by intros [= <- <-]].
  destruct (getLeadsCollectionRef G h uid) as [ref|] eqn:Href; [|by intros [= <- <-]].
  destruct (withRetry_default _ _ _) as [[[o w2] tr]|] eqn:Hr; [|done].
  apply append_retry_frame in Hr as (Hd & _ & Hc).
  destruct o as [a|e]; intros [= <- <-]; simpl; (split; [done|]); [|done].
  destruct Hc as (w0 & Hc). exists h, ref, w0. split_and!; [done|done|done| |].
  - unfold collection_at at 1. by rewrite Hc, lookup_insert_eq.
  - intros ref' Hne. unfold collection_at. by rewrite Hc, lookup_insert_ne.
Qed.

(** X13. [submitLead] only ever appends. Whatever the backend answers,
    stored documents are untouched; on a failure result the collections
    are exactly as before, and on a success result exactly one record, the
    form data with its [timestamp] and [status], has been added at the end
    of the user's lead collection and every other collection is as before:
    a retried submission is never stored twice. *)
Theorem submitLead_append_only (fuel : nat) (d : option firestore) (uid : jsval)
    (formData : jsobj) (w : world) (r : result) (w' : world) :
  submitLead G B fuel d uid formData w = Some (r, w') →
  documents w' = documents w
  ∧ if success r then
      ∃ h ref w0,
        d = Some h
        ∧ truthy uid = true
        ∧ getLeadsCollectionRef G h uid = Some ref
        ∧ collection_at ref w' = collection_at ref w ++ [lead_record B formData w0]
        ∧ (∀ ref', ref' ≠ ref → collection_at ref' w' = collection_at ref' w)
    else collections w' = collections w.
Proof. apply submitLead_stores. Qed.

(** X14. With a handle and a user id, [submitLead] returns for every
    backend, and apart from its [addDoc] calls it only waits, for at most
    31 seconds in all. When [collection] accepts the path it makes at
    least one and at most six [addDoc] calls, all to the user's lead
    collection. When [collection] refuses the path, as it does for the
    user id [a/b] under an app id of one segment, it makes no call at all
    and returns the generic failure. *)
Theorem submitLead_bounded (fuel : nat) (h : firestore) (uid : jsval)
    (formData : jsobj) (w : world) :
  (6 ≤ fuel)%nat →
  truthy uid = true →
  ∃ r w' rest,
    submitLead G B fuel (Some h) uid formData w = Some (r, w')
    ∧ calls w' = calls w ++ rest
    ∧ 0 ≤ foldr Z.add 0 (timeouts rest) ≤ 31000
    ∧ match getLeadsCollectionRef G h uid with
      | Some ref =>
          Forall (λ ev, (∃ data, ev = EvAddDoc ref data) ∨ ∃ ms, ev = EvTimeout ms) rest
          ∧ (1 ≤ length (List.filter is_addDoc rest) ≤ 6)%nat
      | None =>
          rest = []
          ∧ r = MkResult false "Submission failed. Please check your network connection."
      end.
Proof.
  intros Hf Hu. unfold submitLead. rewrite Hu.
  destruct (getLeadsCollectionRef G h uid) as [ref|].
  2:{ eexists _, w, []. split_and!; try done; [by rewrite app_nil_r|simpl; lia..]. }
  set (fn := λ w0, addDoc B ref (lead_record B formData w0) w0).
  destruct (withRetry_total_wait_shape setTimeout fn fuel 5 1000 w)
    as (o & w2 & tr & Hr & Hatt & Hsum); [lia|lia|].
  set (P := λ ev, match ev with
                  | EvAddDoc ref' _ => bool_decide (ref' = ref)
                  | _ => false
                  end).
  assert (Hcall : ∀ w0, ∃ ev, P ev = true ∧ calls (snd (fn w0)) = calls w0 ++ [ev]).
  { intros w0. exists (EvAddDoc ref (lead_record B formData w0)).
    split; [by apply bool_decide_eq_true|].
    unfold fn, addDoc. by destruct (add_doc B w0 ref _). }
  destruct (withRetry_calls P fn ltac:(done) Hcall _ _ _ _ _ _ _ Hr)
    as (rest & Hc & HF & HL & HW).
  assert (Hsame : List.filter is_addDoc rest = List.filter P rest).
  { clear Hc HL HW. induction HF as [|ev rest' Hev _ IH]; [done|].
    simpl. rewrite IH. destruct Hev as [Hd|[ms ->]]; [|done].
    rewrite Hd. by destruct ev. }
  unfold withRetry_default. fold fn. rewrite Hr.
  exists (match o with
          | Resolve _ =>
              MkResult true "Thank you! Your inquiry has been successfully submitted."
          | Reject _ =>
              MkResult false "Submission failed. Please check your network connection."
          end), w2, rest.
  split_and!; [by destruct o|done| | | | |].
  - rewrite HW. lia.
  - rewrite HW. lia.
  - eapply Forall_impl; [exact HF|]. intros ev [Hd|?]; [left|by right].
    destruct ev; try done. apply bool_decide_eq_true in Hd as ->. by eexists.
  - rewrite Hsame, HL. lia.
  - rewrite Hsame, HL. simpl in Hatt. lia.
Qed.

Lemma split_trailing_slash (s : string) :
  Paths.has_slash s = false → Paths.split (s +:+ "/") = [s; EmptyString].
Proof.
  induction s as [|c s IH]; simpl; [done|].
  intros [Hc Hs]%orb_false_iff. rewrite Hc. by rewrite (IH Hs).
Qed.

Lemma trailing_slash_no_double (s : string) :
  Paths.has_slash s = false → Paths.includes_double_slash (s +:+ "/") = false.
Proof.
  induction s as [|c s IH]; simpl; [done|].
  intros [Hc Hs]%orb_false_iff. rewrite Hc. simpl.
  destruct s as [|c' s']; [done|]. by apply IH.
Qed.

(** X15. Leads are kept apart by user id as long as the app id and the
    user ids are one path segment each: the lead collections of two
    different such user ids are different paths, neither is the path of
    the metrics document, and a submission for one user id changes
    neither the collection of the other nor any document. Slashes break
    the separation: [collection] strips a trailing slash, so the user id
    [a/] writes to the collection of the user id [a]. *)
Theorem submitLead_isolated (fuel : nat) (h h' : firestore) (a b : string)
    (formData : jsobj) (w : world) (r : result) (w' : world) :
  Paths.plain (appId G) = true →
  Paths.plain a = true →
  Paths.plain b = true →
  a ≠ b →
  submitLead G B fuel (Some h) (JStr a) formData w = Some (r, w') →
  ∃ ref_a ref_b,
    getLeadsCollectionRef G h (JStr a) = Some ref_a
    ∧ getLeadsCollectionRef G h' (JStr b) = Some ref_b
    ∧ ref_a ≠ ref_b
    ∧ collection_at ref_b w' = collection_at ref_b w
    ∧ documents w' = documents w
    ∧ ref_a ≠ getCmsDocRef G h'
    ∧ getLeadsCollectionRef G h (JStr (a +:+ "/")) = Some ref_a.
Proof.
  intros Happ Ha Hb Hab Hrun.
  pose proof (getLeadsCollectionRef_plain G h a Happ Ha) as Hra.
  pose proof (getLeadsCollectionRef_plain G h' b Happ Hb) as Hrb.
  eexists _, _. split; [exact Hra|]. split; [exact Hrb|].
  apply submitLead_stores in Hrun as (Hdoc & Hstore).
  split_and!; [congruence| |done|done|].
  - destruct (success r).
    + destruct Hstore as (h0 & ref & w0 & [= <-] & _ & Href & _ & Hframe).
      rewrite Hra in Href. injection Href as <-. apply Hframe. congruence.
    + unfold collection_at. by rewrite Hstore.
  - unfold getLeadsCollectionRef, Paths.collection, Paths.fromString.
    assert (Happ' : Paths.has_slash (appId G) = false).
    { unfold Paths.plain in Happ. apply andb_true_iff in Happ as [_ Happ].
      by apply negb_true_iff in Happ. }
    assert (Ha' : Paths.has_slash a = false ∧ String.eqb a EmptyString = false).
    { unfold Paths.plain in Ha. apply andb_true_iff in Ha as [Hne Ha].
      split; by apply negb_true_iff. }
    destruct Ha' as (Ha' & Hne).
    simpl existsb.
    rewrite (plain_no_double_slash _ Happ'), (trailing_slash_no_double _ Ha'). simpl.
    rewrite (plain_segments _ Happ). unfold Paths.segments_of.
    rewrite (split_trailing_slash _ Ha'). simpl. by rewrite Hne.
Qed.

(** X16. When the path of the lead collection is valid, and the append
    is rejected [k - 1] times and accepted on attempt [k] of the six,
    [submitLead] reports success after exactly [k] [addDoc] calls and the
    collection has gained exactly one record, stamped with the clock as
    read by the accepted attempt. *)
Theorem submitLead_accepted_on_retry (fuel k : nat) (h : firestore) (uid : jsval)
    (ref : path) (formData : jsobj) (w : world) :
  truthy uid = true →
  getLeadsCollectionRef G h uid = Some ref →
  (1 ≤ k ≤ 6)%nat →
  (k ≤ fuel)%nat →
  (∀ i, (i < k - 1)%nat →
     is_reject (Retry.outcome_at setTimeout
                  (λ w0, addDoc B ref (lead_record B formData w0) w0) i 1000 w) = true) →
  is_reject (Retry.outcome_at setTimeout
               (λ w0, addDoc B ref (lead_record B formData w0) w0) (k - 1) 1000 w) = false →
  ∃ w' w_k,
    submitLead G B fuel (Some h) uid formData w
      = Some (MkResult true "Thank you! Your inquiry has been successfully submitted.", w')
    ∧ w_k = Retry.world_at setTimeout
              (λ w0, addDoc B ref (lead_record B formData w0) w0) (k - 1) 1000 w
    ∧ collection_at ref w' = collection_at ref w ++ [lead_record B formData w_k]
    ∧ count_calls is_addDoc w' = (count_calls is_addDoc w + k)%nat.
Proof. apply submitLead_accepted_after_retries. Qed.

End LeadFacts.

(** ** ContactUsPage: the form and its submission *)

Section ContactFacts.
Variable G : globals.
Variable B : backend.

Import ContactUsPage.

Lemma initial_formData_dom : dom initial_formData = list_to_set fields.
Proof.
  unfold initial_formData, fields. rewrite !dom_insert_L, dom_singleton_L. simpl.
  set_solver.
Qed.

Lemma handleSubmit_formData fuel d uid s w s' w' :
  handleSubmit G B fuel d uid s w = Some (s', w') →
  formData s' = formData s ∨ formData s' = initial_formData.
Proof.
  unfold handleSubmit. destruct d as [h|]; [|intros [= <- <-]; by left].
  destruct (truthy uid); [|intros [= <- <-]; by left].
  destruct (submitLead G B fuel (Some h) uid (formData s) w) as [[r w1]|]; [|done].
  destruct (success r); intros [= <- <-]; [by right|by left].
Qed.

Lemma run_form_shape fuel d uid inputs :
  ∀ s w s' w',
    Forall from_controls inputs →
    dom (formData s) = list_to_set fields →
    run G B fuel d uid inputs s w = Some (s', w') →
    dom (formData s') = list_to_set fields.
Proof.
  induction inputs as [|i rest IH]; intros s w s' w' Hin Hdom; simpl.
  - by intros [= <- <-].
  - apply Forall_cons in Hin as [Hi Hrest].
    destruct (step G B fuel d uid i s w) as [[s1 w1]|] eqn:Hs; [|done].
    apply IH; [done|].
    destruct i as [name value|]; simpl in Hs.
    + injection Hs as <- <-. unfold handleChange. cbn [formData].
      rewrite dom_insert_L, Hdom.
      apply subseteq_union_1_L, singleton_subseteq_l, elem_of_list_to_set. exact Hi.
    + destruct (handleSubmit_formData _ _ _ _ _ _ _ Hs) as [->| ->];
        [done|apply initial_formData_dom].
Qed.

(** X17. Whatever the user types and however often the form is
    submitted, the form data keeps exactly the five keys of the rendered
    controls; and a change sets that one field to the value entered and
    leaves the others as they were. *)
Theorem ContactUsPage_form_shape (fuel : nat) (d : option firestore) (uid : jsval)
    (inputs : list input) (w : world) (s : state) (w' : world) :
  Forall from_controls inputs →
  run G B fuel d uid inputs initial w = Some (s, w') →
  dom (formData s) = {[ "name"; "company"; "email"; "phone"; "inquiry" ]}
  ∧ (∀ name value,
       formData (handleChange name value s) !! name = Some value
       ∧ (∀ other, other ≠ name →
            formData (handleChange name value s) !! other = formData s !! other)).
Proof.
  intros Hin Hrun. split.
  - rewrite (run_form_shape _ _ _ _ _ _ _ _ Hin (initial_formData_dom : dom (formData initial) = _) Hrun).
    unfold fields. simpl. set_solver.
  - intros name value. simpl. split; [by rewrite lookup_insert_eq|].
    intros other Hne. by rewrite lookup_insert_ne.
Qed.


(** X19. A lead sent from the page is stored with everything the user
    entered: the record holds the five form fields with exactly the
    submitted values, and besides them only [timestamp] and [status]. *)
Theorem ContactUsPage_record_complete (fuel : nat) (h : firestore) (uid : jsval)
    (inputs : list input) (w : world) (s : state) (w1 : world)
    (s' : state) (w2 : world) :
  Forall from_controls inputs →
  run G B fuel (Some h) uid inputs initial w = Some (s, w1) →
  handleSubmit G B fuel (Some h) uid s w1 = Some (s', w2) →
  status_type (status s') = Some "success" →
  ∃ record ref,
    getLeadsCollectionRef G h uid = Some ref
    ∧ collection_at ref w2 = collection_at ref w1 ++ [record]
    ∧ formData s ⊆ record
    ∧ record !! "status" = Some "New"
    ∧ dom record
        = {[ "name"; "company"; "email"; "phone"; "inquiry"; "timestamp"; "status" ]}.
Proof.
  intros Hin Hrun Hsub Hok.
  pose proof (run_form_shape _ _ _ _ _ _ _ _ Hin (initial_formData_dom : dom (formData initial) = _) Hrun) as Hdom.
  unfold handleSubmit in Hsub.
  destruct (truthy uid) eqn:Hu; [|by injection Hsub as <- <-].
  destruct (submitLead G B fuel (Some h) uid (formData s) w1) as [[r w3]|] eqn:Hlead; [|done].
  pose proof (submitLead_stores G B _ _ _ _ _ _ _ Hlead) as (_ & Hstore).
  destruct (success r); [|by injection Hsub as <- <-].
  injection Hsub as <- <-.
  destruct Hstore as (h' & ref & w0 & [= <-] & _ & Href & Hcoll & _).
  exists (lead_record B (formData s) w0), ref. split; [done|]. split; [done|].
  assert (Hts : formData s !! "timestamp" = None).
  { apply not_elem_of_dom. rewrite Hdom, elem_of_list_to_set. unfold fields.
    rewrite !elem_of_cons, elem_of_nil. intros [H|[H|[H|[H|[H|[]]]]]]; discriminate H. }
  assert (Hst : formData s !! "status" = None).
  { apply not_elem_of_dom. rewrite Hdom, elem_of_list_to_set. unfold fields.
    rewrite !elem_of_cons, elem_of_nil. intros [H|[H|[H|[H|[H|[]]]]]]; discriminate H. }
  unfold lead_record. split_and!.
  - etrans; [apply insert_subseteq; exact Hts|].
    apply insert_subseteq. by rewrite lookup_insert_ne.
  - by rewrite lookup_insert_eq.
  - rewrite !dom_insert_L, Hdom. unfold fields. simpl. set_solver.
Qed.

End ContactFacts.

(** ** Navigation *)

Section NavigationFacts.
Import Navigation.

(** Membership in a list that is written out. *)
Local Ltac in_list :=
  solve [repeat first [apply list_elem_of_here | apply list_elem_of_further]].

Lemma toLowerCase_char_idem (c : ascii) :
  toLowerCase_char (toLowerCase_char c) = toLowerCase_char c.
Proof. destruct c as [[] [] [] [] [] [] [] []]; reflexivity. Qed.

Lemma toLowerCase_char_whitespace (c : ascii) :
  is_whitespace (toLowerCase_char c) = is_whitespace c.
Proof. destruct c as [[] [] [] [] [] [] [] []]; reflexivity. Qed.

Lemma toLowerCase_idem (s : string) : toLowerCase (toLowerCase s) = toLowerCase s.
Proof. induction s as [|c s IH]; simpl; [done|]. by rewrite toLowerCase_char_idem, IH. Qed.

Lemma remove_whitespace_idem (s : string) :
  remove_whitespace (remove_whitespace s) = remove_whitespace s.
Proof.
  induction s as [|c s IH]; [done|]. simpl.
  destruct (is_whitespace c) eqn:Hc; [done|]. simpl. by rewrite Hc, IH.
Qed.

Lemma toLowerCase_remove_whitespace (s : string) :
  toLowerCase (remove_whitespace s) = remove_whitespace (toLowerCase s).
Proof.
  induction s as [|c s IH]; [done|]. simpl.
  rewrite toLowerCase_char_whitespace.
  destruct (is_whitespace c); [done|]. simpl. by rewrite IH.
Qed.

Lemma remove_whitespace_length (s : string) :
  (String.length (remove_whitespace s) ≤ String.length s)%nat.
Proof.
  induction s as [|c s IH]; simpl; [lia|].
  destruct (is_whitespace c); simpl; lia.
Qed.

Lemma toLowerCase_length (s : string) : String.length (toLowerCase s) = String.length s.
Proof. induction s as [|c s IH]; simpl; [done|]. by rewrite IH. Qed.

(** X20. The page key of a name is in normal form: it contains no
    whitespace and no capital letter, so taking the key of a key changes
    nothing; it is no longer than the name; a nav item is highlighted on
    the page it selects; and names that differ only in case select the
    same page. *)
Theorem page_key_normal (name : string) :
  page_key (page_key name) = page_key name
  ∧ remove_whitespace (page_key name) = page_key name
  ∧ toLowerCase (page_key name) = page_key name
  ∧ (String.length (page_key name) ≤ String.length name)%nat
  ∧ NavItem_active name (page_key name) = true
  ∧ page_key (toLowerCase name) = page_key name.
Proof.
  unfold page_key, NavItem_active. split_and!.
  - by rewrite toLowerCase_remove_whitespace, toLowerCase_idem, remove_whitespace_idem.
  - apply remove_whitespace_idem.
  - by rewrite toLowerCase_remove_whitespace, toLowerCase_idem.
  - etrans; [apply remove_whitespace_length|]. by rewrite toLowerCase_length.
  - apply String.eqb_refl.
  - by rewrite toLowerCase_idem.
Qed.

Lemma Header_links_wide :
  Header_links true = ["home"; "home"; "aboutus"; "services"; "products"; "contactus"].
Proof. reflexivity. Qed.

Lemma Header_links_narrow : Header_links false = ["home"; "contactus"].
Proof. reflexivity. Qed.

Lemma links_in_pages (md : bool) (currentPage : string) (ready : bool) :
  Forall (λ target, target ∈ pages) (links md currentPage ready).
Proof.
  unfold links. apply Forall_app. split; [|apply Forall_app; split].
  - destruct md; [rewrite Header_links_wide|rewrite Header_links_narrow];
      unfold pages; repeat (constructor; [in_list|]); constructor.
  - destruct (renderPage currentPage ready ∅ None JNull); simpl; unfold pages;
      repeat (constructor; [in_list|]); constructor.
  - unfold Footer_links, pages. repeat (constructor; [in_list|]). constructor.
Qed.

Lemma navigate_in_pages (clicks : list (bool * bool * nat)) :
  ∀ p, p ∈ pages → navigate clicks p ∈ pages.
Proof.
  induction clicks as [|[[md ready] n] rest IH]; intros p Hp; simpl; [done|].
  apply IH. unfold click.
  destruct (links md p ready !! n) as [target|] eqn:Hl; [|done].
  pose proof (links_in_pages md p ready) as HF. rewrite Forall_forall in HF.
  apply HF. by eapply list_elem_of_lookup_2.
Qed.

(** A link that is shown can be clicked. *)
Lemma click_link (md ready : bool) (p target : string) :
  target ∈ links md p ready → ∃ n, click md ready n p = target.
Proof.
  intros Hin. apply list_elem_of_lookup in Hin as [n Hn].
  exists n. unfold click. by rewrite Hn.
Qed.

(** Below the [md] breakpoint, [aboutus] and [products] are linked from
    the sitemap page only. *)
Lemma narrow_links (p target : string) (ready : bool) :
  p ∈ pages →
  target = "aboutus" ∨ target = "products" →
  target ∈ links false p ready ↔ p = "sitemap" ∧ ready = true.
Proof.
  intros Hp Ht. unfold pages in Hp. rewrite !elem_of_cons, elem_of_nil in Hp.
  destruct Hp as [->|[->|[->|[->|[->|[->|[->|[->|[]]]]]]]]], ready, Ht as [->| ->];
    (split;
     [ intros Hin; cbv in Hin;
       repeat (apply elem_of_cons in Hin as [Hin|Hin]; [try discriminate Hin|]);
       try (by apply elem_of_nil in Hin); done
     | intros [Hs Hr]; try discriminate Hs; try discriminate Hr;
       unfold links; rewrite !elem_of_app; right; left; in_list ]).
Qed.

(** X21. Navigation never leaves the eight pages of the [switch]:
    starting on [home] and clicking any links of the header, the footer or
    the page shown, at any viewport, the current page is always one of
    the eight keys, so once the app is ready the page of that key is shown
    and the [default] branch is never taken; while it is not ready the
    loader is shown on every page. On a viewport of at least the [md]
    breakpoint every page is one click away from every page. Below it the
    header shows the phone button in place of the nav items: every page
    but About Us and Products is still one click away, these two are
    linked from the sitemap page only, and once the app is ready every
    page is at most two clicks away. *)
Theorem navigation_closed (clicks : list (bool * bool * nat)) :
  navigate clicks "home" ∈ pages
  ∧ (∀ cfg d uid,
       renderPage (navigate clicks "home") true cfg d uid = HomePage cfg →
       navigate clicks "home" = "home")
  ∧ (∀ cfg d uid, renderPage (navigate clicks "home") false cfg d uid = Loading)
  ∧ (∀ target ready,
       target ∈ pages → ∃ n, click true ready n (navigate clicks "home") = target)
  ∧ (∀ target ready,
       target ∈ pages → target ≠ "aboutus" → target ≠ "products" →
       ∃ n, click false ready n (navigate clicks "home") = target)
  ∧ (∀ target ready,
       target = "aboutus" ∨ target = "products" →
       target ∈ links false (navigate clicks "home") ready
       ↔ navigate clicks "home" = "sitemap" ∧ ready = true)
  ∧ (∀ target,
       target ∈ pages →
       ∃ n m, click false true m (click false true n (navigate clicks "home")) = target).
Proof.
  assert (Hp : navigate clicks "home" ∈ pages).
  { apply navigate_in_pages. unfold pages. in_list. }
  assert (Hfooter : ∀ md ready p target,
            target ∈ Footer_links → target ∈ links md p ready).
  { intros md ready p target Hin. unfold links. rewrite !elem_of_app. by right; right. }
  split_and!; [done| |done| | | |].
  - intros cfg d uid. unfold pages in Hp.
    rewrite !elem_of_cons, elem_of_nil in Hp.
    destruct Hp as [->|[->|[->|[->|[->|[->|[->|[->|[]]]]]]]]]; simpl; done.
  - intros target ready Ht. apply click_link.
    unfold links. rewrite Header_links_wide. unfold pages, Footer_links in *.
    rewrite !elem_of_app. rewrite !elem_of_cons, elem_of_nil in Ht.
    destruct Ht as [->|[->|[->|[->|[->|[->|[->|[->|[]]]]]]]]];
      first [left; in_list | right; right; in_list].
  - intros target ready Ht Ha Hpr. apply click_link.
    unfold links. rewrite Header_links_narrow. unfold pages, Footer_links in *.
    rewrite !elem_of_app. rewrite !elem_of_cons, elem_of_nil in Ht.
    destruct Ht as [->|[->|[->|[->|[->|[->|[->|[->|[]]]]]]]]];
      first [done | left; in_list | right; right; in_list].
  - intros target ready Ht. by apply narrow_links.
  - intros target Ht.
    destruct (click_link false true (navigate clicks "home") "sitemap") as [n Hn].
    { apply Hfooter. unfold Footer_links. in_list. }
    destruct (click_link false true "sitemap" target) as [m Hm].
    { unfold links. rewrite !elem_of_app. right; left. exact Ht. }
    exists n, m. by rewrite Hn.
Qed.

End NavigationFacts.

(** ** App without a backend configuration *)

Section DegradedFacts.
Variable G : globals.
Variable B : backend.

Lemma App_run_without_listener fuel inputs :
  ∀ s w,
    auth_listener s = false →
    subscription (cms s) = None →
    App_run G B fuel inputs s w = Some (s, w).
Proof.
  induction inputs as [|i rest IH]; intros s w Hl Hs; simpl; [done|].
  destruct s as [idn l c]. simpl in Hl, Hs. subst l.
  destruct i as [user|docSnap|e]; simpl; rewrite ?Hs; by apply IH.
Qed.

(** X22. Without a Firebase configuration the site runs in a degraded
    mode that never touches the backend: [App] is ready at once with no
    handle and a null user id, shows the compiled-in metrics, makes no
    call whatever the backend sends, renders the contact page with those
    props, and every submission of the contact form ends with the
    initialisation-pending error, without a call. *)
Theorem App_without_config (fuel : nat) (inputs : list app_input) (w : world) :
  firebaseConfig G = None →
  ∃ s,
    App G B fuel inputs w = Some (s, w)
    ∧ identity s = MkFirebase None None JNull true
    ∧ config (cms s) = defaultData
    ∧ subscription (cms s) = None
    ∧ Navigation.renderPage "contactus" (isAuthReady (identity s)) (config (cms s))
        (db (identity s)) (userId (identity s))
      = Navigation.ContactUsPage None JNull
    ∧ (∀ fuel' c,
         ContactUsPage.handleSubmit G B fuel' (db (identity s)) (userId (identity s)) c w
         = Some (ContactUsPage.MkState (ContactUsPage.formData c)
                   (ContactUsPage.MkStatus (Some ContactUsPage.pending_message)
                      (Some "error")) false, w)).
Proof.
  intros Hcfg. unfold App, App_mount, useFirebaseSetup_effect. rewrite Hcfg.
  unfold App_render. simpl.
  unfold useCmsConfig_render, useCmsConfig_cleanup, useCmsConfig_effect. simpl.
  rewrite App_run_without_listener by done.
  eexists. split; [reflexivity|]. by split_and!.
Qed.

End DegradedFacts.

(** ** The Bitcoin price page: buttons and chart *)

Section BtcFacts.
Import BtcPage.

Lemma run_snoc (inputs : list input) (i : input) (p : page) :
  run (inputs ++ [i]) p = step i (run inputs p).
Proof. unfold run. by rewrite foldl_app. Qed.

Lemma toggle_dark :
  toggle "text-gray-800" (toggle "text-gray-100"
    (toggle "bg-gray-100" (toggle "gradient-bg" dark_body))) = light_body.
Proof. refine (proj1 (bool_decide_eq_true _) _). vm_compute. reflexivity. Qed.

Lemma toggle_light :
  toggle "text-gray-800" (toggle "text-gray-100"
    (toggle "bg-gray-100" (toggle "gradient-bg" light_body))) = dark_body.
Proof. refine (proj1 (bool_decide_eq_true _) _). vm_compute. reflexivity. Qed.

Lemma initTradingViewChart_button (k : nat) (tf : string) :
  timeframes !! k = Some tf →
  initTradingViewChart (Some tf)
    = MkWidget "BINANCE:BTCUSDT" (Some tf) "dark" "tradingview-chart".
Proof. do 6 (destruct k as [|k]; [by intros [= <-]|]). done. Qed.

(** What holds of the page at every moment. *)
Lemma page_invariant (inputs : list input) :
  ∃ k tf,
    timeframes !! k = Some tf
    ∧ buttons (run inputs loaded) = active_at k
    ∧ last (widgets (run inputs loaded))
        = Some (MkWidget "BINANCE:BTCUSDT" (Some tf) "dark" "tradingview-chart")
    ∧ uncaught (run inputs loaded) = O
    ∧ Forall (λ c, theme c = "dark" ∧ is_Some (interval c)) (widgets (run inputs loaded))
    ∧ ((body (run inputs loaded) = dark_body
        ∧ theme_toggle (run inputs loaded) = MoonDarkMode)
       ∨ (body (run inputs loaded) = light_body
          ∧ theme_toggle (run inputs loaded) = SunLightMode)).
Proof.
  induction inputs as [|i inputs IH] using rev_ind.
  - exists O, "1D". split_and!; try done.
    + repeat constructor. by eexists.
    + by left.
  - rewrite run_snoc. destruct IH as (k & tf & Hk & Hb & Hw & Hu & HF & Hbody).
    set (p := run inputs loaded) in *.
    assert (Hact : active_button p = Some (MkButton tf true)).
    { unfold active_button. rewrite Hb.
      do 6 (destruct k as [|k]; [by injection Hk as <-|]). done. }
    destruct i as [n| |granted|]; simpl.
    + unfold click_timeframe. rewrite Hb.
      destruct (active_at k !! n) as [this|] eqn:Hn.
      * assert (Hn' : timeframes !! n = Some (timeframe this)).
        { unfold active_at in Hn. rewrite list_lookup_imap in Hn.
          destruct (timeframes !! n); [|done]. by injection Hn as <-. }
        exists n, (timeframe this). simpl. split_and!; try done.
        -- do 6 (destruct n as [|n]; [by injection Hn' as <-;
                   do 6 (destruct k as [|k]; [done|]); done|]).
           done.
        -- by rewrite last_snoc, (initTradingViewChart_button _ _ Hn').
        -- apply Forall_app. split; [done|].
           rewrite (initTradingViewChart_button _ _ Hn').
           repeat constructor. by eexists.
      * exists k, tf. by split_and!.
    + unfold click_theme. rewrite Hact. cbn [timeframe].
      rewrite (initTradingViewChart_button _ _ Hk). cbn [buttons widgets uncaught body
        theme_toggle]. exists k, tf.
      split_and!; try done.
      * by rewrite last_snoc.
      * apply Forall_app. split; [done|]. repeat constructor. by eexists.
      * destruct Hbody as [[-> _]|[-> _]].
        -- right. rewrite toggle_dark. split; [done|by vm_compute].
        -- left. rewrite toggle_light. split; [done|by vm_compute].
    + unfold click_fullscreen. exists k, tf.
      destruct (fullscreenElement p); simpl; by split_and!.
    + exists k, tf. simpl. by split_and!.
Qed.

(** X23. After the page has loaded, whatever is clicked: exactly one
    timeframe button is active, the chart created last shows the interval
    of that button, the theme handler always finds an active button (no
    handler ends with an uncaught error), and every chart ever created has
    an interval of the table. *)
Theorem chart_follows_active_button (inputs : list input) :
  ∃ k tf,
    timeframes !! k = Some tf
    ∧ buttons (run inputs loaded) = active_at k
    ∧ (∀ j b, buttons (run inputs loaded) !! j = Some b →
              (active b = true ↔ j = k))
    ∧ active_button (run inputs loaded) = Some (MkButton tf true)
    ∧ interval <$> last (widgets (run inputs loaded)) = Some (Some tf)
    ∧ uncaught (run inputs loaded) = O
    ∧ Forall (λ c, is_Some (interval c)) (widgets (run inputs loaded)).
Proof.
  destruct (page_invariant inputs) as (k & tf & Hk & Hb & Hw & Hu & HF & _).
  exists k, tf. split_and!; try done.
  - intros j b. rewrite Hb. unfold active_at. rewrite list_lookup_imap.
    destruct (timeframes !! j); [|done]. intros [= <-]. simpl.
    by rewrite bool_decide_eq_true.
  - unfold active_button. rewrite Hb.
    do 6 (destruct k as [|k]; [by injection Hk as <-|]). done.
  - by rewrite Hw.
  - eapply Forall_impl; [exact HF|]. by intros c [_ ?].
Qed.

(** X24. The theme button switches the body between two palettes and
    nothing else: at every moment the body has either the three dark
    classes and the button shows the moon, or the three light classes and
    the button shows the sun; two clicks restore both. The chart does not
    follow: every chart is created with the dark theme, also the one
    created by the click that switches to the light palette. *)
Theorem theme_toggle_consistent (inputs : list input) :
  ((body (run inputs loaded) = dark_body
    ∧ theme_toggle (run inputs loaded) = MoonDarkMode
    ∧ body (click_theme (run inputs loaded)) = light_body)
   ∨ (body (run inputs loaded) = light_body
      ∧ theme_toggle (run inputs loaded) = SunLightMode
      ∧ body (click_theme (run inputs loaded)) = dark_body))
  ∧ body (click_theme (click_theme (run inputs loaded))) = body (run inputs loaded)
  ∧ theme_toggle (click_theme (click_theme (run inputs loaded)))
      = theme_toggle (run inputs loaded)
  ∧ Forall (λ c, theme c = "dark") (widgets (click_theme (run inputs loaded))).
Proof.
  pose proof (page_invariant inputs) as (k & tf & _ & _ & _ & _ & _ & Hbody).
  pose proof (page_invariant (inputs ++ [ClickTheme])) as (_ & _ & _ & _ & _ & _ & HF1 & Hb1).
  pose proof (page_invariant ((inputs ++ [ClickTheme]) ++ [ClickTheme]))
    as (_ & _ & _ & _ & _ & _ & _ & Hb2).
  rewrite !run_snoc in *. simpl in *.
  set (p := run inputs loaded) in *.
  assert (Hstep : ∀ q, body q = dark_body → body (click_theme q) = light_body).
  { intros q Hq. unfold click_theme. rewrite Hq, toggle_dark.
    by destruct (active_button q). }
  assert (Hstep' : ∀ q, body q = light_body → body (click_theme q) = dark_body).
  { intros q Hq. unfold click_theme. rewrite Hq, toggle_light.
    by destruct (active_button q). }
  assert (Hne : dark_body ≠ light_body).
  { intros H. apply (f_equal (λ s, bool_decide ("gradient-bg" ∈ s))) in H.
    vm_compute in H. discriminate H. }
  split_and!.
  - destruct Hbody as [[Hd Hm]|[Hl Hs]]; [left|right]; split_and!; auto.
  - destruct Hbody as [[Hd _]|[Hl _]].
    + by rewrite (Hstep' _ (Hstep _ Hd)).
    + by rewrite (Hstep _ (Hstep' _ Hl)).
  - destruct Hbody as [[Hd ->]|[Hl ->]].
    + destruct Hb2 as [[_ ->]|[Hl2 _]]; [done|].
      rewrite (Hstep' _ (Hstep _ Hd)) in Hl2. done.
    + destruct Hb2 as [[Hd2 _]|[_ ->]]; [|done].
      rewrite (Hstep _ (Hstep' _ Hl)) in Hd2. done.
  - eapply Forall_impl; [exact HF1|]. by intros c [? _].
Qed.

Lemma fullscreen_invariant (inputs : list input) :
  Forall cooperative inputs →
  (fullscreen_btn (run inputs loaded) = CompressExitFullscreen
   ↔ fullscreenElement (run inputs loaded) = true).
Proof.
  induction inputs as [|i inputs IH] using rev_ind; intros Hc.
  - simpl. split; intros; done.
  - apply Forall_app in Hc as [Hc Hi]. rewrite Forall_singleton in Hi.
    specialize (IH Hc). rewrite run_snoc.
    set (p := run inputs loaded) in *.
    destruct i as [n| |granted|]; simpl in *.
    + unfold click_timeframe. by destruct (buttons p !! n).
    + unfold click_theme. by destruct (active_button p).
    + subst granted. unfold click_fullscreen.
      destruct (fullscreenElement p); simpl; split; intros; done.
    + done.
Qed.

(** X25. As long as every fullscreen request is granted and fullscreen
    is left only through the button, the button offers to exit exactly
    when the document is in fullscreen. The markup is set without looking
    at the outcome: after a click outside fullscreen the button offers to
    exit even when the request was refused, and leaving fullscreen with
    the Escape key does not change the button. *)
Theorem fullscreen_button_consistent (inputs : list input) :
  Forall cooperative inputs →
  (fullscreen_btn (run inputs loaded) = CompressExitFullscreen
   ↔ fullscreenElement (run inputs loaded) = true)
  ∧ (fullscreenElement (run inputs loaded) = false →
     fullscreen_btn (click_fullscreen false (run inputs loaded)) = CompressExitFullscreen
     ∧ fullscreenElement (click_fullscreen false (run inputs loaded)) = false)
  ∧ (fullscreenElement (run inputs loaded) = true →
     fullscreen_btn (press_escape (run inputs loaded)) = CompressExitFullscreen
     ∧ fullscreenElement (press_escape (run inputs loaded)) = false).
Proof.
  intros Hc. pose proof (fullscreen_invariant inputs Hc) as Hinv.
  split_and!; [done| |].
  - intros Hf. unfold click_fullscreen. by rewrite Hf.
  - intros Hf. simpl. split; [by apply Hinv|done].
Qed.

End BtcFacts.

(** ** The Bitcoin price page: fetchBTCData *)

Section BtcDataFacts.
Import BtcData.

Variable number : Type.
Variable NaN : number.
Variable zero : number.
Variable ge_zero : number → bool.
Variable abs : number → number.
Variable billions : number → number.
Variable toLocaleString2 : number → string.
Variable toLocaleString0 : number → string.
Variable toFixed2 : number → string.

Local Abbreviation fetch :=
  (fetchBTCData number NaN zero ge_zero abs billions toLocaleString2 toLocaleString0 toFixed2).

(** X26. [fetchBTCData] never lets an error out, and unless it can read a
    price it changes nothing on the page and sets no timer: this is so
    when the request or the parsing fails, when the body is [null], when
    [market_data], [current_price], [market_cap] or [total_volume] is
    absent or [null], and when the price is absent or [null]. When the
    price can be read, it is written. *)
Theorem fetchBTCData_silent_failure (r : response number) (doc : document) :
  (readable_price number r = None → fetch r doc = (doc, false))
  ∧ (∀ price, readable_price number r = Some price →
       textContent (btc_price (fetch r doc).1) = "$" +:+ toLocaleString2 price)
  ∧ fetch RequestFailed doc = (doc, false)
  ∧ fetch (Parsed NullNode) doc = (doc, false)
  ∧ fetch (Parsed (Obj (MkData number Absent))) doc = (doc, false)
  ∧ (∀ md, props (current_price number md) = None
           ∨ props (market_cap number md) = None
           ∨ props (total_volume number md) = None →
       fetch (Parsed (Obj (MkData number (Obj md)))) doc = (doc, false)).
Proof.
  split_and!; try done.
  - unfold readable_price, fetchBTCData. destruct r as [|data]; [done|].
    destruct (read_values number data) as [[[[[[price c] p] m] v] s]|]; [|done].
    by destruct price.
  - intros price. unfold readable_price, fetchBTCData. destruct r as [|data]; [done|].
    destruct (read_values number data) as [[[[[[pr c] p] m] v] s]|]; [|done].
    destruct pr as [| |x]; try done. intros [= ->]. simpl.
    destruct (call number toFixed2 p); [|done]. by destruct (call number toLocaleString0 s).
  - intros md Hmd. unfold fetchBTCData, read_values. simpl.
    destruct (props (current_price number md)) as [cp|]; simpl; [|done].
    destruct (props (market_cap number md)) as [mc|]; simpl; [|done].
    destruct (props (total_volume number md)) as [tv|]; simpl; [|done].
    by destruct Hmd as [?|[?|?]].
Qed.

(** X27. With all six numbers in the body every element is written and
    the timer is set. The amount and the percentage of the change get
    the same class, [positive] exactly when the change is [>= 0], with
    the sign spelled out before the absolute amount; the classes these
    two elements had in the markup are replaced. The price gets [blink],
    and when the timer fires its classes are again those it had. *)
Theorem fetchBTCData_writes (price change24h change24hPercent marketCap volume supply : number)
    (doc : document) :
  "blink" ∉ classes (btc_price doc) →
  ∃ doc',
    fetch (full_body number price change24h change24hPercent marketCap volume supply) doc
      = (doc', true)
    ∧ textContent (btc_price doc') = "$" +:+ toLocaleString2 price
    ∧ textContent (price_change doc')
        = (if ge_zero change24h then "+$" else "-$") +:+ toLocaleString2 (abs change24h)
    ∧ classes (price_change doc')
        = ["price-change"; if ge_zero change24h then "positive" else "negative"]
    ∧ classes (price_change_percent doc') = classes (price_change doc')
    ∧ textContent (price_change_percent doc') = "(" +:+ toFixed2 change24hPercent +:+ "%)"
    ∧ textContent (market_cap_el doc') = "$" +:+ toFixed2 (billions marketCap) +:+ "B"
    ∧ textContent (volume_el doc') = "$" +:+ toFixed2 (billions volume) +:+ "B"
    ∧ textContent (supply_el doc') = toLocaleString0 supply
    ∧ classes (btc_price doc') = classes (btc_price doc) ++ ["blink"]
    ∧ classes (btc_price (blink_timeout doc')) = classes (btc_price doc)
    ∧ textContent (btc_price (blink_timeout doc')) = "$" +:+ toLocaleString2 price
    ∧ classes (market_cap_el doc') = classes (market_cap_el doc)
    ∧ classes (volume_el doc') = classes (volume_el doc)
    ∧ classes (supply_el doc') = classes (supply_el doc).
Proof.
  intros Hblink. eexists. split; [reflexivity|]. simpl.
  assert (Hno : bool_decide ("blink" ∈ classes (btc_price doc)) = false)
    by (by apply bool_decide_eq_false).
  rewrite Hno. split_and!; try done.
  rewrite List.filter_app. simpl. rewrite app_nil_r.
  clear Hno. induction (classes (btc_price doc)) as [|c cs IH]; [done|].
  apply not_elem_of_cons in Hblink as [Hc Hcs]. simpl.
  destruct (String.eqb_spec c "blink") as [->|_]; [done|]. simpl. by rewrite IH.
Qed.

(** X28. The elements are written one after the other and an error stops
    the writing where it occurs. With a price but without a number for the
    percentage, the price is written, and so are the text and the class
    of the amount of the change: the sign and the class by the comparison
    of the change with zero, the amount from its absolute value (an absent
    change counts as [NaN], a [null] change as zero). The percentage, the
    market capitalisation, the volume and the supply keep what they
    showed, no [blink] is added and no timer is set. *)
Theorem fetchBTCData_stops_at_error (price : number) (change24h percent : leaf number)
    (marketCap volume : node (usd_fields number)) (supply : leaf number) (doc : document) :
  percent = Missing ∨ percent = Null →
  props marketCap ≠ None →
  props volume ≠ None →
  ∃ doc',
    fetch (body_without_percent number price change24h percent marketCap volume supply) doc
      = (doc', false)
    ∧ btc_price doc' = MkElement ("$" +:+ toLocaleString2 price) (classes (btc_price doc))
    ∧ textContent (price_change doc')
        = (if ge_zero (to_number number NaN zero change24h) then "+$" else "-$")
          +:+ toLocaleString2 (abs (to_number number NaN zero change24h))
    ∧ classes (price_change doc')
        = ["price-change";
           if ge_zero (to_number number NaN zero change24h) then "positive" else "negative"]
    ∧ to_number number NaN zero Missing = NaN
    ∧ to_number number NaN zero Null = zero
    ∧ price_change_percent doc' = price_change_percent doc
    ∧ market_cap_el doc' = market_cap_el doc
    ∧ volume_el doc' = volume_el doc
    ∧ supply_el doc' = supply_el doc.
Proof.
  intros Hp Hm Hv. unfold body_without_percent, fetchBTCData, read_values. simpl.
  destruct marketCap as [| |mc]; [done|done|]. destruct volume as [| |tv]; [done|done|].
  simpl. destruct Hp as [-> | ->]; simpl; eexists; by split_and!.
Qed.

End BtcDataFacts.

(** ** The further properties on concrete inputs *)

Lemma useFirebaseSetup_signed_in_witness :
  useFirebaseSetup G_anon B_down 0
    [Some (MkPrincipal (JStr "user-1")); Some (MkPrincipal (JStr "user-1"))]
    (MkWorld (Some (MkPrincipal (JStr "user-1"))) ∅ ∅ [])
  = Some (MkFirebase (Some h_zorix) (Some (Auth {[ "projectId" := "zorix" ]}))
            (JStr "user-1") true,
          record_call EvAuthListen (MkWorld (Some (MkPrincipal (JStr "user-1"))) ∅ ∅ [])).
Proof.
  apply (useFirebaseSetup_signed_in G_anon B_down 0 {[ "projectId" := "zorix" ]}
           (MkPrincipal (JStr "user-1")));
    [reflexivity|reflexivity|reflexivity|reflexivity| |discriminate].
  constructor; [eexists; reflexivity|]. constructor; [eexists; reflexivity|]. constructor.
Defined.

Example useCmsConfig_remount_counts :
  (λ r, (count_calls is_listen r.2, count_calls is_unsubscribe r.2))
    <$> useCmsConfig_run G_anon B_down 6
          [Render (Some h_zorix) true; Render None true; Render (Some h_zorix) true]
          useCmsConfig_initial w_empty
    = Some (2%nat, 1%nat).
Proof. vm_compute. reflexivity. Qed.

Lemma useCmsConfig_listeners_balanced_witness :
  ∃ st w',
    useCmsConfig_run G_anon B_down 6
      [Render (Some h_zorix) true; Render None true; Render (Some h_zorix) true]
      useCmsConfig_initial w_empty = Some (st, w')
    ∧ (count_calls is_listen w' - count_calls is_listen w_empty
       = count_calls is_unsubscribe w' - count_calls is_unsubscribe w_empty + live st)%nat
    ∧ count_calls is_listen w' = 2%nat
    ∧ count_calls is_unsubscribe w' = 1%nat.
Proof.
  pose proof useCmsConfig_remount_counts as Hcounts.
  destruct (useCmsConfig_run G_anon B_down 6
              [Render (Some h_zorix) true; Render None true; Render (Some h_zorix) true]
              useCmsConfig_initial w_empty) as [[st w']|] eqn:Hrun; [|discriminate Hcounts].
  exists st, w'. split; [reflexivity|].
  split; [exact (proj1 (useCmsConfig_listeners_balanced G_anon B_down 6 _ _ _ _ Hrun))|].
  simpl in Hcounts. injection Hcounts as Hl Hu. split; [exact Hl|exact Hu].
Defined.

Example useCmsConfig_rejected_seed_calls :
  (λ r, calls r.2)
    <$> useCmsConfig_render G_anon B_down 6 (Some h_zorix) true useCmsConfig_initial w_empty
    = Some [EvSetDocMerge (getCmsDocRef G_anon h_zorix) defaultData;
            EvSnapshotListen (getCmsDocRef G_anon h_zorix);
            EvTimeout 1000; EvSetDocMerge (getCmsDocRef G_anon h_zorix) defaultData;
            EvTimeout 2000; EvSetDocMerge (getCmsDocRef G_anon h_zorix) defaultData;
            EvTimeout 4000; EvSetDocMerge (getCmsDocRef G_anon h_zorix) defaultData;
            EvTimeout 8000; EvSetDocMerge (getCmsDocRef G_anon h_zorix) defaultData;
            EvTimeout 16000; EvSetDocMerge (getCmsDocRef G_anon h_zorix) defaultData].
Proof. reflexivity. Qed.



Lemma useCmsConfig_backend_independent_witness :
  ∃ view,
    useCmsConfig G_anon B_up 6
      [Render (Some h_zorix) true; Next (DocExists {[ "years" := "7+" ]})] w_empty
      = Some view
    ∧ useCmsConfig G_anon B_down 9
        [Render (Some h_zorix) true; Next (DocExists {[ "years" := "7+" ]})] w_empty
      = Some view.
Proof.
  apply (useCmsConfig_backend_independent G_anon B_up B_down 6 9); lia.
Defined.

Example submitLead_flaky_stored :
  (λ r, (success r.1,
         length (collection_at
                   ["artifacts"; "default-app-id"; "users"; "user-1"; "zorix_leads"] r.2)))
    <$> submitLead G_anon B_flaky 6 (Some h_zorix) (JStr "user-1") acme_form w_empty
    = Some (true, 1%nat).
Proof. vm_compute. reflexivity. Qed.

Lemma submitLead_append_only_witness :
  ∃ r w',
    submitLead G_anon B_flaky 6 (Some h_zorix) (JStr "user-1") acme_form w_empty = Some (r, w')
    ∧ documents w' = documents w_empty
    ∧ success r = true
    ∧ length (collection_at
                ["artifacts"; "default-app-id"; "users"; "user-1"; "zorix_leads"] w')
      = 1%nat.
Proof.
  pose proof submitLead_flaky_stored as Hstored.
  destruct (submitLead G_anon B_flaky 6 (Some h_zorix) (JStr "user-1") acme_form w_empty)
    as [[r w']|] eqn:Hrun; [|discriminate Hstored].
  pose proof (submitLead_append_only G_anon B_flaky 6 _ _ _ _ _ _ Hrun) as (Hdoc & _).
  exists r, w'. split; [reflexivity|]. split; [exact Hdoc|].
  simpl in Hstored. injection Hstored as Hs Hl. split; [exact Hs|exact Hl].
Defined.

Lemma submitLead_bounded_witness :
  (∃ r w' rest,
     submitLead G_anon B_down 6 (Some h_zorix) (JStr "user-1") acme_form w_empty
       = Some (r, w')
     ∧ calls w' = calls w_empty ++ rest
     ∧ (1 ≤ length (List.filter is_addDoc rest) ≤ 6)%nat
     ∧ 0 ≤ foldr Z.add 0 (timeouts rest) ≤ 31000)
  ∧ (∃ w',
       submitLead G_anon B_up 6 (Some h_zorix) (JStr "a/b") acme_form w_empty
         = Some (MkResult false "Submission failed. Please check your network connection.",
                 w')
       ∧ calls w' = calls w_empty ++ []).
Proof.
  split.
  - destruct (submitLead_bounded G_anon B_down 6 h_zorix (JStr "user-1") acme_form w_empty
                ltac:(lia) eq_refl) as (r & w' & rest & Hrun & Hc & Hw & Hmatch).
    pose proof (Hmatch : _ ∧ _) as (_ & Hn).
    exists r, w', rest. split; [exact Hrun|]. split; [exact Hc|]. split; [exact Hn|exact Hw].
  - destruct (submitLead_bounded G_anon B_up 6 h_zorix (JStr "a/b") acme_form w_empty
                ltac:(lia) eq_refl) as (r & w' & rest & Hrun & Hc & _ & Hmatch).
    pose proof (Hmatch : _ ∧ _) as (Hrest & Hr).
    exists w'. rewrite <- Hr, <- Hrest. split; [exact Hrun|exact Hc].
Defined.

Lemma submitLead_isolated_witness :
  ∃ r w',
    submitLead G_anon B_up 6 (Some h_zorix) (JStr "alice") acme_form w_empty = Some (r, w')
    ∧ collection_at ["artifacts"; "default-app-id"; "users"; "bob"; "zorix_leads"] w'
        = collection_at ["artifacts"; "default-app-id"; "users"; "bob"; "zorix_leads"]
            w_empty
    ∧ getLeadsCollectionRef G_anon h_zorix (JStr "alice/")
        = getLeadsCollectionRef G_anon h_zorix (JStr "alice").
Proof.
  destruct (submitLead G_anon B_up 6 (Some h_zorix) (JStr "alice") acme_form w_empty)
    as [[r w']|] eqn:Hrun; [|discriminate Hrun].
  destruct (submitLead_isolated G_anon B_up 6 h_zorix h_zorix "alice" "bob"
              acme_form w_empty r w' eq_refl eq_refl eq_refl ltac:(discriminate) Hrun)
    as (ref_a & ref_b & Hra & Hrb & _ & Hframe & _ & _ & Hslash).
  exists r, w'. split; [reflexivity|].
  assert (Hb : ref_b = ["artifacts"; "default-app-id"; "users"; "bob"; "zorix_leads"])
    by (vm_compute in Hrb; injection Hrb as <-; reflexivity).
  rewrite <- Hb. split; [exact Hframe|]. exact (eq_trans Hslash (eq_sym Hra)).
Defined.

Lemma submitLead_accepted_on_retry_witness :
  ∃ w',
    submitLead G_anon B_flaky 6 (Some h_zorix) (JStr "user-1") acme_form w_empty
      = Some (MkResult true "Thank you! Your inquiry has been successfully submitted.", w')
    ∧ count_calls is_addDoc w' = (count_calls is_addDoc w_empty + 3)%nat.
Proof.
  destruct (submitLead_accepted_on_retry G_anon B_flaky 6 3 h_zorix (JStr "user-1")
              ["artifacts"; "default-app-id"; "users"; "user-1"; "zorix_leads"]
              acme_form w_empty eq_refl eq_refl)
    as (w' & wk & Hrun & _ & _ & Hcount); [lia|lia| |reflexivity|].
  - intros i Hi. destruct i as [|[|i]]; [reflexivity|reflexivity|lia].
  - exists w'. split; [exact Hrun|exact Hcount].
Defined.

Lemma ContactUsPage_form_shape_witness :
  ∃ s w',
    ContactUsPage.run G_anon B_up 6 (Some h_zorix) (JStr "user-1")
      [ContactUsPage.Change "name" "Acme"; ContactUsPage.Submit;
       ContactUsPage.Change "email" "a@acme.com"]
      ContactUsPage.initial w_empty = Some (s, w')
    ∧ dom (ContactUsPage.formData s) = {[ "name"; "company"; "email"; "phone"; "inquiry" ]}.
Proof.
  destruct (ContactUsPage.run G_anon B_up 6 (Some h_zorix) (JStr "user-1")
              [ContactUsPage.Change "name" "Acme"; ContactUsPage.Submit;
               ContactUsPage.Change "email" "a@acme.com"]
              ContactUsPage.initial w_empty) as [[s w']|] eqn:Hrun; [|discriminate Hrun].
  exists s, w'. split; [reflexivity|].
  refine (proj1 (ContactUsPage_form_shape G_anon B_up 6 _ _ _ _ _ _ _ Hrun)).
  constructor; [apply list_elem_of_here|]. constructor; [exact I|].
  constructor; [do 2 apply list_elem_of_further; apply list_elem_of_here|]. constructor.
Defined.


Example ContactUsPage_submit_succeeds :
  (λ r, ContactUsPage.status_type (ContactUsPage.status r.1))
    <$> ContactUsPage.handleSubmit G_anon B_up 6 (Some h_zorix) (JStr "user-1")
          (ContactUsPage.handleChange "name" "Acme" ContactUsPage.initial) w_empty
    = Some (Some "success").
Proof. vm_compute. reflexivity. Qed.

Lemma ContactUsPage_record_complete_witness :
  ∃ s' w2 record,
    ContactUsPage.handleSubmit G_anon B_up 6 (Some h_zorix) (JStr "user-1")
      (ContactUsPage.handleChange "name" "Acme" ContactUsPage.initial) w_empty
      = Some (s', w2)
    ∧ collection_at ["artifacts"; "default-app-id"; "users"; "user-1"; "zorix_leads"] w2
        = [record]
    ∧ record !! "name" = Some "Acme"
    ∧ record !! "inquiry" = Some "Quote Request"
    ∧ record !! "status" = Some "New".
Proof.
  pose proof ContactUsPage_submit_succeeds as Hsucc.
  destruct (ContactUsPage.handleSubmit G_anon B_up 6 (Some h_zorix) (JStr "user-1")
              (ContactUsPage.handleChange "name" "Acme" ContactUsPage.initial) w_empty)
    as [[s' w2]|] eqn:Hsub; [|discriminate Hsucc].
  simpl in Hsucc. injection Hsucc as Hok.
  destruct (ContactUsPage_record_complete G_anon B_up 6 h_zorix (JStr "user-1")
              [ContactUsPage.Change "name" "Acme"] w_empty
              (ContactUsPage.handleChange "name" "Acme" ContactUsPage.initial) w_empty s' w2)
    as (record & ref & Href & Hcoll & Hsubset & Hstatus & _);
    [constructor; [apply list_elem_of_here|constructor]|reflexivity|exact Hsub|exact Hok|].
  exists s', w2, record. split; [reflexivity|].
  assert (Hr : ref = ["artifacts"; "default-app-id"; "users"; "user-1"; "zorix_leads"])
    by (vm_compute in Href; injection Href as <-; reflexivity).
  rewrite <- Hr. split; [exact Hcoll|].
  split; [|split; [|exact Hstatus]].
  - exact (lookup_weaken _ _ "name" "Acme" eq_refl Hsubset).
  - exact (lookup_weaken _ _ "inquiry" "Quote Request" eq_refl Hsubset).
Defined.

Lemma App_without_config_witness :
  ∃ s,
    App G_none B_up 6 [AuthStateChanged None; SnapshotNext (DocExists ∅)] w_empty
      = Some (s, w_empty)
    ∧ config (cms s) = defaultData.
Proof.
  destruct (App_without_config G_none B_up 6
              [AuthStateChanged None; SnapshotNext (DocExists ∅)] w_empty eq_refl)
    as (s & Hrun & _ & Hcfg & _).
  exists s. split; [exact Hrun|exact Hcfg].
Defined.

Lemma fullscreen_button_consistent_witness :
  BtcPage.fullscreen_btn
    (BtcPage.run [BtcPage.ClickFullscreen true; BtcPage.ClickTheme] BtcPage.loaded)
    = BtcPage.CompressExitFullscreen
  ↔ BtcPage.fullscreenElement
      (BtcPage.run [BtcPage.ClickFullscreen true; BtcPage.ClickTheme] BtcPage.loaded)
    = true.
Proof.
  refine (proj1 (fullscreen_button_consistent
                   [BtcPage.ClickFullscreen true; BtcPage.ClickTheme] _)).
  constructor; [reflexivity|]. constructor; [exact I|]. constructor.
Defined.

Lemma fetchBTCData_writes_witness :
  ∃ doc',
    BtcData.run_on_integers (BtcData.full_body Z 97000 (-1200) (-2) 1900000000000
                               45000000000 19800000) BtcData.initial = (doc', true)
    ∧ BtcData.classes (BtcData.price_change doc') = ["price-change"; "negative"]
    ∧ BtcData.classes (BtcData.price_change_percent doc') = ["price-change"; "negative"]
    ∧ BtcData.classes (BtcData.btc_price (BtcData.blink_timeout doc'))
        = ["text-2xl"; "font-bold"].
Proof.
  destruct (fetchBTCData_writes Z 0 0 (λ x, 0 <=? x) Z.abs (λ x, x / 1000000000)
              (λ x, if x <? 0 then "neg" else "pos") (λ x, if x <? 0 then "neg" else "pos")
              (λ x, if x <? 0 then "neg" else "pos")
              97000 (-1200) (-2) 1900000000000 45000000000 19800000 BtcData.initial)
    as (doc' & Hrun & _ & _ & Hc1 & Hc2 & _ & _ & _ & _ & _ & Hblink & _).
  - intros H. apply elem_of_cons in H as [H|H]; [discriminate H|].
    apply elem_of_cons in H as [H|H]; [discriminate H|]. by apply elem_of_nil in H.
  - exists doc'. split; [exact Hrun|]. split; [exact Hc1|].
    split; [rewrite Hc2; exact Hc1|exact Hblink].
Defined.

Lemma fetchBTCData_stops_at_error_witness :
  ∃ doc',
    BtcData.run_on_integers
      (BtcData.body_without_percent Z 97000 (BtcData.Num (-1200)) BtcData.Missing
         (BtcData.Obj (BtcData.MkUsd Z (BtcData.Num 1900000000000)))
         (BtcData.Obj (BtcData.MkUsd Z (BtcData.Num 45000000000)))
         (BtcData.Num 19800000)) BtcData.initial = (doc', false)
    ∧ BtcData.market_cap_el doc' = BtcData.market_cap_el BtcData.initial
    ∧ BtcData.textContent (BtcData.btc_price doc') = "$pos"
    ∧ BtcData.textContent (BtcData.price_change doc') = "-$pos".
Proof.
  destruct (fetchBTCData_stops_at_error Z 0 0 (λ x, 0 <=? x) Z.abs (λ x, x / 1000000000)
              (λ x, if x <? 0 then "neg" else "pos") (λ x, if x <? 0 then "neg" else "pos")
              (λ x, if x <? 0 then "neg" else "pos")
              97000 (BtcData.Num (-1200)) BtcData.Missing
              (BtcData.Obj (BtcData.MkUsd Z (BtcData.Num 1900000000000)))
              (BtcData.Obj (BtcData.MkUsd Z (BtcData.Num 45000000000)))
              (BtcData.Num 19800000) BtcData.initial
              (or_introl eq_refl) ltac:(discriminate) ltac:(discriminate))
    as (doc' & Hrun & Hprice & Htext & _ & _ & _ & _ & Hcap & _).
  exists doc'. split; [exact Hrun|]. split; [exact Hcap|].
  split; [rewrite Hprice; reflexivity|exact Htext].
Defined.
